(** * Resume builder backend: rendering and AI-optimisation pipeline

    A shallow embedding of the Python services of the resume builder
    ([app/services/pdf_service.py], [app/services/ai_service.py],
    [app/services/resume_builder.py], [app/routers/resume.py]) and the
    properties of its specification.

    Python strings are sequences of Unicode code points, so [pystr] is a list
    of code points ([N]); ASCII text is written with [u "..."]. *)

From Stdlib Require Import List NArith ZArith Bool Ascii String Lia Arith.
From Stdlib Require Import DecimalString SpecFloat.
Import ListNotations.

Set Implicit Arguments.
Set Warnings "-register-all".

(** ** Python run time: strings, values, exceptions, effects *)

Module Py.

Definition char := N.
Definition pystr := list char.

(** ASCII literal to code points. *)
Definition u (s : string) : pystr := map N_of_ascii (list_ascii_of_string s).
Arguments u s%_string_scope.

Definition dq : pystr := [34%N].        (* the double quote character *)
(** ASCII text between double quotes. *)
Definition q (s : string) : pystr := dq ++ u s ++ dq.
Arguments q s%_string_scope.
Definition nl : char := 10%N.
Definition underscore : char := 95%N.
Definition hyphen : char := 45%N.
Definition bullet : char := 8226%N.     (* U+2022 BULLET *)

Definition eqb_str (a b : pystr) : bool :=
  if list_eq_dec N.eq_dec a b then true else false.

(** [bool(s)] for a string: non-empty. *)
Definition nonempty (s : pystr) : bool :=
  match s with [] => false | _ :: _ => true end.

(** [s.startswith(p)] *)
Fixpoint startswith (p s : pystr) : bool :=
  match p, s with
  | [], _ => true
  | _ :: _, [] => false
  | a :: p', b :: s' => N.eqb a b && startswith p' s'
  end.

(** [s.endswith(p)] *)
Definition endswith (p s : pystr) : bool := startswith (rev p) (rev s).

(** [p in s] for strings: [p] occurs as a substring of [s]. *)
Fixpoint contains (p s : pystr) : bool :=
  startswith p s ||
  match s with
  | [] => false
  | _ :: t => contains p t
  end.

(** [c in chars] for a single character. *)
Definition mem (c : char) (chars : pystr) : bool := existsb (N.eqb c) chars.

(** [str.isspace] on one code point: the white space of [str.strip()] and of
    the regular expression class [\s]. *)
Definition is_space (c : char) : bool :=
  ((9 <=? c) && (c <=? 13) || (28 <=? c) && (c <=? 32)
   || (c =? 133) || (c =? 160) || (c =? 5760)
   || (8192 <=? c) && (c <=? 8202) || (c =? 8232) || (c =? 8233)
   || (c =? 8239) || (c =? 8287) || (c =? 12288))%N.

(** Drop the leading characters that satisfy [f]. *)
Fixpoint dropwhile (f : char -> bool) (s : pystr) : pystr :=
  match s with
  | [] => []
  | c :: t => if f c then dropwhile f t else s
  end.

Definition lstrip_by (f : char -> bool) (s : pystr) : pystr := dropwhile f s.
Definition rstrip_by (f : char -> bool) (s : pystr) : pystr :=
  rev (dropwhile f (rev s)).

(** [s.strip()] *)
Definition strip (s : pystr) : pystr := rstrip_by is_space (lstrip_by is_space s).

(** [s.lstrip(chars)] and [s.strip(chars)] *)
Definition lstrip_chars (chars s : pystr) : pystr :=
  lstrip_by (fun c => mem c chars) s.
Definition strip_chars (chars s : pystr) : pystr :=
  rstrip_by (fun c => mem c chars) (lstrip_by (fun c => mem c chars) s).

(** [s.replace(old, new)] for a non-empty [old]: occurrences are replaced from
    left to right without overlap. [skip] counts the characters of a matched
    occurrence that are still to be passed over. *)
Fixpoint replace_from (old new : pystr) (skip : nat) (s : pystr) : pystr :=
  match s with
  | [] => []
  | c :: t =>
      match skip with
      | S k => replace_from old new k t
      | O =>
          if startswith old s
          then new ++ replace_from old new (List.length old - 1) t
          else c :: replace_from old new 0 t
      end
  end.

Definition replace (old new s : pystr) : pystr := replace_from old new 0 s.

(** [s.split(sep)] for a one-character separator. *)
Fixpoint split_acc (sep : char) (cur : pystr) (s : pystr) : list pystr :=
  match s with
  | [] => [rev cur]
  | c :: t =>
      if N.eqb c sep then rev cur :: split_acc sep [] t
      else split_acc sep (c :: cur) t
  end.

Definition split (sep : char) (s : pystr) : list pystr := split_acc sep [] s.

(** [sep.join(items)] *)
Fixpoint join (sep : pystr) (items : list pystr) : pystr :=
  match items with
  | [] => []
  | [x] => x
  | x :: rest => x ++ sep ++ join sep rest
  end.

(** [s[:n]] *)
Definition take (n : nat) (s : pystr) : pystr := firstn n s.

(** [enumerate(items, start)] *)
Definition enumerate {A} (start : nat) (items : list A) : list (nat * A) :=
  combine (seq start (List.length items)) items.

(** The leading characters that satisfy [f]. *)
Fixpoint takewhile (f : char -> bool) (s : pystr) : pystr :=
  match s with
  | [] => []
  | c :: t => if f c then c :: takewhile f t else []
  end.

(** [re.sub(pattern, repl, s, flags=re.MULTILINE)] for a pattern that never
    matches the empty string. [m bol rest] is the length of the match of the
    pattern at the current position, if there is one: [rest] is the text from
    that position on and [bol] tells whether the position starts a line (the
    start of the text, or just after a line feed). The text is scanned from
    left to right; a match is replaced by [repl] and the scan goes on after
    it. [skip] counts the characters of the current match still to pass. *)
Fixpoint re_sub_from (m : bool -> pystr -> option nat) (repl : pystr)
    (skip : nat) (bol : bool) (s : pystr) : pystr :=
  match s with
  | [] => []
  | c :: t =>
      match skip with
      | S k => re_sub_from m repl k (N.eqb c nl) t
      | O =>
          match m bol s with
          | Some (S n) => repl ++ re_sub_from m repl n (N.eqb c nl) t
          | _ => c :: re_sub_from m repl 0 (N.eqb c nl) t
          end
      end
  end.

Definition re_sub (m : bool -> pystr -> option nat) (repl s : pystr) : pystr :=
  re_sub_from m repl 0 true s.

(** The pattern [^lit\s*] under [re.MULTILINE]: [lit] at the start of a line,
    with all the white space that follows it. *)
Definition at_line_start_ws (lit : pystr) (bol : bool) (rest : pystr)
  : option nat :=
  if bol && startswith lit rest
  then Some (List.length lit
             + List.length (takewhile is_space (skipn (List.length lit) rest)))
  else None.

(** The pattern [lit$] under [re.MULTILINE]: [lit] at the end of a line (the
    end of the text, or just before a line feed). *)
Definition at_line_end (lit : pystr) (bol : bool) (rest : pystr) : option nat :=
  if startswith lit rest
  then match skipn (List.length lit) rest with
       | [] => Some (List.length lit)
       | c :: _ => if N.eqb c nl then Some (List.length lit) else None
       end
  else None.

(** [str(i)] for a non-negative integer. *)
Definition str_of_nat (n : nat) : pystr :=
  u (NilEmpty.string_of_uint (Nat.to_uint n)).

(** Exceptions, each with the text [str(e)] gives. *)
Inductive exn : Type :=
| AttributeError (msg : pystr)
| TypeError (msg : pystr)
| AIServiceError (msg : pystr)
| PDFServiceError (msg : pystr)
| HTTPException (status_code : nat) (detail : pystr)
| OtherException (msg : pystr).

(** [str(e)] *)
Definition exn_str (e : exn) : pystr :=
  match e with
  | AttributeError msg | TypeError msg | AIServiceError msg
  | PDFServiceError msg | OtherException msg => msg
  | HTTPException status_code detail => str_of_nat status_code ++ u ": " ++ detail
  end.

(** A call either returns or raises. *)
Inductive result (A : Type) : Type :=
| Ok (a : A)
| Raise (e : exn).
Arguments Ok {A} a.
Arguments Raise {A} e.

Definition bind {A B} (r : result A) (k : A -> result B) : result B :=
  match r with
  | Ok a => k a
  | Raise e => Raise e
  end.

Notation "x <- r ;; k" := (bind r (fun x => k))
  (at level 61, r at next level, right associativity).

(** A [for] loop whose body may raise: the items are visited in order and the
    first exception ends the loop. *)
Fixpoint for_each {A S} (body : S -> A -> result S) (items : list A) (st : S)
  : result S :=
  match items with
  | [] => Ok st
  | x :: rest => st' <- body st x ;; for_each body rest st'
  end.

(** The outside world: what a call does besides returning. *)
Inductive Provider := OpenAI | Claude | Gemini.

Inductive Event : Type :=
| CallProvider (api : Provider) (prompt : pystr)   (* HTTP POST to an AI provider *)
| MakeOutputDir                                    (* [output_dir.mkdir] *)
| RenderPdf (path : pystr)                         (* the attempt with xhtml2pdf *)
| RenderPdfFallback (path : pystr).                (* the attempt with reportlab *)

(** An effectful call: its outcome and the events it caused, in order. *)
Definition io (A : Type) : Type := (result A * list Event)%type.

Definition ret {A} (a : A) : io A := (Ok a, []).
Definition raise {A} (e : exn) : io A := (Raise e, []).
Definition emit (ev : Event) : io unit := (Ok tt, [ev]).
Definition lift {A} (r : result A) : io A := (r, []).

Definition io_bind {A B} (m : io A) (k : A -> io B) : io B :=
  match m with
  | (Ok a, t) => let '(r, t') := k a in (r, t ++ t')
  | (Raise e, t) => (Raise e, t)
  end.

Notation "x <~ m ;; k" := (io_bind m (fun x => k))
  (at level 61, m at next level, right associativity).

(** [try: m except <handled> as e: h e]; [handles e] tells whether the
    [except] clause takes [e]. *)
Definition try_except {A} (m : io A) (handles : exn -> bool) (h : exn -> io A)
  : io A :=
  match m with
  | (Raise e, t) =>
      if handles e then let '(r, t') := h e in (r, t ++ t') else (Raise e, t)
  | ok => ok
  end.

(** Python values as [json.loads] produces them. *)
Inductive pyval : Type :=
| PNone
| PBool (b : bool)
| PInt (z : Z)
| PFloat (f : spec_float)
| PStr (s : pystr)
| PList (items : list pyval)
| PDict (entries : list (pystr * pyval)).

(** [bool(v)] *)
Definition truthy (v : pyval) : bool :=
  match v with
  | PNone => false
  | PBool b => b
  | PInt z => negb (Z.eqb z 0)
  | PFloat (S754_zero _) => false
  | PFloat _ => true
  | PStr s => nonempty s
  | PList l => match l with [] => false | _ => true end
  | PDict d => match d with [] => false | _ => true end
  end.

(** [d.get(key, default)] on the entries of a dict. *)
Fixpoint dict_get (d : list (pystr * pyval)) (key : pystr) (default : pyval)
  : pyval :=
  match d with
  | [] => default
  | (k, v) :: rest => if eqb_str k key then v else dict_get rest key default
  end.

(** [type(v).__name__] *)
Definition type_name (v : pyval) : pystr :=
  match v with
  | PNone => u "NoneType"
  | PBool _ => u "bool"
  | PInt _ => u "int"
  | PFloat _ => u "float"
  | PStr _ => u "str"
  | PList _ => u "list"
  | PDict _ => u "dict"
  end.

(** [v.get(key, default)]: only a dict has the method. *)
Definition py_get (v : pyval) (key : pystr) (default : pyval) : result pyval :=
  match v with
  | PDict d => Ok (dict_get d key default)
  | _ => Raise (AttributeError
                  (u "'" ++ type_name v ++ u "' object has no attribute 'get'"))
  end.

(** The items a [for] loop over [v] visits: the elements of a list, the
    characters of a string, the keys of a dict; other values are not
    iterable. *)
Definition py_iter (v : pyval) : result (list pyval) :=
  match v with
  | PList l => Ok l
  | PStr s => Ok (map (fun c => PStr [c]) s)
  | PDict d => Ok (map (fun kv => PStr (fst kv)) d)
  | _ => Raise (TypeError (u "'" ++ type_name v ++ u "' object is not iterable"))
  end.

End Py.
Import Py.

(** ** [app/services/pdf_service.py]: file names *)

Module PDFService.

Section Runtime.

(** [str.lower]: the case mapping of the Unicode database of the Python
    run time, which is not part of the repository. *)
Variable str_lower : pystr -> pystr.

Definition invalid_chars : pystr := u "<>:" ++ dq ++ u "/\|?*".

(** [while "__" in sanitized: sanitized = sanitized.replace("__", "_")];
    every round shortens the string, so its length bounds the rounds. *)
Fixpoint collapse_loop (rounds : nat) (sanitized : pystr) : pystr :=
  match rounds with
  | O => sanitized
  | S n =>
      if contains (u "__") sanitized
      then collapse_loop n (replace (u "__") (u "_") sanitized)
      else sanitized
  end.

(** [PDFService._sanitize_filename]; [uuid4] is the text of
    [str(uuid.uuid4())] at the time of the call. *)
Definition _sanitize_filename (uuid4 : pystr) (filename : pystr) : pystr :=
  let sanitized := filename in
  let sanitized :=
    fold_left (fun acc c => replace [c] (u "_") acc) invalid_chars sanitized in
  let sanitized := replace (u " ") (u "_") sanitized in
  let sanitized := collapse_loop (List.length sanitized) sanitized in
  let sanitized := str_lower (strip_chars (u "_") sanitized) in
  if nonempty sanitized then sanitized else take 8 uuid4.

(** The name part of [PDFService.generate_pdf]:
    [filename], else [candidate_name], else a random token. *)
Definition safe_filename (uuid4 : pystr)
    (filename candidate_name : option pystr) : pystr :=
  match filename with
  | Some ((_ :: _) as f) => _sanitize_filename uuid4 f
  | _ =>
      match candidate_name with
      | Some ((_ :: _) as n) => _sanitize_filename uuid4 n
      | _ => take 8 uuid4
      end
  end.

(** What the file system and the PDF libraries do, outside the code. *)
Record World := mkWorld {
  uuid4 : pystr;                    (* the text of [str(uuid.uuid4())] *)
  output_dir : pystr;               (* [GENERATED_DIR] *)
  mkdir_error : option exn;         (* the exception of [mkdir], if any *)
  xhtml2pdf_ok : pystr -> pystr -> bool;
      (* html, path: xhtml2pdf is installed and writes the file without error *)
  reportlab_error : pystr -> pystr -> pystr -> option exn
      (* html, path, title: the exception of the reportlab fallback, if any *)
}.

(** [PDFService.__init__] with the default directory. *)
Definition __init__ (w : World) : io unit :=
  _ <~ emit MakeOutputDir ;;
  match mkdir_error w with
  | Some e => raise e
  | None => ret tt
  end.

(** [PDFService.generate_pdf]: any failure of xhtml2pdf, its own
    [PDFServiceError] included, is caught and leads to the reportlab
    fallback, whose exceptions are not caught. *)
Definition generate_pdf (w : World) (html_content : pystr)
    (filename candidate_name : option pystr) : io (pystr * pystr) :=
  let safe_filename := safe_filename (uuid4 w) filename candidate_name in
  let pdf_filename := safe_filename ++ u "_resume.pdf" in
  let pdf_path := output_dir w ++ u "/" ++ pdf_filename in
  _ <~ emit (RenderPdf pdf_path) ;;
  if xhtml2pdf_ok w html_content pdf_path
  then ret (pdf_filename, pdf_path)
  else
    let title :=
      match candidate_name with
      | Some ((_ :: _) as n) => n
      | _ => u "Resume"
      end in
    _ <~ emit (RenderPdfFallback pdf_path) ;;
    match reportlab_error w html_content pdf_path title with
    | Some e => raise e
    | None => ret (pdf_filename, pdf_path)
    end.

(** [PDFService.get_download_url] *)
Definition get_download_url (filename : pystr) : pystr :=
  u "/api/resume/download/" ++ filename.

End Runtime.

(** ASCII lower-casing, the part of [str.lower] that does not need the
    Unicode tables. *)
Definition ascii_lower_char (c : char) : char :=
  if ((65 <=? c) && (c <=? 90))%N then (c + 32)%N else c.

Definition ascii_lower (s : pystr) : pystr := map ascii_lower_char s.

Definition is_ascii (s : pystr) : Prop := Forall (fun c => (c < 128)%N) s.

(** What is known of [str.lower] without the tables: on ASCII text it is
    [ascii_lower]. *)
Definition lower_on_ascii (str_lower : pystr -> pystr) : Prop :=
  forall s, is_ascii s -> str_lower s = ascii_lower s.

End PDFService.


(** ** [app/schemas.py]: request and response shapes (validated by pydantic,
    so every field holds a string or a list of strings) *)

Module PersonalInfo.
Record t := mk {
  full_name : pystr;
  email : pystr;
  phone : pystr;
  location : pystr;
  linkedin : option pystr;
  portfolio : option pystr }.
End PersonalInfo.

Module ExperienceItem.
Record t := mk {
  company : pystr;
  role : pystr;
  start_date : pystr;
  end_date : pystr;
  responsibilities : pystr }.
End ExperienceItem.

Module EducationItem.
Record t := mk {
  degree : pystr;
  institution : pystr;
  year : pystr }.
End EducationItem.

Module ResumeRequest.
Record t := mk {
  personal_info : PersonalInfo.t;
  summary : pystr;
  skills : list pystr;
  experience : list ExperienceItem.t;
  education : list EducationItem.t;
  job_description : pystr;
  template : pystr }.

(** The constraints of the schema ([min_length=1]). *)
Definition valid (r : t) : Prop :=
  PersonalInfo.full_name (personal_info r) <> []
  /\ Forall (fun e => ExperienceItem.company e <> []
                      /\ ExperienceItem.role e <> []) (experience r)
  /\ Forall (fun e => EducationItem.degree e <> []
                      /\ EducationItem.institution e <> []) (education r).
End ResumeRequest.

Module OptimizedExperienceItem.
Record t := mk {
  company : pystr;
  role : pystr;
  start_date : pystr;
  end_date : pystr;
  responsibilities : pystr;
  achievements : list pystr }.
End OptimizedExperienceItem.

Module OptimizedEducationItem.
Record t := mk {
  degree : pystr;
  institution : pystr;
  year : pystr }.
End OptimizedEducationItem.

Module ResumeResponse.
Record t := mk {
  optimized_summary : pystr;
  optimized_experience : list OptimizedExperienceItem.t;
  optimized_education : list OptimizedEducationItem.t;
  optimized_skills : list pystr;
  resume_html : pystr;
  pdf_download_url : pystr }.
End ResumeResponse.

(** ** [app/models.py]: internal dataclasses

    A dataclass does not check the types of its fields. The renderer reads
    them at their declared types (strings, [S := pystr], and lists of
    strings, [L := list pystr]); the response normalizer stores whatever the
    AI response holds ([S := pyval], [L := pyval]). *)

Module PersonalInfoModel.
Record t := mk {
  full_name : pystr;
  email : pystr;
  phone : pystr;
  location : pystr;
  linkedin : option pystr;
  portfolio : option pystr }.
End PersonalInfoModel.

Module ExperienceModel.
Record t (S L : Type) := mk {
  company : S;
  role : S;
  start_date : S;
  end_date : S;
  responsibilities : S;
  achievements : L }.
Arguments mk {S L}.
Arguments company {S L}.
Arguments role {S L}.
Arguments start_date {S L}.
Arguments end_date {S L}.
Arguments responsibilities {S L}.
Arguments achievements {S L}.
End ExperienceModel.

Module EducationModel.
Record t (S : Type) := mk {
  degree : S;
  institution : S;
  year : S }.
Arguments mk {S}.
Arguments degree {S}.
Arguments institution {S}.
Arguments year {S}.
End EducationModel.

Module OptimizedResumeData.
Record t (S L : Type) := mk {
  summary : S;
  experience : list (ExperienceModel.t S L);
  education : list (EducationModel.t S);
  skills : L;
  ats_keywords : L }.
Arguments mk {S L}.
Arguments summary {S L}.
Arguments experience {S L}.
Arguments education {S L}.
Arguments skills {S L}.
Arguments ats_keywords {S L}.
End OptimizedResumeData.

(** ** [app/services/ai_service.py] *)

Module AIService.

(** The credentials of [app/config.py], read from the environment; an unset
    variable is the empty string. *)
Record Config := mkConfig {
  OPENAI_API_KEY : pystr;
  ANTHROPIC_API_KEY : pystr;
  GEMINI_API_KEY : pystr }.

(** The attributes of an [AIService] object. *)
Record t := mk {
  use_claude : bool;
  use_gemini : bool;
  openai_api_key : pystr;
  anthropic_api_key : pystr;
  gemini_api_key : pystr }.

(** [AIService.__init__] *)
Definition __init__ (cfg : Config) (use_claude use_gemini : bool) : result t :=
  let openai_api_key := OPENAI_API_KEY cfg in
  let anthropic_api_key := ANTHROPIC_API_KEY cfg in
  let gemini_api_key := GEMINI_API_KEY cfg in
  let '(use_claude, use_gemini) :=
    if negb use_claude && negb use_gemini then
      if nonempty gemini_api_key then (use_claude, true)
      else if nonempty anthropic_api_key then (true, use_gemini)
      else (use_claude, use_gemini)
    else (use_claude, use_gemini) in
  if negb (existsb nonempty [openai_api_key; anthropic_api_key; gemini_api_key])
  then Raise (AIServiceError (u "No API key configured. Set OPENAI_API_KEY, ANTHROPIC_API_KEY, or GEMINI_API_KEY in .env"))
  else Ok (mk use_claude use_gemini
             openai_api_key anthropic_api_key gemini_api_key).

(** The [if]/[elif] chain of [AIService.optimize_resume] that picks the API
    to call. *)
Definition select_api (self : t) : result Provider :=
  if use_gemini self && nonempty (gemini_api_key self) then Ok Gemini
  else if use_claude self && nonempty (anthropic_api_key self) then Ok Claude
  else if nonempty (openai_api_key self) then Ok OpenAI
  else Raise (AIServiceError (u "No valid API key available for the selected service")).

(** The block of one experience entry, numbered [i]. *)
Definition experience_block (i : nat) (exp : ExperienceItem.t) : pystr :=
  u "
EXPERIENCE " ++ str_of_nat i ++ u ":
Company: " ++ ExperienceItem.company exp ++ u "
Role: " ++ ExperienceItem.role exp ++ u "
Period: " ++ ExperienceItem.start_date exp ++ u " - "
  ++ ExperienceItem.end_date exp ++ u "
Responsibilities: " ++ ExperienceItem.responsibilities exp ++ u "
".

Definition education_line (edu : EducationItem.t) : pystr :=
  u "
- " ++ EducationItem.degree edu ++ u ", " ++ EducationItem.institution edu
  ++ u ", " ++ EducationItem.year edu ++ u "
".

(** The local variables of [AIService._build_optimization_prompt]. *)
Definition job_context (request : ResumeRequest.t) : pystr :=
  if nonempty (ResumeRequest.job_description request)
  then
    u "
TARGET JOB DESCRIPTION:
" ++ ResumeRequest.job_description request ++ u "
"
  else [].

Definition experience_context (request : ResumeRequest.t) : pystr :=
  fold_left (fun acc ie => acc ++ experience_block (fst ie) (snd ie))
    (enumerate 1 (ResumeRequest.experience request)) [].

Definition education_context (request : ResumeRequest.t) : pystr :=
  fold_left (fun acc edu => acc ++ education_line edu)
    (ResumeRequest.education request) [].

Definition skills_context (request : ResumeRequest.t) : pystr :=
  match ResumeRequest.skills request with
  | [] => u "Not provided"
  | skills => join (u ", ") skills
  end.

(** The two optional lines of the personal details. *)
Definition linkedin_line (info : PersonalInfo.t) : pystr :=
  match PersonalInfo.linkedin info with
  | Some ((_ :: _) as l) => u "- LinkedIn: " ++ l
  | _ => []
  end.

Definition portfolio_line (info : PersonalInfo.t) : pystr :=
  match PersonalInfo.portfolio info with
  | Some ((_ :: _) as p) => u "- Portfolio: " ++ p
  | _ => []
  end.

(** [AIService._build_optimization_prompt] *)
Definition _build_optimization_prompt (request : ResumeRequest.t) : pystr :=
  let info := ResumeRequest.personal_info request in
  u "
You are an expert resume writer and career coach with 15+ years of experience.
Your task is to optimize a resume to make it highly effective, ATS-friendly, and compelling to hiring managers.

" ++ job_context request ++ u "

CANDIDATE INFORMATION:

PERSONAL DETAILS:
- Name: " ++ PersonalInfo.full_name info ++ u "
- Email: " ++ PersonalInfo.email info ++ u "
- Phone: " ++ PersonalInfo.phone info ++ u "
- Location: " ++ PersonalInfo.location info ++ u "
" ++ linkedin_line info ++ u "
" ++ portfolio_line info ++ u "

CURRENT SUMMARY:
" ++ ResumeRequest.summary request ++ u "

SKILLS:
" ++ skills_context request ++ u "

EXPERIENCE:" ++ experience_context request ++ u "

EDUCATION:" ++ education_context request ++ u "

---

OPTIMIZATION REQUIREMENTS:

1. PROFESSIONAL SUMMARY:
   - Rewrite to be impactful, concise, and tailored to the target role
   - Include relevant keywords from the job description
   - Highlight unique value proposition
   - Keep it 3-5 lines maximum

2. WORK EXPERIENCE:
   - Rewrite each role using action verbs and the STAR method
   - Quantify achievements with specific metrics (%, $, numbers)
   - Focus on impact and results, not just responsibilities
   - Include 3-5 bullet points per role with measurable outcomes
   - Optimize for ATS keywords relevant to the target job

3. SKILLS OPTIMIZATION:
   - Reorganize skills into logical categories
   - Add relevant keywords from job description that match candidate's background
   - Remove redundant or outdated skills
   - Prioritize in-demand technical and soft skills

4. ATS OPTIMIZATION:
   - Extract and incorporate relevant keywords from the job description
   - Use standard job titles and industry terminology
   - Ensure proper keyword density without keyword stuffing

5. GENERAL IMPROVEMENTS:
   - Fix any grammar, spelling, or clarity issues
   - Maintain professional tone throughout
   - Ensure consistency in formatting and style
   - Remove clich" ++ [195%N] ++ [169%N] ++ u "s and generic phrases

---

RESPONSE FORMAT:
Return ONLY valid JSON in this exact structure (no markdown, no explanations):

{
    " ++ q "optimized_summary" ++ u ": "
  ++ q "The rewritten professional summary" ++ u ",
    " ++ q "optimized_experience" ++ u ": [
        {
            " ++ q "company" ++ u ": " ++ q "Company Name" ++ u ",
            " ++ q "role" ++ u ": " ++ q "Job Title" ++ u ",
            " ++ q "start_date" ++ u ": " ++ q "Start Date" ++ u ",
            " ++ q "end_date" ++ u ": " ++ q "End Date" ++ u ",
            " ++ q "responsibilities" ++ u ": "
  ++ q "Rewritten responsibilities and achievements as bullet points with metrics"
  ++ u ",
            " ++ q "achievements" ++ u ": [" ++ q "Achievement 1 with metric"
  ++ u ", " ++ q "Achievement 2 with metric" ++ u ", "
  ++ q "Achievement 3 with metric" ++ u "]
        }
    ],
    " ++ q "optimized_education" ++ u ": [
        {
            " ++ q "degree" ++ u ": " ++ q "Degree Name" ++ u ",
            " ++ q "institution" ++ u ": " ++ q "Institution Name" ++ u ",
            " ++ q "year" ++ u ": " ++ q "Year" ++ u "
        }
    ],
    " ++ q "optimized_skills" ++ u ": [" ++ q "Skill 1" ++ u ", "
  ++ q "Skill 2" ++ u ", " ++ q "Skill 3" ++ u ", ...],
    " ++ q "ats_keywords" ++ u ": [" ++ q "keyword1" ++ u ", " ++ q "keyword2"
  ++ u ", " ++ q "keyword3" ++ u ", ...]
}
".

(** The clean-up of [AIService._extract_json_from_response]: three
    [re.sub] with [re.MULTILINE], then [strip]. *)
Definition fence : pystr := u "```".
Definition fence_json : pystr := u "```json".

Definition strip_fences (content : pystr) : pystr :=
  let content := re_sub (at_line_start_ws fence_json) [] content in
  let content := re_sub (at_line_start_ws fence) [] content in
  let content := re_sub (at_line_end fence) [] content in
  strip content.

(** The entries [AIService._parse_ai_response] builds: from the original
    request (achievements empty) and from an item of the AI response. *)
Definition experience_of_request (exp : ExperienceItem.t)
  : ExperienceModel.t pyval pyval :=
  ExperienceModel.mk
    (PStr (ExperienceItem.company exp))
    (PStr (ExperienceItem.role exp))
    (PStr (ExperienceItem.start_date exp))
    (PStr (ExperienceItem.end_date exp))
    (PStr (ExperienceItem.responsibilities exp))
    (PList []).

Definition experience_of_ai (exp_data : pyval)
  : result (ExperienceModel.t pyval pyval) :=
  company <- py_get exp_data (u "company") (PStr []) ;;
  role <- py_get exp_data (u "role") (PStr []) ;;
  start_date <- py_get exp_data (u "start_date") (PStr []) ;;
  end_date <- py_get exp_data (u "end_date") (PStr []) ;;
  responsibilities <- py_get exp_data (u "responsibilities") (PStr []) ;;
  achievements <- py_get exp_data (u "achievements") (PList []) ;;
  Ok (ExperienceModel.mk company role start_date end_date
        responsibilities achievements).

Definition education_of_request (edu : EducationItem.t)
  : EducationModel.t pyval :=
  EducationModel.mk
    (PStr (EducationItem.degree edu))
    (PStr (EducationItem.institution edu))
    (PStr (EducationItem.year edu)).

Definition education_of_ai (edu_data : pyval)
  : result (EducationModel.t pyval) :=
  degree <- py_get edu_data (u "degree") (PStr []) ;;
  institution <- py_get edu_data (u "institution") (PStr []) ;;
  year <- py_get edu_data (u "year") (PStr []) ;;
  Ok (EducationModel.mk degree institution year).

(** The experience block of the normalizer. *)
Definition parse_experience (response_data : pyval)
    (original_request : ResumeRequest.t)
  : result (list (ExperienceModel.t pyval pyval)) :=
  ai_experience <- py_get response_data (u "optimized_experience") (PList []) ;;
  if negb (truthy ai_experience) then
    Ok (fold_left (fun optimized_experience exp =>
                     optimized_experience ++ [experience_of_request exp])
          (ResumeRequest.experience original_request) [])
  else
    items <- py_iter ai_experience ;;
    for_each (fun optimized_experience exp_data =>
                e <- experience_of_ai exp_data ;;
                Ok (optimized_experience ++ [e]))
      items [].

(** The education block of the normalizer. *)
Definition parse_education (response_data : pyval)
    (original_request : ResumeRequest.t)
  : result (list (EducationModel.t pyval)) :=
  ai_education <- py_get response_data (u "optimized_education") (PList []) ;;
  if negb (truthy ai_education) then
    Ok (fold_left (fun optimized_education edu =>
                     optimized_education ++ [education_of_request edu])
          (ResumeRequest.education original_request) [])
  else
    items <- py_iter ai_education ;;
    for_each (fun optimized_education edu_data =>
                e <- education_of_ai edu_data ;;
                Ok (optimized_education ++ [e]))
      items [].

(** [AIService._parse_ai_response]; no statement of its [try] block raises
    [KeyError], so the [except] clause never runs. *)
Definition _parse_ai_response (response_data : pyval)
    (original_request : ResumeRequest.t)
  : result (OptimizedResumeData.t pyval pyval) :=
  optimized_summary <-
    py_get response_data (u "optimized_summary")
      (PStr (ResumeRequest.summary original_request)) ;;
  optimized_experience <- parse_experience response_data original_request ;;
  optimized_education <- parse_education response_data original_request ;;
  optimized_skills <-
    py_get response_data (u "optimized_skills")
      (PList (map PStr (ResumeRequest.skills original_request))) ;;
  ats_keywords <- py_get response_data (u "ats_keywords") (PList []) ;;
  Ok (OptimizedResumeData.mk optimized_summary optimized_experience
        optimized_education optimized_skills ats_keywords).

(** What [json.loads] does with a text: it returns the decoded value, or
    raises [json.JSONDecodeError] (with the text [str(e)] gives), or raises
    another exception: the [RecursionError] of a text nested too deep, the
    plain [ValueError] of an integer literal over the digit limit. *)
Inductive loads_outcome : Type :=
| Decoded (v : pyval)
| JSONDecodeError (text : pystr)
| LoadsRaises (e : exn).

Section Calls.

(** The exchange with a provider: the HTTP POST of the prompt and the
    extraction of the generated text from the provider's envelope; a
    failure is an [AIServiceError]. *)
Variable provider_text : Provider -> pystr -> result pystr.

(** [json.loads] on a text. *)
Variable json_loads : pystr -> loads_outcome.

(** [AIService._extract_json_from_response]: the [except] clause takes a
    [json.JSONDecodeError] only. *)
Definition _extract_json_from_response (content : pystr) : result pyval :=
  match json_loads (strip_fences content) with
  | Decoded v => Ok v
  | JSONDecodeError e =>
      Raise (AIServiceError (u "Failed to parse AI response as JSON: " ++ e))
  | LoadsRaises e => Raise e
  end.

Definition post (api : Provider) (prompt : pystr) : io pystr :=
  _ <~ emit (CallProvider api prompt) ;;
  lift (provider_text api prompt).

Definition _call_openai_api (prompt : pystr) : io pyval :=
  content <~ post OpenAI prompt ;;
  lift (_extract_json_from_response content).

Definition _call_claude_api (prompt : pystr) : io pyval :=
  content <~ post Claude prompt ;;
  lift (_extract_json_from_response content).

Definition _call_gemini_api (prompt : pystr) : io pyval :=
  let system_instruction :=
    u "You are an expert resume writer. Return ONLY valid JSON, no markdown formatting, no explanations." in
  let full_prompt := system_instruction ++ [nl; nl] ++ prompt in
  content <~ post Gemini full_prompt ;;
  lift (_extract_json_from_response content).

(** [AIService.optimize_resume] *)
Definition optimize_resume (self : t) (request : ResumeRequest.t)
  : io (OptimizedResumeData.t pyval pyval) :=
  let prompt := _build_optimization_prompt request in
  api <~ lift (select_api self) ;;
  response_data <~
    match api with
    | Gemini => _call_gemini_api prompt
    | Claude => _call_claude_api prompt
    | OpenAI => _call_openai_api prompt
    end ;;
  lift (_parse_ai_response response_data request).

End Calls.

End AIService.

(** ** [app/services/resume_builder.py] *)

Module ResumeBuilder.

(** A template: four presentation constants. *)
Record TemplateConfig := mkTemplate {
  primary_color : pystr;
  secondary_color : pystr;
  font_family : pystr;
  section_spacing : pystr }.

Definition modern : TemplateConfig :=
  mkTemplate (u "#2563eb") (u "#64748b")
    (u "'Segoe UI', Tahoma, Geneva, Verdana, sans-serif") (u "24px").

Definition classic : TemplateConfig :=
  mkTemplate (u "#1f2937") (u "#4b5563")
    (u "Georgia, 'Times New Roman', serif") (u "20px").

Definition minimal : TemplateConfig :=
  mkTemplate (u "#000000") (u "#666666")
    (u "'Helvetica Neue', Helvetica, Arial, sans-serif") (u "16px").

(** [ResumeBuilder.TEMPLATES] *)
Definition TEMPLATES : list (pystr * TemplateConfig) :=
  [ (u "modern", modern); (u "classic", classic); (u "minimal", minimal) ].

(** [d[key]] as an option, and [d.get(key, default)], on a dict whose values
    are templates. *)
Fixpoint lookup (d : list (pystr * TemplateConfig)) (key : pystr)
  : option TemplateConfig :=
  match d with
  | [] => None
  | (k, v) :: rest => if eqb_str k key then Some v else lookup rest key
  end.

Definition get (d : list (pystr * TemplateConfig)) (key : pystr)
    (default : TemplateConfig) : TemplateConfig :=
  match lookup d key with
  | Some v => v
  | None => default
  end.

(** [self.TEMPLATES.get(template, self.TEMPLATES["modern"])]; the key
    [modern] is in the table, so the subscript does not raise. *)
Definition template_config (template : pystr) : TemplateConfig :=
  match lookup TEMPLATES (u "modern") with
  | Some default => get TEMPLATES template default
  | None => modern
  end.

(** [ResumeBuilder._build_header] *)
Definition _build_header (personal_info : PersonalInfoModel.t)
    (config : TemplateConfig) : pystr :=
  let contact_items : list pystr := [] in
  let contact_items := contact_items ++ [
       u "<span style=" ++ dq ++ u "color: " ++ secondary_color config
       ++ u ";" ++ dq ++ u ">" ++ [128231%N] ++ u " "
       ++ PersonalInfoModel.email personal_info ++ u "</span>" ] in
  let contact_items := contact_items ++ [
       u "<span style=" ++ dq ++ u "color: " ++ secondary_color config
       ++ u ";" ++ dq ++ u ">" ++ [128241%N] ++ u " "
       ++ PersonalInfoModel.phone personal_info ++ u "</span>" ] in
  let contact_items := contact_items ++ [
       u "<span style=" ++ dq ++ u "color: " ++ secondary_color config
       ++ u ";" ++ dq ++ u ">" ++ [128205%N] ++ u " "
       ++ PersonalInfoModel.location personal_info ++ u "</span>" ] in
  let contact_items :=
    match PersonalInfoModel.linkedin personal_info with
    | Some ((_ :: _) as l) =>
        contact_items ++ [
          u "<span style=" ++ dq ++ u "color: " ++ secondary_color config
          ++ u ";" ++ dq ++ u ">" ++ [128188%N] ++ u " " ++ l ++ u "</span>" ]
    | _ => contact_items
    end in
  let contact_items :=
    match PersonalInfoModel.portfolio personal_info with
    | Some ((_ :: _) as p) =>
        contact_items ++ [
          u "<span style=" ++ dq ++ u "color: " ++ secondary_color config
          ++ u ";" ++ dq ++ u ">" ++ [127760%N] ++ u " " ++ p ++ u "</span>" ]
    | _ => contact_items
    end in
  let contact_html := join (u " &nbsp;|&nbsp; ") contact_items in
  u "
        <!-- Header Section -->
        <header style=" ++ dq ++ u "text-align: center; margin-bottom: "
  ++ section_spacing config
  ++ u "; padding-bottom: 24px; border-bottom: 2px solid "
  ++ primary_color config ++ u ";" ++ dq ++ u ">
            <h1 style=" ++ dq
  ++ u "margin: 0 0 12px 0; font-size: 32px; font-weight: 700; color: "
  ++ primary_color config ++ u "; letter-spacing: -0.5px;" ++ dq ++ u ">
                " ++ PersonalInfoModel.full_name personal_info ++ u "
            </h1>
            <div style=" ++ dq ++ u "font-size: 14px; color: "
  ++ secondary_color config ++ u ";" ++ dq ++ u ">
                " ++ contact_html ++ u "
            </div>
        </header>
        ".

(** [ResumeBuilder._build_summary] *)
Definition _build_summary (summary : pystr) (config : TemplateConfig)
  : pystr :=
  u "
        <!-- Summary Section -->
        <section style=" ++ dq ++ u "margin-bottom: "
  ++ section_spacing config ++ u ";" ++ dq ++ u ">
            <h2 style=" ++ dq
  ++ u "font-size: 18px; font-weight: 600; color: " ++ primary_color config
  ++ u "; margin: 0 0 12px 0; text-transform: uppercase; letter-spacing: 1px; border-bottom: 1px solid #e5e7eb; padding-bottom: 8px;"
  ++ dq ++ u ">
                Professional Summary
            </h2>
            <p style="
  ++ q "margin: 0; color: #374151; font-size: 14px; text-align: justify;"
  ++ u ">
                " ++ summary ++ u "
            </p>
        </section>
        ".

Definition skill_badge (skill : pystr) : pystr :=
  u "
            <span style="
  ++ q "display: inline-block; background-color: #f3f4f6; color: #374151; padding: 6px 14px; margin: 4px; border-radius: 4px; font-size: 13px; font-weight: 500;"
  ++ u ">
                " ++ skill ++ u "
            </span>".

(** [ResumeBuilder._build_skills_section] *)
Definition _build_skills_section (skills : list pystr)
    (config : TemplateConfig) : pystr :=
  match skills with
  | [] => []
  | _ =>
      let skills_html :=
        fold_left (fun skills_html skill => skills_html ++ skill_badge skill)
          skills [] in
      u "
        <!-- Skills Section -->
        <section style=" ++ dq ++ u "margin-bottom: "
      ++ section_spacing config ++ u ";" ++ dq ++ u ">
            <h2 style=" ++ dq
      ++ u "font-size: 18px; font-weight: 600; color: "
      ++ primary_color config
      ++ u "; margin: 0 0 12px 0; text-transform: uppercase; letter-spacing: 1px; border-bottom: 1px solid #e5e7eb; padding-bottom: 8px;"
      ++ dq ++ u ">
                Skills
            </h2>
            <div style=" ++ q "line-height: 2;" ++ u ">
                " ++ skills_html ++ u "
            </div>
        </section>
        "
  end.

(** One round of the loop over the lines of the responsibilities text (the
    same code in [_build_experience_section] and in
    [_build_experience_section_from_request]). *)
Definition sub_heading (line : pystr) : pystr :=
  u "<strong>" ++ line ++ u "</strong>".

Definition bullet_step (bullet_points : list pystr) (line : pystr)
  : list pystr :=
  let line := strip line in
  if nonempty line
     && negb (startswith [bullet] line || startswith [hyphen] line)
  then
    if endswith (u ":") line
    then bullet_points ++ [sub_heading line]
    else bullet_points ++ [line]
  else if nonempty line then
    let cleaned := strip (lstrip_chars [bullet; hyphen] line) in
    if nonempty cleaned then bullet_points ++ [cleaned] else bullet_points
  else bullet_points.

(** The bullet points derived from the responsibilities text. *)
Definition responsibility_bullets (responsibilities : pystr) : list pystr :=
  if contains [bullet] responsibilities || contains [hyphen] responsibilities
  then fold_left bullet_step (split nl responsibilities) []
  else [responsibilities].

(** [if achievement not in bullet_points: bullet_points.insert(0, achievement)],
    for every achievement in turn. *)
Definition add_achievements (achievements bullet_points : list pystr)
  : list pystr :=
  fold_left (fun bullet_points achievement =>
               if existsb (eqb_str achievement) bullet_points
               then bullet_points
               else achievement :: bullet_points)
    achievements bullet_points.

(** The bullet list of one entry of [_build_experience_section]. *)
Definition experience_bullets (exp : ExperienceModel.t pystr (list pystr))
  : list pystr :=
  add_achievements (ExperienceModel.achievements exp)
    (responsibility_bullets (ExperienceModel.responsibilities exp)).

Definition list_item (point : pystr) : pystr :=
  u "
                    <li style="
  ++ q "margin-bottom: 6px; color: #374151; font-size: 14px;" ++ u ">
                        " ++ strip point ++ u "
                    </li>".

(** The [<li>] elements of a bullet list; blank points are left out. *)
Definition bullets_html (bullet_points : list pystr) : pystr :=
  fold_left (fun achievements_html point =>
               if nonempty (strip point)
               then achievements_html ++ list_item point
               else achievements_html)
    bullet_points [].

Definition experience_item (config : TemplateConfig)
    (exp : ExperienceModel.t pystr (list pystr)) : pystr :=
  let achievements_html := bullets_html (experience_bullets exp) in
  u "
            <!-- Experience Item -->
            <div style=" ++ q "margin-bottom: 20px;" ++ u ">
                <div style="
  ++ q "display: flex; justify-content: space-between; align-items: baseline; margin-bottom: 4px;"
  ++ u ">
                    <h3 style="
  ++ q "font-size: 16px; font-weight: 600; color: #1f2937; margin: 0;"
  ++ u ">
                        " ++ ExperienceModel.role exp ++ u "
                    </h3>
                    <span style=" ++ dq ++ u "font-size: 13px; color: "
  ++ secondary_color config ++ u "; font-weight: 500;" ++ dq ++ u ">
                        " ++ ExperienceModel.start_date exp ++ u " "
  ++ [8211%N] ++ u " " ++ ExperienceModel.end_date exp ++ u "
                    </span>
                </div>
                <div style=" ++ dq
  ++ u "font-size: 14px; font-weight: 600; color: " ++ primary_color config
  ++ u "; margin-bottom: 8px;" ++ dq ++ u ">
                    " ++ ExperienceModel.company exp ++ u "
                </div>
                <ul style=" ++ q "margin: 0; padding-left: 20px;" ++ u ">
                    " ++ achievements_html ++ u "
                </ul>
            </div>
            ".

Definition experience_section_frame (config : TemplateConfig)
    (experience_html : pystr) : pystr :=
      u "
        <!-- Experience Section -->
        <section style=" ++ dq ++ u "margin-bottom: "
      ++ section_spacing config ++ u ";" ++ dq ++ u ">
            <h2 style=" ++ dq
      ++ u "font-size: 18px; font-weight: 600; color: "
      ++ primary_color config
      ++ u "; margin: 0 0 16px 0; text-transform: uppercase; letter-spacing: 1px; border-bottom: 1px solid #e5e7eb; padding-bottom: 8px;"
      ++ dq ++ u ">
                Work Experience
            </h2>
            " ++ experience_html ++ u "
        </section>
        ".

(** [ResumeBuilder._build_experience_section] *)
Definition _build_experience_section
    (experience : list (ExperienceModel.t pystr (list pystr)))
    (config : TemplateConfig) : pystr :=
  match experience with
  | [] => []
  | _ =>
      let experience_html :=
        fold_left (fun experience_html exp =>
                     experience_html ++ experience_item config exp)
          experience [] in
      experience_section_frame config experience_html
  end.

Definition experience_item_from_request (config : TemplateConfig)
    (exp : ExperienceItem.t) : pystr :=
  let achievements_html :=
    bullets_html
      (responsibility_bullets (ExperienceItem.responsibilities exp)) in
  u "
            <!-- Experience Item -->
            <div style=" ++ q "margin-bottom: 20px;" ++ u ">
                <div style="
  ++ q "display: flex; justify-content: space-between; align-items: baseline; margin-bottom: 4px;"
  ++ u ">
                    <h3 style="
  ++ q "font-size: 16px; font-weight: 600; color: #1f2937; margin: 0;"
  ++ u ">
                        " ++ ExperienceItem.role exp ++ u "
                    </h3>
                    <span style=" ++ dq ++ u "font-size: 13px; color: "
  ++ secondary_color config ++ u "; font-weight: 500;" ++ dq ++ u ">
                        " ++ ExperienceItem.start_date exp ++ u " "
  ++ [8211%N] ++ u " " ++ ExperienceItem.end_date exp ++ u "
                    </span>
                </div>
                <div style=" ++ dq
  ++ u "font-size: 14px; font-weight: 600; color: " ++ primary_color config
  ++ u "; margin-bottom: 8px;" ++ dq ++ u ">
                    " ++ ExperienceItem.company exp ++ u "
                </div>
                <ul style=" ++ q "margin: 0; padding-left: 20px;" ++ u ">
                    " ++ achievements_html ++ u "
                </ul>
            </div>
            ".

(** [ResumeBuilder._build_experience_section_from_request] *)
Definition _build_experience_section_from_request
    (experience : list ExperienceItem.t) (config : TemplateConfig) : pystr :=
  match experience with
  | [] => []
  | _ =>
      let experience_html :=
        fold_left (fun experience_html exp =>
                     experience_html ++ experience_item_from_request config exp)
          experience [] in
      experience_section_frame config experience_html
  end.

Definition education_item (config : TemplateConfig)
    (edu : EducationModel.t pystr) : pystr :=
  u "
            <div style=" ++ q "margin-bottom: 12px;" ++ u ">
                <div style="
  ++ q "display: flex; justify-content: space-between; align-items: baseline;"
  ++ u ">
                    <div>
                        <span style="
  ++ q "font-size: 15px; font-weight: 600; color: #1f2937;" ++ u ">
                            " ++ EducationModel.degree edu ++ u "
                        </span>
                        <span style=" ++ dq ++ u "color: "
  ++ secondary_color config ++ u "; font-size: 14px; margin-left: 8px;"
  ++ dq ++ u ">
                            | " ++ EducationModel.institution edu ++ u "
                        </span>
                    </div>
                    <span style=" ++ dq ++ u "font-size: 13px; color: "
  ++ secondary_color config ++ u "; font-weight: 500;" ++ dq ++ u ">
                        " ++ EducationModel.year edu ++ u "
                    </span>
                </div>
            </div>
            ".

Definition education_section_frame (config : TemplateConfig)
    (education_html : pystr) : pystr :=
      u "
        <!-- Education Section -->
        <section style=" ++ dq ++ u "margin-bottom: "
      ++ section_spacing config ++ u ";" ++ dq ++ u ">
            <h2 style=" ++ dq
      ++ u "font-size: 18px; font-weight: 600; color: "
      ++ primary_color config
      ++ u "; margin: 0 0 12px 0; text-transform: uppercase; letter-spacing: 1px; border-bottom: 1px solid #e5e7eb; padding-bottom: 8px;"
      ++ dq ++ u ">
                Education
            </h2>
            " ++ education_html ++ u "
        </section>
        ".

(** [ResumeBuilder._build_education_section] *)
Definition _build_education_section
    (education : list (EducationModel.t pystr)) (config : TemplateConfig)
  : pystr :=
  match education with
  | [] => []
  | _ =>
      let education_html :=
        fold_left (fun education_html edu =>
                     education_html ++ education_item config edu)
          education [] in
      education_section_frame config education_html
  end.

Definition education_item_from_request (config : TemplateConfig)
    (edu : EducationItem.t) : pystr :=
  u "
            <div style=" ++ q "margin-bottom: 12px;" ++ u ">
                <div style="
  ++ q "display: flex; justify-content: space-between; align-items: baseline;"
  ++ u ">
                    <div>
                        <span style="
  ++ q "font-size: 15px; font-weight: 600; color: #1f2937;" ++ u ">
                            " ++ EducationItem.degree edu ++ u "
                        </span>
                        <span style=" ++ dq ++ u "color: "
  ++ secondary_color config ++ u "; font-size: 14px; margin-left: 8px;"
  ++ dq ++ u ">
                            | " ++ EducationItem.institution edu ++ u "
                        </span>
                    </div>
                    <span style=" ++ dq ++ u "font-size: 13px; color: "
  ++ secondary_color config ++ u "; font-weight: 500;" ++ dq ++ u ">
                        " ++ EducationItem.year edu ++ u "
                    </span>
                </div>
            </div>
            ".

(** [ResumeBuilder._build_education_section_from_request] *)
Definition _build_education_section_from_request
    (education : list EducationItem.t) (config : TemplateConfig) : pystr :=
  match education with
  | [] => []
  | _ =>
      let education_html :=
        fold_left (fun education_html edu =>
                     education_html ++ education_item_from_request config edu)
          education [] in
      education_section_frame config education_html
  end.

(** [ResumeBuilder._generate_html_from_request] *)
Definition _generate_html_from_request (personal_info : PersonalInfoModel.t)
    (summary : pystr) (skills : list pystr)
    (experience : list ExperienceItem.t) (education : list EducationItem.t)
    (config : TemplateConfig) : pystr :=
  u "<!DOCTYPE html>
<html lang=" ++ q "en" ++ u ">
<head>
    <meta charset=" ++ q "UTF-8" ++ u ">
    <meta name=" ++ q "viewport" ++ u " content="
  ++ q "width=device-width, initial-scale=1.0" ++ u ">
    <title>" ++ PersonalInfoModel.full_name personal_info
  ++ u " - Resume</title>
</head>
<body style=" ++ dq
  ++ u "margin: 0; padding: 40px; background-color: #ffffff; font-family: "
  ++ font_family config ++ u "; color: #1f2937; line-height: 1.6;" ++ dq
  ++ u ">
    <div style=" ++ q "max-width: 800px; margin: 0 auto;" ++ u ">
        " ++ _build_header personal_info config ++ u "
        " ++ _build_summary summary config ++ u "
        " ++ _build_skills_section skills config ++ u "
        " ++ _build_experience_section_from_request experience config ++ u "
        " ++ _build_education_section_from_request education config ++ u "
    </div>
</body>
</html>".

(** [ResumeBuilder._generate_html] *)
Definition _generate_html (personal_info : PersonalInfoModel.t)
    (optimized_data : OptimizedResumeData.t pystr (list pystr))
    (config : TemplateConfig) : pystr :=
  u "<!DOCTYPE html>
<html lang=" ++ q "en" ++ u ">
<head>
    <meta charset=" ++ q "UTF-8" ++ u ">
    <meta name=" ++ q "viewport" ++ u " content="
  ++ q "width=device-width, initial-scale=1.0" ++ u ">
    <title>" ++ PersonalInfoModel.full_name personal_info
  ++ u " - Resume</title>
</head>
<body style=" ++ dq
  ++ u "margin: 0; padding: 40px; background-color: #ffffff; font-family: "
  ++ font_family config ++ u "; color: #1f2937; line-height: 1.6;" ++ dq
  ++ u ">
    <div style=" ++ q "max-width: 800px; margin: 0 auto;" ++ u ">
        " ++ _build_header personal_info config ++ u "
        "
  ++ _build_summary (OptimizedResumeData.summary optimized_data) config
  ++ u "
        "
  ++ _build_skills_section (OptimizedResumeData.skills optimized_data) config
  ++ u "
        "
  ++ _build_experience_section (OptimizedResumeData.experience optimized_data) config
  ++ u "
        "
  ++ _build_education_section (OptimizedResumeData.education optimized_data) config
  ++ u "
    </div>
</body>
</html>".

(** [ResumeBuilder.build_resume_from_request] *)
Definition build_resume_from_request (personal_info : PersonalInfoModel.t)
    (summary : pystr) (skills : list pystr)
    (experience : list ExperienceItem.t) (education : list EducationItem.t)
    (template : pystr) : pystr :=
  let template_config := template_config template in
  _generate_html_from_request personal_info summary skills experience
    education template_config.

(** [ResumeBuilder.build_resume] *)
Definition build_resume (personal_info : PersonalInfoModel.t)
    (optimized_data : OptimizedResumeData.t pystr (list pystr))
    (template : pystr) : pystr :=
  let template_config := template_config template in
  _generate_html personal_info optimized_data template_config.

End ResumeBuilder.

(** ** [app/routers/resume.py] *)

Module Router.

Section Runtime.

Variable str_lower : pystr -> pystr.

Definition is_http_exception (e : exn) : bool :=
  match e with HTTPException _ _ => true | _ => false end.

Definition is_pdf_service_error (e : exn) : bool :=
  match e with PDFServiceError _ => true | _ => false end.

Definition HTTP_500_INTERNAL_SERVER_ERROR : nat := 500.

(** The body of the outer [try] of [generate_resume]. *)
Definition generate_resume_body (w : PDFService.World)
    (request : ResumeRequest.t) : io ResumeResponse.t :=
  (* Initialize services *)
  _ <~ PDFService.__init__ w ;;
  (* Convert personal info to model *)
  let info := ResumeRequest.personal_info request in
  let personal_info :=
    PersonalInfoModel.mk
      (PersonalInfo.full_name info) (PersonalInfo.email info)
      (PersonalInfo.phone info) (PersonalInfo.location info)
      (PersonalInfo.linkedin info) (PersonalInfo.portfolio info) in
  (* Generate HTML resume directly from user input; the renderer is a total
     function, so the [except] clause around it never runs *)
  let html_content :=
    ResumeBuilder.build_resume_from_request personal_info
      (ResumeRequest.summary request) (ResumeRequest.skills request)
      (ResumeRequest.experience request) (ResumeRequest.education request)
      (ResumeRequest.template request) in
  (* Generate PDF *)
  pdf <~ try_except
           (PDFService.generate_pdf str_lower w html_content None
              (Some (PersonalInfoModel.full_name personal_info)))
           is_pdf_service_error
           (fun e => raise (HTTPException HTTP_500_INTERNAL_SERVER_ERROR
                              (u "PDF generation failed: " ++ exn_str e))) ;;
  let '(pdf_filename, pdf_path) := pdf in
  (* Build experience items with achievements *)
  let optimized_experience_items :=
    map (fun exp =>
           OptimizedExperienceItem.mk
             (ExperienceItem.company exp) (ExperienceItem.role exp)
             (ExperienceItem.start_date exp) (ExperienceItem.end_date exp)
             (ExperienceItem.responsibilities exp) [])
      (ResumeRequest.experience request) in
  (* Build education items *)
  let optimized_education_items :=
    map (fun edu =>
           OptimizedEducationItem.mk
             (EducationItem.degree edu) (EducationItem.institution edu)
             (EducationItem.year edu))
      (ResumeRequest.education request) in
  ret (ResumeResponse.mk
         (ResumeRequest.summary request)
         optimized_experience_items
         optimized_education_items
         (ResumeRequest.skills request)
         html_content
         (PDFService.get_download_url pdf_filename)).

(** [generate_resume]: an [HTTPException] passes, any other exception
    becomes a 500. *)
Definition generate_resume (w : PDFService.World)
    (request : ResumeRequest.t) : io ResumeResponse.t :=
  try_except (generate_resume_body w request)
    (fun e => negb (is_http_exception e))
    (fun e => raise (HTTPException HTTP_500_INTERNAL_SERVER_ERROR
                       (u "Unexpected error: " ++ exn_str e))).

End Runtime.

End Router.

(** ** [app/services/ai_service.py]: the provider envelopes *)

Module ProviderCalls.

(** What the HTTP exchange of a [_call_*_api] gives: [httpx.HTTPError] (a
    network failure or [raise_for_status]), a body that [response.json()]
    cannot decode, or the decoded body. *)
Inductive http_outcome : Type :=
| HttpError (text : pystr)
| BodyNotJson (text : pystr)
| Body (data : pyval).

(** The operations of the [try] blocks that reject a value by its type. *)
Inductive operation : Type :=
| Subscript       (* [v[k]] *)
| Membership      (* [x in v] *)
| Length          (* [len(v)] *)
| RegexSub.       (* [re.sub(pattern, repl, v)] *)

(** The exceptions of subscripting, [in] and [len] inside the [try] blocks;
    [UnsupportedType op v] is the [TypeError] of [op] on [v]. *)
Inductive lookup_error : Type :=
| KeyError (text : pystr)
| IndexError (text : pystr)
| UnsupportedType (op : operation) (v : pyval).

Inductive key : Type :=
| KStr (s : pystr)
| KInt (i : nat).

(** [d[key]] on the entries of a dict, [None] for a missing key. *)
Fixpoint dict_find (d : list (pystr * pyval)) (k : pystr) : option pyval :=
  match d with
  | [] => None
  | (k', v) :: rest => if eqb_str k' k then Some v else dict_find rest k
  end.

(** [v[k]]; the keys of a decoded JSON object are strings, so an integer is
    never one of them. *)
Definition subscript (v : pyval) (k : key) : pyval + lookup_error :=
  match v, k with
  | PDict d, KStr s =>
      match dict_find d s with
      | Some x => inl x
      | None => inr (KeyError (u "'" ++ s ++ u "'"))
      end
  | PDict d, KInt i => inr (KeyError (str_of_nat i))
  | PList l, KInt i =>
      match nth_error l i with
      | Some x => inl x
      | None => inr (IndexError (u "list index out of range"))
      end
  | PStr s, KInt i =>
      match nth_error s i with
      | Some c => inl (PStr [c])
      | None => inr (IndexError (u "string index out of range"))
      end
  | _, _ => inr (UnsupportedType Subscript v)
  end.

(** A chain of subscripts, left to right; the first error ends it. *)
Fixpoint path (v : pyval) (keys : list key) : pyval + lookup_error :=
  match keys with
  | [] => inl v
  | k :: rest =>
      match subscript v k with
      | inl x => path x rest
      | inr e => inr e
      end
  end.

(** Equality of decoded values is needed for strings only: [x == "..."]. *)
Definition is_str (s : pystr) (v : pyval) : bool :=
  match v with
  | PStr t => eqb_str t s
  | _ => false
  end.

(** ["..." in v] *)
Definition py_in (s : pystr) (v : pyval) : bool + lookup_error :=
  match v with
  | PDict d => inl (match dict_find d s with Some _ => true | None => false end)
  | PList l => inl (existsb (is_str s) l)
  | PStr t => inl (contains s t)
  | _ => inr (UnsupportedType Membership v)
  end.

(** [len(v)] *)
Definition py_len (v : pyval) : nat + lookup_error :=
  match v with
  | PList l => inl (List.length l)
  | PStr t => inl (List.length t)
  | PDict d => inl (List.length d)
  | _ => inr (UnsupportedType Length v)
  end.

Section Interpreter.

(** The wording of a [TypeError] depends on the interpreter version. *)
Variable type_error_text : operation -> pyval -> pystr.

(** The end of a [try] block of a [_call_*_api]: [except (KeyError,
    IndexError)] wraps the error in an [AIServiceError], a [TypeError] is
    not caught; the text found goes to [_extract_json_from_response], whose
    [re.sub] takes a string only. *)
Definition content_or_error (name : pystr) (found : pyval + lookup_error)
  : result pystr :=
  match found with
  | inl (PStr content) => Ok content
  | inl v => Raise (TypeError (type_error_text RegexSub v))
  | inr (KeyError text) | inr (IndexError text) =>
      Raise (AIServiceError (u "Invalid " ++ name ++ u " API response: " ++ text))
  | inr (UnsupportedType op v) => Raise (TypeError (type_error_text op v))
  end.

(** The text [_call_openai_api] reads:
    [data["choices"][0]["message"]["content"]]. *)
Definition openai_content (out : http_outcome) : result pystr :=
  match out with
  | Body data =>
      content_or_error (u "OpenAI")
        (path data [KStr (u "choices"); KInt 0; KStr (u "message");
                    KStr (u "content")])
  | HttpError text => Raise (AIServiceError (u "OpenAI API error: " ++ text))
  | BodyNotJson text => Raise (OtherException text)
  end.

(** The text [_call_claude_api] reads: [data["content"][0]["text"]]. *)
Definition claude_content (out : http_outcome) : result pystr :=
  match out with
  | Body data =>
      content_or_error (u "Claude")
        (path data [KStr (u "content"); KInt 0; KStr (u "text")])
  | HttpError text => Raise (AIServiceError (u "Claude API error: " ++ text))
  | BodyNotJson text => Raise (OtherException text)
  end.

(** [> 0] on the length, when [data["candidates"]] has one. *)
Definition has_candidates (data : pyval) : bool + lookup_error :=
  match py_in (u "candidates") data with
  | inl true =>
      match subscript data (KStr (u "candidates")) with
      | inl candidates =>
          match py_len candidates with
          | inl n => inl (0 <? n)
          | inr e => inr e
          end
      | inr e => inr e
      end
  | inl false => inl false
  | inr e => inr e
  end.

(** The text [_call_gemini_api] reads:
    [data["candidates"][0]["content"]["parts"][0]["text"]], or the error
    of an empty answer. *)
Definition gemini_content (out : http_outcome) : result pystr :=
  match out with
  | Body data =>
      match has_candidates data with
      | inl true =>
          content_or_error (u "Gemini")
            (path data [KStr (u "candidates"); KInt 0; KStr (u "content");
                        KStr (u "parts"); KInt 0; KStr (u "text")])
      | inl false => Raise (AIServiceError (u "Empty response from Gemini API"))
      | inr e => content_or_error (u "Gemini") (inr e)
      end
  | HttpError text => Raise (AIServiceError (u "Gemini API error: " ++ text))
  | BodyNotJson text => Raise (OtherException text)
  end.

(** The exchange with a provider, from the HTTP outcome on. *)
Definition provider_text (http_post : Provider -> pystr -> http_outcome)
    (api : Provider) (prompt : pystr) : result pystr :=
  match api with
  | OpenAI => openai_content (http_post OpenAI prompt)
  | Claude => claude_content (http_post Claude prompt)
  | Gemini => gemini_content (http_post Gemini prompt)
  end.

End Interpreter.

(** [optimize_resume_data]: a service without preference, then
    [optimize_resume]. *)
Definition optimize_resume_data (cfg : AIService.Config)
    (provider_text : Provider -> pystr -> result pystr)
    (json_loads : pystr -> AIService.loads_outcome)
    (request : ResumeRequest.t)
  : io (OptimizedResumeData.t pyval pyval) :=
  service <~ lift (AIService.__init__ cfg false false) ;;
  AIService.optimize_resume provider_text json_loads service request.

End ProviderCalls.

(** ** [app/routers/resume.py]: the download handler *)

Module Download.

(** [FileResponse(path, filename, media_type, headers)] *)
Record FileResponse := mkFileResponse {
  path : pystr;
  filename : pystr;
  media_type : pystr;
  headers : list (pystr * pystr) }.

Definition HTTP_400_BAD_REQUEST : nat := 400.
Definition HTTP_404_NOT_FOUND : nat := 404.

Section Files.

(** [PDFService.get_file_path]: the text of [output_dir / filename]. *)
Variable get_file_path : pystr -> pystr.

(** [PDFService.file_exists]: whether [output_dir / filename] exists. *)
Variable file_exists : pystr -> bool.

(** [download_resume_pdf]; the handler has no [try], so an exception of
    [PDFService()] passes. *)
Definition download_resume_pdf (w : PDFService.World) (filename : pystr)
  : io FileResponse :=
  (* Validate filename to prevent path traversal *)
  if negb (nonempty filename) || contains (u "..") filename
     || startswith (u "/") filename
  then raise (HTTPException HTTP_400_BAD_REQUEST (u "Invalid filename"))
  else
    let filename :=
      if negb (endswith (u ".pdf") filename) then filename ++ u ".pdf"
      else filename in
    _ <~ PDFService.__init__ w ;;
    let file_path := get_file_path filename in
    if negb (file_exists filename)
    then raise (HTTPException HTTP_404_NOT_FOUND
                  (u "File not found: " ++ filename))
    else ret (mkFileResponse file_path filename (u "application/pdf")
                [ (u "Content-Disposition", u "attachment; filename=" ++ filename);
                  (u "Cache-Control", u "no-cache") ]).

End Files.

End Download.

(** * Properties *)

(** ** Provider selection *)

Module SelectionFacts.
Import AIService.

(** What a caller gets from [AIService(use_claude, use_gemini)] followed by
    the selection step of [optimize_resume]. *)
Definition selected_api (cfg : Config) (use_claude use_gemini : bool)
  : result Provider :=
  self <- __init__ cfg use_claude use_gemini ;;
  select_api self.

Definition has (key : pystr) : bool := nonempty key.

(** The policy in the words of the specification: a requested provider
    whose credential is present is used; otherwise the provider is chosen by
    credential presence, Gemini before Anthropic before OpenAI; no
    credential at all is a configuration error ([None]). *)
Definition policy_of_spec (cfg : Config) (use_claude use_gemini : bool)
  : option Provider :=
  if use_gemini && has (GEMINI_API_KEY cfg) then Some Gemini
  else if use_claude && has (ANTHROPIC_API_KEY cfg) then Some Claude
  else if has (GEMINI_API_KEY cfg) then Some Gemini
  else if has (ANTHROPIC_API_KEY cfg) then Some Claude
  else if has (OPENAI_API_KEY cfg) then Some OpenAI
  else None.

(** The outcome of the code agrees with a policy: same provider, or an
    [AIServiceError] where the policy has none. *)
Definition agrees (r : result Provider) (p : option Provider) : Prop :=
  match r, p with
  | Ok a, Some b => a = b
  | Raise (AIServiceError _), None => True
  | _, _ => False
  end.

Definition no_key_configured : exn :=
  AIServiceError (u "No API key configured. Set OPENAI_API_KEY, ANTHROPIC_API_KEY, or GEMINI_API_KEY in .env").

Definition no_valid_key : exn :=
  AIServiceError (u "No valid API key available for the selected service").

(** The policy the code follows. *)
Definition policy_of_code (cfg : Config) (use_claude use_gemini : bool)
  : result Provider :=
  let g := has (GEMINI_API_KEY cfg) in
  let a := has (ANTHROPIC_API_KEY cfg) in
  let o := has (OPENAI_API_KEY cfg) in
  if negb (g || a || o) then Raise no_key_configured
  else if use_gemini && g then Ok Gemini
  else if use_claude && a then Ok Claude
  else if negb use_claude && negb use_gemini then
    (* no provider requested: by credential, Gemini > Anthropic > OpenAI *)
    if g then Ok Gemini else if a then Ok Claude else Ok OpenAI
  else
    (* the credential of every requested provider is absent *)
    if o then Ok OpenAI else Raise no_valid_key.

(** OpenAI and Gemini credentials, no Anthropic credential. *)
Definition openai_and_gemini_keys : Config :=
  mkConfig (u "o-key") [] (u "g-key").

(** Selection is a function of the configuration and the two flags. *)
Lemma selected_api_code cfg use_claude use_gemini :
  selected_api cfg use_claude use_gemini = policy_of_code cfg use_claude use_gemini.
Proof.
  unfold selected_api, policy_of_code, __init__, select_api, has.
  destruct cfg as [o a g]; cbn [OPENAI_API_KEY ANTHROPIC_API_KEY GEMINI_API_KEY].
  destruct use_claude, use_gemini, o as [|? ?], a as [|? ?], g as [|? ?];
    reflexivity.
Qed.

(** With no provider requested the code and the specification agree. *)
Lemma auto_selection_agrees cfg :
  agrees (selected_api cfg false false) (policy_of_spec cfg false false).
Proof.
  rewrite selected_api_code. unfold policy_of_code, policy_of_spec, has.
  destruct cfg as [o a g]; cbn [OPENAI_API_KEY ANTHROPIC_API_KEY GEMINI_API_KEY].
  destruct o, a, g; cbn; auto.
Qed.

(** With only a Gemini credential and no preference, Gemini is selected. *)
Example gemini_only_selects_gemini :
  selected_api (mkConfig [] [] (u "g-key")) false false = Ok Gemini.
Proof. reflexivity. Qed.

(** C2 (as stated) fails: Claude requested, its credential absent, Gemini
    and OpenAI credentials present. The specification's policy selects Gemini
    by priority; the code calls OpenAI. *)
Lemma selection_policy_counterexample :
  selected_api openai_and_gemini_keys true false = Ok OpenAI
  /\ policy_of_spec openai_and_gemini_keys true false = Some Gemini
  /\ ~ agrees (selected_api openai_and_gemini_keys true false)
             (policy_of_spec openai_and_gemini_keys true false).
Proof.
  split; [reflexivity|]. split; [reflexivity|].
  cbn. discriminate.
Qed.

(** C2 (amended): selection is deterministic; a requested provider whose
    credential is present is used (Gemini first when both are requested);
    with no provider requested the choice is by credential presence, Gemini
    before Anthropic before OpenAI; when every requested provider lacks its
    credential the call falls back to OpenAI if that credential is present
    and raises a configuration error otherwise; construction raises a
    configuration error exactly when no credential is present at all. *)
Theorem selection_policy cfg use_claude use_gemini :
  let g := has (GEMINI_API_KEY cfg) in
  let a := has (ANTHROPIC_API_KEY cfg) in
  let o := has (OPENAI_API_KEY cfg) in
  selected_api cfg use_claude use_gemini = policy_of_code cfg use_claude use_gemini
  /\ (use_gemini && g = true ->
      selected_api cfg use_claude use_gemini = Ok Gemini)
  /\ (use_claude && a = true -> use_gemini && g = false ->
      selected_api cfg use_claude use_gemini = Ok Claude)
  /\ (use_claude = false -> use_gemini = false ->
      agrees (selected_api cfg use_claude use_gemini)
             (policy_of_spec cfg use_claude use_gemini))
  /\ (use_claude || use_gemini = true ->
      use_gemini && g = false -> use_claude && a = false ->
      selected_api cfg use_claude use_gemini =
        if o then Ok OpenAI
        else if g || a then Raise no_valid_key else Raise no_key_configured)
  /\ ((exists self, __init__ cfg use_claude use_gemini = Ok self)
      <-> g || a || o = true).
Proof.
  cbv zeta. rewrite selected_api_code.
  unfold policy_of_code, policy_of_spec, __init__, has.
  destruct cfg as [o a g]; cbn [OPENAI_API_KEY ANTHROPIC_API_KEY GEMINI_API_KEY].
  repeat split; intros;
    destruct use_claude, use_gemini, o as [|? ?], a as [|? ?], g as [|? ?];
    cbn in *; try discriminate; try reflexivity; eauto;
    try (match goal with H : exists _, _ |- _ => destruct H; discriminate end).
Qed.

Lemma selection_policy_witness :
  let cfg := openai_and_gemini_keys in
  selected_api cfg true false = policy_of_code cfg true false
  /\ (true || false = true -> false && true = false -> true && false = false ->
      selected_api cfg true false = Ok OpenAI).
Proof.
  cbv zeta.
  destruct (selection_policy openai_and_gemini_keys true false)
    as (H1 & _ & _ & _ & H5 & _).
  split; [exact H1 | exact H5].
Defined.

(** The call-time error is raised exactly when no branch of the chain has
    its credential. *)
Lemma select_api_raises self :
  (exists e, select_api self = Raise e)
  <-> use_gemini self && has (gemini_api_key self) = false
      /\ use_claude self && has (anthropic_api_key self) = false
      /\ has (openai_api_key self) = false.
Proof.
  unfold select_api, has.
  destruct (use_gemini self && nonempty (gemini_api_key self));
  destruct (use_claude self && nonempty (anthropic_api_key self));
  destruct (nonempty (openai_api_key self));
    (split; [intros [e He]; try discriminate; auto
            | intros (? & ? & ?); try discriminate; eauto]).
Qed.

Section OptimizeResume.

Variable provider_text : Provider -> pystr -> result pystr.
Variable json_loads : pystr -> loads_outcome.

(** What [optimize_resume] does once OpenAI is selected: one call, to
    OpenAI, with the prompt of the request. *)
Definition openai_run (request : ResumeRequest.t)
  : io (OptimizedResumeData.t pyval pyval) :=
  let prompt := _build_optimization_prompt request in
  (content <- provider_text OpenAI prompt ;;
   response_data <- _extract_json_from_response json_loads content ;;
   _parse_ai_response response_data request,
   [CallProvider OpenAI prompt]).

Lemma optimize_resume_openai self request :
  select_api self = Ok OpenAI ->
  optimize_resume provider_text json_loads self request = openai_run request.
Proof.
  intros Hsel. unfold optimize_resume, openai_run, _call_openai_api, post.
  rewrite Hsel. cbv zeta.
  generalize (_build_optimization_prompt request); intros prompt. cbn.
  destruct (provider_text OpenAI prompt) as [c|e]; cbn; [|reflexivity].
  destruct (_extract_json_from_response json_loads c) as [v|e]; cbn;
    [|reflexivity].
  destruct (_parse_ai_response v request); reflexivity.
Qed.

Lemma optimize_resume_no_key self request e :
  select_api self = Raise e ->
  optimize_resume provider_text json_loads self request = (Raise e, []).
Proof.
  intros Hsel. unfold optimize_resume. rewrite Hsel. reflexivity.
Qed.

(** C10: a caller that requests Gemini (or Claude) while that credential
    is absent and an OpenAI credential is present gets a service whose
    [optimize_resume] makes exactly one provider call, to OpenAI, instead
    of raising a configuration error; the call-time error "No valid API key
      available" is raised, with no provider called, exactly when no branch
    of the selection has its credential. *)
Theorem explicit_request_falls_through_to_openai
    cfg use_claude use_gemini request :
  (use_gemini = true /\ use_claude = false /\ GEMINI_API_KEY cfg = []
   \/ use_claude = true /\ use_gemini = false /\ ANTHROPIC_API_KEY cfg = []) ->
  OPENAI_API_KEY cfg <> [] ->
  (exists self,
      __init__ cfg use_claude use_gemini = Ok self
      /\ AIService.use_claude self = use_claude
      /\ AIService.use_gemini self = use_gemini
      /\ optimize_resume provider_text json_loads self request
         = openai_run request)
  /\ (forall self,
        optimize_resume provider_text json_loads self request
          = (Raise no_valid_key, [])
        <-> AIService.use_gemini self && has (gemini_api_key self) = false
            /\ AIService.use_claude self && has (anthropic_api_key self) = false
            /\ has (openai_api_key self) = false).
Proof.
  intros Hreq Ho. split.
  - destruct cfg as [o a g];
      cbn [OPENAI_API_KEY ANTHROPIC_API_KEY GEMINI_API_KEY] in *.
    destruct o as [|c o]; [congruence|].
    destruct Hreq as [(-> & -> & ->) | (-> & -> & ->)].
    + eexists. split; [reflexivity|]. split; [reflexivity|].
      split; [reflexivity|]. apply optimize_resume_openai. reflexivity.
    + eexists. split; [reflexivity|]. split; [reflexivity|].
      split; [reflexivity|]. apply optimize_resume_openai.
      unfold select_api; cbn. destruct g; reflexivity.
  - intros self. rewrite <- select_api_raises. split.
    + intros H. unfold optimize_resume in H. cbv zeta in H.
      revert H. generalize (_build_optimization_prompt request).
      intros prompt H.
      destruct (select_api self) as [api|e] eqn:Hsel; [|eauto].
      exfalso. cbn in H.
      destruct api; unfold _call_gemini_api, _call_claude_api,
        _call_openai_api, post in H; cbn in H;
        match type of H with
        | context [provider_text ?a ?b] => destruct (provider_text a b); cbn in H
        end;
        try match type of H with
        | context [_extract_json_from_response ?a ?b] =>
            destruct (_extract_json_from_response a b); cbn in H
        end;
        try match type of H with
        | context [_parse_ai_response ?a ?b] =>
            destruct (_parse_ai_response a b); cbn in H
        end; inversion H.
    + intros [e He].
      assert (e = no_valid_key) as ->.
      { unfold select_api in He.
        destruct (AIService.use_gemini self && _); [discriminate|].
        destruct (AIService.use_claude self && _); [discriminate|].
        destruct (nonempty _); [discriminate|]. now inversion He. }
      now apply optimize_resume_no_key.
Qed.

End OptimizeResume.

Definition constant_provider : Provider -> pystr -> result pystr :=
  fun _ _ => Ok (u "{}").

Definition empty_object_loads : pystr -> loads_outcome :=
  fun _ => Decoded (PDict []).

Definition blank_request : ResumeRequest.t :=
  ResumeRequest.mk (PersonalInfo.mk (u "A") (u "a@b.c") [] [] None None)
    [] [] [] [] [] (u "modern").

Lemma explicit_request_falls_through_to_openai_witness :
  exists self,
    __init__ (mkConfig (u "o-key") [] []) false true = Ok self
    /\ AIService.use_claude self = false
    /\ AIService.use_gemini self = true
    /\ optimize_resume constant_provider empty_object_loads self blank_request
       = openai_run constant_provider empty_object_loads blank_request.
Proof.
  refine (proj1 (@explicit_request_falls_through_to_openai
                   constant_provider empty_object_loads
                   (mkConfig (u "o-key") [] []) false true blank_request _ _)).
  - left. repeat split; reflexivity.
  - cbn. discriminate.
Defined.

End SelectionFacts.

(** ** String equality *)

Lemma eqb_str_spec a b : eqb_str a b = true <-> a = b.
Proof.
  unfold eqb_str. destruct (list_eq_dec N.eq_dec a b); split; congruence.
Qed.

Lemma eqb_str_neq a b : a <> b -> eqb_str a b = false.
Proof.
  intros H. destruct (eqb_str a b) eqn:E; [|reflexivity].
  apply eqb_str_spec in E. contradiction.
Qed.

Lemma eqb_str_refl a : eqb_str a a = true.
Proof. now apply eqb_str_spec. Qed.

(** ** Templates *)

Module TemplateFacts.
Import ResumeBuilder.

(** The subscript [TEMPLATES["modern"]] finds the modern bundle. *)
Lemma templates_modern : lookup TEMPLATES (u "modern") = Some modern.
Proof. reflexivity. Qed.

Definition known_template (name : pystr) : Prop :=
  name = u "modern" \/ name = u "classic" \/ name = u "minimal".

Lemma template_config_unknown name :
  ~ known_template name -> template_config name = modern.
Proof.
  intros Hn. unfold template_config. rewrite templates_modern.
  unfold get, TEMPLATES, lookup.
  rewrite !eqb_str_neq; [reflexivity| | |];
    intros E; apply Hn; unfold known_template; auto.
Qed.

Lemma template_config_modern : template_config (u "modern") = modern.
Proof. reflexivity. Qed.

(** C7: a template name outside the table renders exactly as ["modern"],
    for the request renderer and for the renderer of optimized data; no
    error is possible, the renderers being total functions. *)
Theorem unknown_template_renders_as_modern
    personal_info summary skills experience education optimized_data template :
  ~ known_template template ->
  build_resume_from_request personal_info summary skills experience education
    template
  = build_resume_from_request personal_info summary skills experience education
      (u "modern")
  /\ build_resume personal_info optimized_data template
     = build_resume personal_info optimized_data (u "modern").
Proof.
  intros Hn. unfold build_resume_from_request, build_resume. cbv zeta.
  rewrite (template_config_unknown Hn), template_config_modern.
  split; reflexivity.
Qed.

Definition sample_info : PersonalInfoModel.t :=
  PersonalInfoModel.mk (u "Ada Lovelace") (u "ada@example.org") (u "555-0100")
    (u "London") None (Some (u "https://ada.example.org")).

Definition sample_experience : ExperienceItem.t :=
  ExperienceItem.mk (u "Analytical Engines Ltd") (u "Programmer") (u "1842")
    (u "1843") (u "- Did X
- Did Y").

Definition sample_education : EducationItem.t :=
  EducationItem.mk (u "Mathematics") (u "Private tuition") (u "1835").

Definition sample_optimized : OptimizedResumeData.t pystr (list pystr) :=
  OptimizedResumeData.mk (u "Summary") [] [] [u "Analysis"] [].

Lemma unknown_template_renders_as_modern_witness :
  build_resume_from_request sample_info (u "Summary") [u "Analysis"]
    [sample_experience] [sample_education] (u "unknown")
  = build_resume_from_request sample_info (u "Summary") [u "Analysis"]
      [sample_experience] [sample_education] (u "modern")
  /\ build_resume sample_info sample_optimized (u "unknown")
     = build_resume sample_info sample_optimized (u "modern").
Proof.
  apply unknown_template_renders_as_modern.
  unfold known_template. intros [H | [H | H]]; vm_compute in H; discriminate H.
Defined.

(** The lookup does distinguish the templates of the table. *)
Example classic_differs_from_modern :
  build_resume_from_request sample_info (u "Summary") [] [] [] (u "classic")
  <> build_resume_from_request sample_info (u "Summary") [] [] [] (u "modern").
Proof. vm_compute. discriminate. Qed.

End TemplateFacts.

(** ** The response normalizer *)

Module NormalizerFacts.
Import AIService.

(** A loop that appends the image of every item builds the [map]. *)
Lemma fold_append_map {A B} (f : A -> B) (items : list A) (acc : list B) :
  fold_left (fun acc x => acc ++ [f x]) items acc = acc ++ map f items.
Proof.
  revert acc. induction items as [|x items IH]; intros acc; cbn.
  - now rewrite app_nil_r.
  - rewrite IH, <- app_assoc. reflexivity.
Qed.

(** The value of a top-level key that is missing or falsy. *)
Definition section_absent (d : list (pystr * pyval)) (key : pystr) : Prop :=
  truthy (dict_get d key (PList [])) = false.

Lemma parse_experience_fallback d request :
  section_absent d (u "optimized_experience") ->
  parse_experience (PDict d) request
  = Ok (map experience_of_request (ResumeRequest.experience request)).
Proof.
  intros H. unfold parse_experience, section_absent in *. cbn [py_get bind].
  rewrite H. cbn [negb]. now rewrite fold_append_map.
Qed.

Lemma parse_education_fallback d request :
  section_absent d (u "optimized_education") ->
  parse_education (PDict d) request
  = Ok (map education_of_request (ResumeRequest.education request)).
Proof.
  intros H. unfold parse_education, section_absent in *. cbn [py_get bind].
  rewrite H. cbn [negb]. now rewrite fold_append_map.
Qed.

(** The normalizer runs its two blocks in turn and returns their lists. *)
Lemma parse_ai_response_blocks d request r :
  _parse_ai_response (PDict d) request = Ok r ->
  parse_experience (PDict d) request = Ok (OptimizedResumeData.experience r)
  /\ parse_education (PDict d) request = Ok (OptimizedResumeData.education r).
Proof.
  unfold _parse_ai_response. cbn [py_get bind].
  destruct (parse_experience (PDict d) request) as [xs|e]; [|discriminate].
  destruct (parse_education (PDict d) request) as [ys|e]; [|discriminate].
  cbn. intros H. inversion H. subst. cbn. auto.
Qed.

(** An entry rebuilt from the request copies the five fields and has no
    achievements. *)
Definition copies_experience (exp : ExperienceItem.t)
    (out : ExperienceModel.t pyval pyval) : Prop :=
  ExperienceModel.company out = PStr (ExperienceItem.company exp)
  /\ ExperienceModel.role out = PStr (ExperienceItem.role exp)
  /\ ExperienceModel.start_date out = PStr (ExperienceItem.start_date exp)
  /\ ExperienceModel.end_date out = PStr (ExperienceItem.end_date exp)
  /\ ExperienceModel.responsibilities out
     = PStr (ExperienceItem.responsibilities exp)
  /\ ExperienceModel.achievements out = PList [].

Definition copies_education (edu : EducationItem.t)
    (out : EducationModel.t pyval) : Prop :=
  EducationModel.degree out = PStr (EducationItem.degree edu)
  /\ EducationModel.institution out = PStr (EducationItem.institution edu)
  /\ EducationModel.year out = PStr (EducationItem.year edu).

Lemma Forall2_map_right {A B} (P : A -> B -> Prop) (f : A -> B) (l : list A) :
  (forall x, P x (f x)) -> Forall2 P l (map f l).
Proof. intros H. induction l; cbn; constructor; auto. Qed.

(** The other top-level keys of the result. *)
Definition summary_of (d : list (pystr * pyval)) (request : ResumeRequest.t)
  : pyval :=
  dict_get d (u "optimized_summary") (PStr (ResumeRequest.summary request)).

Definition skills_of (d : list (pystr * pyval)) (request : ResumeRequest.t)
  : pyval :=
  dict_get d (u "optimized_skills")
    (PList (map PStr (ResumeRequest.skills request))).

Definition keywords_of (d : list (pystr * pyval)) : pyval :=
  dict_get d (u "ats_keywords") (PList []).

(** C1 (amended): when [optimized_experience] is missing or falsy, the
    experience block of the normalizer yields one entry per original entry,
    in order, with the five fields copied and no achievements; the
    normalizer returns that list whenever its education block returns, and
    every result it returns carries it. Likewise for [optimized_education].
    With both sections missing or falsy the normalizer does return. *)
Theorem fallback_preserves_entries d request :
  let original_experience :=
    map experience_of_request (ResumeRequest.experience request) in
  let original_education :=
    map education_of_request (ResumeRequest.education request) in
  (section_absent d (u "optimized_experience") ->
     parse_experience (PDict d) request = Ok original_experience
     /\ Forall2 copies_experience (ResumeRequest.experience request)
          original_experience
     /\ _parse_ai_response (PDict d) request
        = (optimized_education <- parse_education (PDict d) request ;;
           Ok (OptimizedResumeData.mk (summary_of d request)
                 original_experience optimized_education
                 (skills_of d request) (keywords_of d)))
     /\ forall r, _parse_ai_response (PDict d) request = Ok r ->
          OptimizedResumeData.experience r = original_experience)
  /\ (section_absent d (u "optimized_education") ->
     parse_education (PDict d) request = Ok original_education
     /\ Forall2 copies_education (ResumeRequest.education request)
          original_education
     /\ _parse_ai_response (PDict d) request
        = (optimized_experience <- parse_experience (PDict d) request ;;
           Ok (OptimizedResumeData.mk (summary_of d request)
                 optimized_experience original_education
                 (skills_of d request) (keywords_of d)))
     /\ forall r, _parse_ai_response (PDict d) request = Ok r ->
          OptimizedResumeData.education r = original_education)
  /\ (section_absent d (u "optimized_experience") ->
      section_absent d (u "optimized_education") ->
      _parse_ai_response (PDict d) request
      = Ok (OptimizedResumeData.mk (summary_of d request)
              original_experience original_education
              (skills_of d request) (keywords_of d))).
Proof.
  cbv zeta. split; [|split].
  - intros H. split; [now apply parse_experience_fallback|]. split; [|split].
    + apply Forall2_map_right. intros x. repeat split.
    + unfold _parse_ai_response. cbn [py_get bind].
      rewrite (parse_experience_fallback _ H). reflexivity.
    + intros r Hr. apply parse_ai_response_blocks in Hr as [Hx _].
      rewrite parse_experience_fallback in Hx by assumption. congruence.
  - intros H. split; [now apply parse_education_fallback|]. split; [|split].
    + apply Forall2_map_right. intros x. repeat split.
    + unfold _parse_ai_response. cbn [py_get bind].
      rewrite (parse_education_fallback _ H).
      destruct (parse_experience (PDict d) request); reflexivity.
    + intros r Hr. apply parse_ai_response_blocks in Hr as [_ Hy].
      rewrite parse_education_fallback in Hy by assumption. congruence.
  - intros Hx Hy. unfold _parse_ai_response. cbn [py_get bind].
    rewrite (parse_experience_fallback _ Hx), (parse_education_fallback _ Hy).
    reflexivity.
Qed.

Definition two_jobs : ResumeRequest.t :=
  ResumeRequest.mk
    (PersonalInfo.mk (u "Ada") (u "ada@example.org") (u "1") (u "London")
       None None)
    (u "Original summary") [u "Analysis"]
    [ ExperienceItem.mk (u "A Ltd") (u "Engineer") (u "2019") (u "2021")
        (u "Built things");
      ExperienceItem.mk (u "B Ltd") (u "Lead") (u "2021") (u "Present")
        (u "Led things") ]
    [ EducationItem.mk (u "BSc") (u "Uni") (u "2018") ]
    [] (u "modern").

(** The parsed form of [{"optimized_summary": "X", "optimized_experience": []}]. *)
Definition summary_only : list (pystr * pyval) :=
  [ (u "optimized_summary", PStr (u "X"));
    (u "optimized_experience", PList []) ].

Lemma fallback_preserves_entries_witness :
  exists r, _parse_ai_response (PDict summary_only) two_jobs = Ok r
            /\ OptimizedResumeData.summary r = PStr (u "X")
            /\ OptimizedResumeData.experience r
               = map experience_of_request (ResumeRequest.experience two_jobs)
            /\ List.length (OptimizedResumeData.experience r) = 2.
Proof.
  destruct (@fallback_preserves_entries summary_only two_jobs)
    as (_ & _ & Hboth).
  eexists. split; [exact (Hboth eq_refl eq_refl)|].
  repeat split.
Defined.

(** A truthy section of the wrong shape is not handled: the normalizer
    raises, so no list is returned at all. *)
Example malformed_education_raises :
  _parse_ai_response
    (PDict [(u "optimized_education", PList [PInt 1])]) two_jobs
  = Raise (AttributeError (u "'int' object has no attribute 'get'")).
Proof. vm_compute. reflexivity. Qed.

(** The parsed form of [{"optimized_education": [1]}]. *)
Definition education_of_numbers : list (pystr * pyval) :=
  [ (u "optimized_education", PList [PInt 1]) ].

(** C1 (as stated) fails: a response without [optimized_experience] whose
    [optimized_education] is a list holding a number makes the normalizer
    raise, so it returns no experience list at all. *)
Lemma fallback_preserves_entries_counterexample :
  section_absent education_of_numbers (u "optimized_experience")
  /\ _parse_ai_response (PDict education_of_numbers) two_jobs
     = Raise (AttributeError (u "'int' object has no attribute 'get'"))
  /\ ~ (forall d request,
          section_absent d (u "optimized_experience") ->
          exists r,
            _parse_ai_response (PDict d) request = Ok r
            /\ OptimizedResumeData.experience r
               = map experience_of_request (ResumeRequest.experience request)).
Proof.
  split; [reflexivity|]. split; [vm_compute; reflexivity|].
  intros H.
  destruct (H education_of_numbers two_jobs eq_refl) as (r & Hr & _).
  vm_compute in Hr. discriminate Hr.
Qed.

(** A present section is taken as the AI returned it, whatever its length. *)
Example present_experience_is_used :
  exists r,
    _parse_ai_response
      (PDict [(u "optimized_experience",
               PList [PDict [(u "company", PStr (u "C Ltd"))]])]) two_jobs
    = Ok r
    /\ List.length (OptimizedResumeData.experience r) = 1.
Proof. eexists. split; [vm_compute; reflexivity | reflexivity]. Qed.

End NormalizerFacts.

(** ** The generate-resume handler *)

Module RouterFacts.
Import Router.

Definition is_provider_call (ev : Event) : bool :=
  match ev with CallProvider _ _ => true | _ => false end.

(** The response echoes the request: same summary and skills, every
    experience and education entry in order, no achievements. *)
Definition echoes_experience (exp : ExperienceItem.t)
    (out : OptimizedExperienceItem.t) : Prop :=
  OptimizedExperienceItem.company out = ExperienceItem.company exp
  /\ OptimizedExperienceItem.role out = ExperienceItem.role exp
  /\ OptimizedExperienceItem.start_date out = ExperienceItem.start_date exp
  /\ OptimizedExperienceItem.end_date out = ExperienceItem.end_date exp
  /\ OptimizedExperienceItem.responsibilities out
     = ExperienceItem.responsibilities exp
  /\ OptimizedExperienceItem.achievements out = [].

Definition echoes_education (edu : EducationItem.t)
    (out : OptimizedEducationItem.t) : Prop :=
  OptimizedEducationItem.degree out = EducationItem.degree edu
  /\ OptimizedEducationItem.institution out = EducationItem.institution edu
  /\ OptimizedEducationItem.year out = EducationItem.year edu.

Definition echoes (request : ResumeRequest.t) (response : ResumeResponse.t)
  : Prop :=
  ResumeResponse.optimized_summary response = ResumeRequest.summary request
  /\ ResumeResponse.optimized_skills response = ResumeRequest.skills request
  /\ Forall2 echoes_experience (ResumeRequest.experience request)
       (ResumeResponse.optimized_experience response)
  /\ Forall2 echoes_education (ResumeRequest.education request)
       (ResumeResponse.optimized_education response).

Section Handler.

Variable str_lower : pystr -> pystr.

(** The events of the PDF service are never provider calls. *)
Lemma generate_pdf_events w html filename candidate_name :
  forallb (fun ev => negb (is_provider_call ev))
    (snd (PDFService.generate_pdf str_lower w html filename candidate_name))
  = true.
Proof.
  unfold PDFService.generate_pdf. cbv zeta.
  generalize (PDFService.safe_filename str_lower (PDFService.uuid4 w)
                filename candidate_name ++ u "_resume.pdf").
  intros name. cbn.
  destruct (PDFService.xhtml2pdf_ok w html _); cbn; [reflexivity|].
  destruct (PDFService.reportlab_error w html _ _); reflexivity.
Qed.

(** The handler, step by step: the directory, then the PDF, then the
    response built from the request. *)
Lemma generate_resume_cases w request :
  let '(r, events) := generate_resume str_lower w request in
  forallb (fun ev => negb (is_provider_call ev)) events = true
  /\ (forall response, r = Ok response -> echoes request response)
  /\ (PDFService.mkdir_error w = None ->
      (forall html path title,
          PDFService.xhtml2pdf_ok w html path = true
          \/ PDFService.reportlab_error w html path title = None) ->
      exists response, r = Ok response).
Proof.
  unfold generate_resume, generate_resume_body, PDFService.__init__.
  cbv zeta.
  generalize (ResumeBuilder.build_resume_from_request
    (PersonalInfoModel.mk
       (PersonalInfo.full_name (ResumeRequest.personal_info request))
       (PersonalInfo.email (ResumeRequest.personal_info request))
       (PersonalInfo.phone (ResumeRequest.personal_info request))
       (PersonalInfo.location (ResumeRequest.personal_info request))
       (PersonalInfo.linkedin (ResumeRequest.personal_info request))
       (PersonalInfo.portfolio (ResumeRequest.personal_info request)))
    (ResumeRequest.summary request) (ResumeRequest.skills request)
    (ResumeRequest.experience request) (ResumeRequest.education request)
    (ResumeRequest.template request)).
  intros html.
  cbn [PersonalInfoModel.full_name].
  unfold PDFService.generate_pdf. cbv zeta.
  generalize (PDFService.safe_filename str_lower (PDFService.uuid4 w) None
    (Some (PersonalInfo.full_name (ResumeRequest.personal_info request)))).
  intros safe.
  set (title := match Some (PersonalInfo.full_name
                              (ResumeRequest.personal_info request)) with
                | Some ((_ :: _) as n) => n
                | _ => u "Resume"
                end).
  generalize title; clear title; intros title.
  generalize (PDFService.output_dir w ++ u "/" ++ safe ++ u "_resume.pdf").
  intros path.
  destruct (PDFService.mkdir_error w) as [e|] eqn:Hmk.
  { cbn. destruct (is_http_exception e) eqn:He; cbn;
      (split; [reflexivity | split; [discriminate | discriminate]]). }
  cbn.
  assert (Hecho : forall name,
    echoes request
      (ResumeResponse.mk (ResumeRequest.summary request)
         (map (fun exp =>
                 OptimizedExperienceItem.mk
                   (ExperienceItem.company exp) (ExperienceItem.role exp)
                   (ExperienceItem.start_date exp)
                   (ExperienceItem.end_date exp)
                   (ExperienceItem.responsibilities exp) [])
            (ResumeRequest.experience request))
         (map (fun edu =>
                 OptimizedEducationItem.mk
                   (EducationItem.degree edu) (EducationItem.institution edu)
                   (EducationItem.year edu))
            (ResumeRequest.education request))
         (ResumeRequest.skills request) html
         (PDFService.get_download_url name))).
  { intros name. unfold echoes; cbn. repeat split.
    - induction (ResumeRequest.experience request); cbn; constructor; auto.
      repeat split.
    - induction (ResumeRequest.education request); cbn; constructor; auto.
      repeat split. }
  destruct (PDFService.xhtml2pdf_ok w html path) eqn:Hx; cbn.
  { split; [reflexivity|]. split; [|eauto].
    intros response H. inversion H. apply Hecho. }
  destruct (PDFService.reportlab_error w html path title) as [e|] eqn:Hr; cbn.
  - destruct (is_pdf_service_error e) eqn:Hp; cbn.
    + split; [reflexivity|]. split; [discriminate|].
      intros _ Hok. destruct (Hok html path title); congruence.
    + destruct (is_http_exception e) eqn:He; cbn;
        (split; [reflexivity|]; split; [discriminate|];
         intros _ Hok; destruct (Hok html path title); congruence).
  - split; [reflexivity|]. split; [|eauto].
    intros response H. inversion H. apply Hecho.
Qed.

(** C9: the handler never calls an AI provider, whatever the request and
    the outside world; the response it returns echoes the request (summary
    and skills unchanged, experience and education entries in order, every
    achievements list empty); and it does return one whenever the output
    directory and one of the two PDF renderers work. *)
Theorem generate_resume_echoes_request w request :
  (forall api prompt,
      ~ In (CallProvider api prompt)
          (snd (generate_resume str_lower w request)))
  /\ (forall response,
        fst (generate_resume str_lower w request) = Ok response ->
        echoes request response
        /\ ResumeResponse.optimized_experience response
           = map (fun exp =>
                    OptimizedExperienceItem.mk
                      (ExperienceItem.company exp) (ExperienceItem.role exp)
                      (ExperienceItem.start_date exp)
                      (ExperienceItem.end_date exp)
                      (ExperienceItem.responsibilities exp) [])
               (ResumeRequest.experience request))
  /\ (PDFService.mkdir_error w = None ->
      (forall html path title,
          PDFService.xhtml2pdf_ok w html path = true
          \/ PDFService.reportlab_error w html path title = None) ->
      exists response, fst (generate_resume str_lower w request) = Ok response).
Proof.
  pose proof (generate_resume_cases w request) as H.
  destruct (generate_resume str_lower w request) as [r events] eqn:E.
  destruct H as (Hev & Hecho & Hret). cbn [fst snd].
  split; [|split].
  - intros api prompt Hin. rewrite forallb_forall in Hev.
    specialize (Hev _ Hin). discriminate.
  - intros response Hr. split; [now apply Hecho|].
    specialize (Hecho _ Hr). destruct Hecho as (_ & _ & Hx & _).
    revert Hx. generalize (ResumeResponse.optimized_experience response).
    induction (ResumeRequest.experience request) as [|x xs IH];
      intros out Hx; inversion Hx; subst; cbn; [reflexivity|].
    f_equal; [|now apply IH].
    match goal with
    | H : echoes_experience x ?y |- _ =>
        destruct y; destruct H as (? & ? & ? & ? & ? & ?); cbn in *; subst
    end.
    reflexivity.
  - exact Hret.
Qed.

End Handler.

Definition working_world : PDFService.World :=
  PDFService.mkWorld (u "0f8fad5b-d9cb-469f-a165-70867728950e") (u "generated")
    None (fun _ _ => false) (fun _ _ _ => None).

Lemma generate_resume_echoes_request_witness :
  exists response,
    fst (generate_resume PDFService.ascii_lower working_world
           NormalizerFacts.two_jobs) = Ok response
    /\ ResumeResponse.optimized_summary response = u "Original summary"
    /\ ResumeResponse.pdf_download_url response
       = u "/api/resume/download/ada_resume.pdf".
Proof.
  destruct (@generate_resume_echoes_request PDFService.ascii_lower
              working_world NormalizerFacts.two_jobs) as (_ & Hecho & Hret).
  destruct (Hret eq_refl (fun _ _ _ => or_intror eq_refl)) as [response Hr].
  exists response. split; [exact Hr|].
  destruct (Hecho response Hr) as ((Hs & _) & _).
  split; [exact Hs|].
  revert Hr. vm_compute. intros Hr. injection Hr as <-. reflexivity.
Defined.

End RouterFacts.

(** ** Bullet lists of the renderer *)

Module BulletFacts.
Import ResumeBuilder.

(** In the words of the specification: the achievements that are inserted
    are those not equal to a bullet already in the list, the ones inserted
    before included. *)
Fixpoint inserted (achievements seen : list pystr) : list pystr :=
  match achievements with
  | [] => []
  | a :: rest =>
      if existsb (eqb_str a) seen then inserted rest seen
      else a :: inserted rest (a :: seen)
  end.

(** The bullets already in the list stay where they are, behind the new
    ones. *)
Lemma add_achievements_order achievements :
  forall bullet_points,
    add_achievements achievements bullet_points
    = rev (inserted achievements bullet_points) ++ bullet_points.
Proof.
  unfold add_achievements.
  induction achievements as [|a rest IH]; intros bullet_points; cbn;
    [reflexivity|].
  destruct (existsb (eqb_str a) bullet_points) eqn:E.
  - apply IH.
  - rewrite IH. cbn. now rewrite <- app_assoc.
Qed.

Lemma existsb_eqb_str_In a l : existsb (eqb_str a) l = true <-> In a l.
Proof.
  rewrite existsb_exists. split.
  - intros (x & Hin & E). apply eqb_str_spec in E. now subst.
  - intros Hin. exists a. split; [assumption | apply eqb_str_refl].
Qed.

(** With distinct achievements, none of them already a bullet, the result is
    all of them reversed, then the responsibility bullets. *)
Lemma inserted_all achievements :
  forall seen,
    NoDup achievements ->
    (forall a, In a achievements -> ~ In a seen) ->
    inserted achievements seen = achievements.
Proof.
  induction achievements as [|a rest IH]; intros seen Hnd Hfresh; cbn;
    [reflexivity|].
  inversion Hnd as [|? ? Hnotin Hnd']; subst.
  destruct (existsb (eqb_str a) seen) eqn:E.
  - apply existsb_eqb_str_In in E. exfalso. apply (Hfresh a); cbn; auto.
  - f_equal. apply IH; [assumption|].
    intros b Hb [<- | Hin]; [contradiction|].
    apply (Hfresh b); cbn; auto.
Qed.

(** A part of a text stays a part when text is put in front. *)
Lemma occurs_after (x rest mid : pystr) :
  (exists before after, rest = before ++ mid ++ after) ->
  exists before after, x ++ rest = before ++ mid ++ after.
Proof.
  intros (b & a & ->). exists (x ++ b), a. now rewrite app_assoc.
Qed.

(** A frame that does not depend on [a] stays one when text is put in
    front. *)
Lemma frame_after {A} (x : pystr) (rest mid : A -> pystr) :
  (exists before after, forall a, rest a = before ++ mid a ++ after) ->
  exists before after, forall a, x ++ rest a = before ++ mid a ++ after.
Proof.
  intros (b & c & H). exists (x ++ b), c. intros a.
  now rewrite H, app_assoc.
Qed.

(** The list elements of a longer list start with those of its first
    part. *)
Lemma bullets_html_from bullet_points :
  forall acc,
    fold_left (fun achievements_html point =>
                 if nonempty (strip point)
                 then achievements_html ++ list_item point
                 else achievements_html)
      bullet_points acc
    = acc ++ bullets_html bullet_points.
Proof.
  unfold bullets_html.
  induction bullet_points as [|p l IH]; intros acc; cbn [fold_left].
  - now rewrite app_nil_r.
  - rewrite IH. symmetry. rewrite IH.
    destruct (nonempty (strip p)); cbn [app]; [apply app_assoc | reflexivity].
Qed.

Lemma bullets_html_app a b :
  bullets_html (a ++ b) = bullets_html a ++ bullets_html b.
Proof.
  unfold bullets_html at 1. rewrite fold_left_app.
  fold (bullets_html a). apply bullets_html_from.
Qed.

Lemma fold_items {A} (item : A -> pystr) items :
  forall acc,
    fold_left (fun html x => html ++ item x) items acc
    = acc ++ List.concat (map item items).
Proof.
  induction items as [|x items IH]; intros acc; cbn [fold_left map List.concat].
  - now rewrite app_nil_r.
  - rewrite IH. symmetry. apply app_assoc.
Qed.

(** The item of an entry is a frame around its bullet list, and the frame
    does not depend on the achievements. *)
Lemma experience_item_frame config company role start_date end_date
    responsibilities :
  exists before after,
    forall achievements,
      experience_item config
        (ExperienceModel.mk company role start_date end_date responsibilities
           achievements)
      = before
        ++ bullets_html
             (add_achievements achievements
                (responsibility_bullets responsibilities))
        ++ after.
Proof.
  unfold experience_item, experience_bullets. cbv zeta.
  cbn [ExperienceModel.role ExperienceModel.company ExperienceModel.start_date
       ExperienceModel.end_date ExperienceModel.responsibilities
       ExperienceModel.achievements].
  repeat lazymatch goal with
    | |- exists before after, forall a,
           ?x ++ @?rest a = before ++ bullets_html _ ++ after =>
        apply (@frame_after _ x rest)
    end.
  exists []. eexists. intros a. reflexivity.
Qed.

Lemma experience_section_item config experience exp :
  In exp experience ->
  exists before after,
    _build_experience_section experience config
    = before ++ experience_item config exp ++ after.
Proof.
  intros Hin. unfold _build_experience_section.
  destruct experience as [|e0 rest]; [contradiction|]. cbv zeta.
  rewrite fold_items. cbn [app].
  apply in_split in Hin as (l1 & l2 & ->).
  rewrite map_app, concat_app. cbn [map List.concat].
  generalize (List.concat (map (experience_item config) l1))
    (List.concat (map (experience_item config) l2))
    (experience_item config exp).
  intros h1 h2 item. unfold experience_section_frame.
  repeat lazymatch goal with
    | |- exists before after, ?x ++ ?rest = before ++ item ++ after =>
        lazymatch rest with
        | context [item] => apply occurs_after
        end
    end.
  exists h1. eexists. rewrite <- !app_assoc. reflexivity.
Qed.

Definition did_x_did_y : ExperienceModel.t pystr (list pystr) :=
  ExperienceModel.mk (u "Acme") (u "Engineer") (u "2020") (u "2022")
    (u "- Did X
- Did Y")
    [u "Did Z"].

(** The entry with other achievements. *)
Definition with_achievements (exp : ExperienceModel.t pystr (list pystr))
    (achievements : list pystr) : ExperienceModel.t pystr (list pystr) :=
  ExperienceModel.mk (ExperienceModel.company exp) (ExperienceModel.role exp)
    (ExperienceModel.start_date exp) (ExperienceModel.end_date exp)
    (ExperienceModel.responsibilities exp) achievements.

(** C5: rendering an experience entry inserts each achievement at the
    front of the bullets derived from the responsibilities, in the order
    given, unless an equal string is already in the list; so the bullets are
    the inserted achievements reversed, then the responsibility bullets (all
    the achievements reversed when they are distinct and new). For
    responsibilities [- Did X / - Did Y] and achievements [Did Z] the
    bullets are Did Z, Did X, Did Y. The merged list is what is rendered:
    the item of the entry is a frame, the same for all achievements, around
    the list elements of the merged bullets, those of the inserted
    achievements first; and the item of every entry is part of the
    experience section. *)
Theorem achievements_are_prepended exp :
  let bullets := responsibility_bullets (ExperienceModel.responsibilities exp) in
  let achievements := ExperienceModel.achievements exp in
  (forall a rest bullet_points,
      add_achievements (a :: rest) bullet_points
      = add_achievements rest
          (if existsb (eqb_str a) bullet_points
           then bullet_points else a :: bullet_points))
  /\ experience_bullets exp = rev (inserted achievements bullets) ++ bullets
  /\ (NoDup achievements ->
      (forall a, In a achievements -> ~ In a bullets) ->
      experience_bullets exp = rev achievements ++ bullets)
  /\ experience_bullets did_x_did_y = [u "Did Z"; u "Did X"; u "Did Y"]
  /\ (forall config,
        exists before after,
          forall achievements',
            experience_item config (with_achievements exp achievements')
            = before
              ++ bullets_html (rev (inserted achievements' bullets) ++ bullets)
              ++ after)
  /\ (forall config,
        exists before after,
          experience_item config exp
          = before
            ++ (bullets_html (rev (inserted achievements bullets))
                ++ bullets_html bullets)
            ++ after)
  /\ (forall config experience,
        In exp experience ->
        exists before after,
          _build_experience_section experience config
          = before ++ experience_item config exp ++ after)
  /\ bullets_html (experience_bullets did_x_did_y)
     = list_item (u "Did Z") ++ list_item (u "Did X") ++ list_item (u "Did Y").
Proof.
  cbv zeta. split; [reflexivity|]. split; [|split; [|split]].
  - apply add_achievements_order.
  - intros Hnd Hfresh. unfold experience_bullets.
    rewrite add_achievements_order, inserted_all; auto.
  - vm_compute. reflexivity.
  - assert (Hframe : forall config,
      exists before after,
        forall achievements',
          experience_item config (with_achievements exp achievements')
          = before
            ++ bullets_html
                 (rev (inserted achievements'
                         (responsibility_bullets
                            (ExperienceModel.responsibilities exp)))
                  ++ responsibility_bullets
                       (ExperienceModel.responsibilities exp))
            ++ after).
    { intros config. unfold with_achievements.
      destruct (experience_item_frame config (ExperienceModel.company exp)
                  (ExperienceModel.role exp) (ExperienceModel.start_date exp)
                  (ExperienceModel.end_date exp)
                  (ExperienceModel.responsibilities exp))
        as (before & after & H).
      exists before, after. intros achievements'.
      rewrite H, add_achievements_order. reflexivity. }
    split; [exact Hframe|]. split; [|split].
    + intros config. destruct (Hframe config) as (before & after & H).
      exists before, after. rewrite <- bullets_html_app.
      rewrite <- (H (ExperienceModel.achievements exp)).
      destruct exp; reflexivity.
    + intros config experience. apply experience_section_item.
    + vm_compute. reflexivity.
Qed.

Lemma achievements_are_prepended_witness :
  experience_bullets did_x_did_y
  = rev (ExperienceModel.achievements did_x_did_y)
    ++ responsibility_bullets (ExperienceModel.responsibilities did_x_did_y).
Proof.
  refine (proj1 (proj2 (proj2 (@achievements_are_prepended did_x_did_y))) _ _).
  - repeat constructor. intros [].
  - intros a [<- | []]. vm_compute. intros [H | [H | []]]; discriminate H.
Defined.

(** An achievement equal to a bullet is not inserted again, and the order
    of insertion is the reverse of the order given. *)
Example achievements_dedup_and_reverse :
  add_achievements [u "B"; u "Did X"; u "A"; u "B"] [u "Did X"; u "Did Y"]
  = [u "A"; u "B"; u "Did X"; u "Did Y"].
Proof. vm_compute. reflexivity. Qed.

(** *** Derivation of the bullets from the responsibilities text *)

Definition has_marker (text : pystr) : bool :=
  contains [bullet] text || contains [hyphen] text.

Definition starts_with_marker (line : pystr) : bool :=
  startswith [bullet] line || startswith [hyphen] line.

(** The line classes in the words of the specification, on a stripped
    line: a line that starts with a marker becomes a bullet with the marker
    stripped; a line without marker that ends in a colon becomes a bold
    sub-heading; any other non-empty line is kept verbatim. *)
Definition bullets_of_line_spec (line : pystr) : list pystr :=
  if starts_with_marker line
  then [strip (lstrip_chars [bullet; hyphen] line)]
  else if negb (nonempty line) then []
  else if endswith (u ":") line then [u "<strong>" ++ line ++ u "</strong>"]
  else [line].

Definition responsibility_bullets_spec (responsibilities : pystr)
  : list pystr :=
  if has_marker responsibilities
  then flat_map (fun line => bullets_of_line_spec (strip line))
         (split nl responsibilities)
  else [responsibilities].

(** What the code does with a stripped line: as the specification says,
    save that a line made of markers and white space only gives no bullet. *)
Definition bullets_of_line (line : pystr) : list pystr :=
  if starts_with_marker line
  then let cleaned := strip (lstrip_chars [bullet; hyphen] line) in
       if nonempty cleaned then [cleaned] else []
  else if negb (nonempty line) then []
  else if endswith (u ":") line then [u "<strong>" ++ line ++ u "</strong>"]
  else [line].

Lemma starts_with_marker_nonempty line :
  starts_with_marker line = true -> nonempty line = true.
Proof. destruct line; [discriminate | reflexivity]. Qed.

Lemma bullet_step_line bullet_points line :
  bullet_step bullet_points line = bullet_points ++ bullets_of_line (strip line).
Proof.
  unfold bullet_step, bullets_of_line, sub_heading. cbv zeta.
  fold (starts_with_marker (strip line)).
  destruct (starts_with_marker (strip line)) eqn:Hm.
  - rewrite (starts_with_marker_nonempty _ Hm). cbn [negb andb].
    destruct (nonempty (strip (lstrip_chars _ _))); [reflexivity|].
    now rewrite app_nil_r.
  - destruct (nonempty (strip line)) eqn:Hne; cbn [negb andb].
    + destruct (endswith (u ":") (strip line)); reflexivity.
    + now rewrite app_nil_r.
Qed.

Lemma fold_bullet_step lines :
  forall acc,
    fold_left bullet_step lines acc
    = acc ++ flat_map (fun line => bullets_of_line (strip line)) lines.
Proof.
  induction lines as [|l lines IH]; intros acc; cbn.
  - now rewrite app_nil_r.
  - rewrite IH, bullet_step_line, <- app_assoc. reflexivity.
Qed.

Lemma responsibility_bullets_lines responsibilities :
  responsibility_bullets responsibilities
  = if has_marker responsibilities
    then flat_map (fun line => bullets_of_line (strip line))
           (split nl responsibilities)
    else [responsibilities].
Proof.
  unfold responsibility_bullets. fold (has_marker responsibilities).
  destruct (has_marker responsibilities); [|reflexivity].
  apply fold_bullet_step.
Qed.

(** C6 (as stated) fails on a line made of a marker alone: the
    specification's classes give the empty bullet, the code gives none. *)
Lemma bullet_derivation_counterexample :
  responsibility_bullets (u "-") = []
  /\ responsibility_bullets_spec (u "-") = [ [] ]
  /\ responsibility_bullets (u "-") <> responsibility_bullets_spec (u "-").
Proof.
  split; [vm_compute; reflexivity|]. split; [vm_compute; reflexivity|].
  vm_compute. discriminate.
Qed.

(** C6 (amended): if the responsibilities text contains a bullet or a
    hyphen anywhere it is split on line breaks and every stripped line is
    classified: a line that starts with a marker becomes a bullet with its
    leading markers and the surrounding white space stripped, unless nothing
    is left, in which case it gives no bullet; a line without marker that
    ends in a colon becomes a bold sub-heading; any other non-empty line is
    kept verbatim; an empty line gives nothing. A text without any marker
    is a single bullet. Both experience renderers derive their bullets this
    way; the derivation agrees with the specification's classes on every
    text in which no line consists of markers and white space only. *)
Theorem bullet_derivation responsibilities :
  (has_marker responsibilities = true ->
   responsibility_bullets responsibilities
   = flat_map (fun line => bullets_of_line (strip line))
       (split nl responsibilities))
  /\ (has_marker responsibilities = false ->
      responsibility_bullets responsibilities = [responsibilities])
  /\ (Forall (fun line =>
                starts_with_marker (strip line) = true ->
                strip (lstrip_chars [bullet; hyphen] (strip line)) <> [])
        (split nl responsibilities) ->
      responsibility_bullets responsibilities
      = responsibility_bullets_spec responsibilities)
  /\ (forall exp,
        ExperienceModel.responsibilities exp = responsibilities ->
        experience_bullets exp
        = add_achievements (ExperienceModel.achievements exp)
            (responsibility_bullets responsibilities))
  /\ (forall config exp,
        ExperienceItem.responsibilities exp = responsibilities ->
        exists before after,
          experience_item_from_request config exp
          = before
            ++ bullets_html (responsibility_bullets responsibilities)
            ++ after).
Proof.
  rewrite responsibility_bullets_lines. unfold responsibility_bullets_spec.
  split; [intros ->; reflexivity|].
  split; [intros ->; reflexivity|].
  split; [|split].
  - intros Hall. destruct (has_marker responsibilities); [|reflexivity].
    induction Hall as [|line lines Hline _ IH]; cbn; [reflexivity|].
    rewrite IH. f_equal.
    unfold bullets_of_line, bullets_of_line_spec. cbv zeta.
    destruct (starts_with_marker (strip line)); [|reflexivity].
    specialize (Hline eq_refl).
    destruct (strip (lstrip_chars [bullet; hyphen] (strip line)));
      [contradiction | reflexivity].
  - intros exp <-. unfold experience_bullets.
    now rewrite responsibility_bullets_lines.
  - intros config exp <-. unfold experience_item_from_request. cbv zeta.
    rewrite responsibility_bullets_lines.
    repeat match goal with
           | |- exists before after, _ ++ ?rest = before ++ ?mid ++ after =>
               lazymatch rest with
               | context [mid] => apply occurs_after
               end
           end.
    exists []. eexists. reflexivity.
Qed.

Lemma bullet_derivation_witness :
  responsibility_bullets (u "Backend:
- Did X
plain line")
  = [u "<strong>Backend:</strong>"; u "Did X"; u "plain line"]
  /\ responsibility_bullets (u "Backend:
- Did X
plain line")
     = responsibility_bullets_spec (u "Backend:
- Did X
plain line").
Proof.
  destruct (@bullet_derivation (u "Backend:
- Did X
plain line")) as (H1 & _ & H3 & _).
  split.
  - rewrite (H1 eq_refl). vm_compute. reflexivity.
  - apply H3. vm_compute. repeat constructor; intros; discriminate.
Defined.

End BulletFacts.

(** ** The file name sanitizer *)

Module SanitizerFacts.
Import PDFService.

(** The steps in the words of the specification. *)

(** A character of the fixed unsafe set, or a space. *)
Definition unsafe (c : char) : bool := mem c invalid_chars || N.eqb c 32.

Definition replace_unsafe (s : pystr) : pystr :=
  map (fun c => if unsafe c then underscore else c) s.

(** Collapse every run of underscores to one; [after_underscore] tells
    whether the character before is an underscore that was kept. *)
Fixpoint squeeze_from (after_underscore : bool) (s : pystr) : pystr :=
  match s with
  | [] => []
  | c :: t =>
      if N.eqb c underscore && after_underscore then squeeze_from true t
      else c :: squeeze_from (N.eqb c underscore) t
  end.

Definition squeeze (s : pystr) : pystr := squeeze_from false s.

Definition trim_underscores (s : pystr) : pystr := strip_chars (u "_") s.

Definition sanitize_spec (str_lower : pystr -> pystr) (uuid4 filename : pystr)
  : pystr :=
  let cleaned :=
    str_lower (trim_underscores (squeeze (replace_unsafe filename))) in
  match cleaned with
  | [] => take 8 uuid4
  | _ => cleaned
  end.

(** Replacing a single character is a [map]. *)
Lemma replace_char c d s :
  replace [c] [d] s = map (fun x => if N.eqb x c then d else x) s.
Proof.
  unfold replace. induction s as [|a t IH]; [reflexivity|].
  cbn [replace_from startswith List.length Nat.sub map].
  rewrite andb_true_r, N.eqb_sym.
  destruct (N.eqb a c); cbn [app]; now rewrite IH.
Qed.

Lemma replace_loop_unsafe s :
  replace (u " ") (u "_")
    (fold_left (fun acc c => replace [c] (u "_") acc) invalid_chars s)
  = replace_unsafe s.
Proof.
  change invalid_chars with [60; 62; 58; 34; 47; 92; 124; 63; 42]%N.
  change (u " ") with [32%N]. change (u "_") with [95%N].
  cbn [fold_left]. rewrite !replace_char, !map_map.
  apply map_ext. intros x. unfold unsafe, mem, underscore.
  change invalid_chars with [60; 62; 58; 34; 47; 92; 124; 63; 42]%N.
  cbn [existsb].
  repeat match goal with
         | |- context [N.eqb x ?k] =>
             destruct (N.eqb_spec x k) as [-> | ?]; [reflexivity|]; cbn
         end.
  reflexivity.
Qed.

(** One round of [replace("__", "_")]. *)
Definition halve (s : pystr) : pystr := replace (u "__") (u "_") s.

Lemma halve_pair t : halve (underscore :: underscore :: t) = underscore :: halve t.
Proof. reflexivity. Qed.

Lemma halve_other c t :
  startswith (u "__") (c :: t) = false -> halve (c :: t) = c :: halve t.
Proof.
  intros H. unfold halve, replace. cbn [replace_from]. now rewrite H.
Qed.

Lemma startswith_pair c t :
  startswith (u "__") (c :: t)
  = N.eqb c underscore && match t with
                          | [] => false
                          | d :: _ => N.eqb d underscore
                          end.
Proof.
  change (u "__") with [underscore; underscore]. cbn [startswith].
  rewrite (N.eqb_sym underscore c).
  destruct t as [|d t]; [reflexivity|].
  now rewrite (N.eqb_sym underscore d), andb_true_r.
Qed.

(** Induction over a string two characters at a time. *)
Lemma pair_induction (P : pystr -> Prop) :
  P [] ->
  (forall c t, P t -> (forall d r, t = d :: r -> P r) -> P (c :: t)) ->
  forall s, P s.
Proof.
  intros Hnil Hcons s.
  assert (H : P s /\ forall d r, s = d :: r -> P r).
  { induction s as [|c t [IH1 IH2]].
    - split; [assumption | discriminate].
    - split; [now apply Hcons|]. intros d r E. inversion E. now subst. }
  apply H.
Qed.

(** A round of replacement does not change what the squeeze gives. *)
Lemma squeeze_halve s : forall p, squeeze_from p (halve s) = squeeze_from p s.
Proof.
  induction s as [|c t IHt IHr] using pair_induction; intros p;
    [reflexivity|].
  destruct (startswith (u "__") (c :: t)) eqn:E.
  - rewrite startswith_pair in E. apply andb_prop in E as [Ec Ed].
    destruct t as [|d r]; [discriminate|].
    apply N.eqb_eq in Ec, Ed. subst c d.
    rewrite halve_pair. cbn [squeeze_from]. rewrite N.eqb_refl.
    cbn [andb]. destruct p; now rewrite (IHr _ _ eq_refl).
  - rewrite (@halve_other c t E). cbn [squeeze_from]. now rewrite !IHt.
Qed.

(** Without a doubled underscore there is nothing to squeeze. *)
Lemma squeeze_from_fixed s :
  forall p,
    contains (u "__") s = false ->
    (p = true -> startswith (u "_") s = false) ->
    squeeze_from p s = s.
Proof.
  induction s as [|c t IH]; intros p Hc Hp; [reflexivity|].
  cbn [contains] in Hc. apply orb_false_elim in Hc as [Hs Hc].
  cbn [squeeze_from].
  assert (Hhead : N.eqb c underscore && p = false).
  { destruct p; [|apply andb_false_r].
    specialize (Hp eq_refl). change (u "_") with [underscore] in Hp.
    cbn [startswith] in Hp. rewrite andb_true_r, N.eqb_sym in Hp.
    now rewrite Hp. }
  rewrite Hhead. f_equal. apply IH; [assumption|].
  intros Hu. rewrite startswith_pair, Hu in Hs. cbn [andb] in Hs.
  change (u "_") with [underscore]. destruct t as [|d r]; [reflexivity|].
  cbn [startswith]. now rewrite andb_true_r, N.eqb_sym.
Qed.

(** A round of replacement never lengthens the string, and shortens it when
    there is a doubled underscore. *)
Lemma halve_length s :
  List.length (halve s) <= List.length s
  /\ (contains (u "__") s = true -> List.length (halve s) < List.length s).
Proof.
  induction s as [|c t IHt IHr] using pair_induction; [split; [auto|discriminate]|].
  destruct (startswith (u "__") (c :: t)) eqn:E.
  - rewrite startswith_pair in E. apply andb_prop in E as [Ec Ed].
    destruct t as [|d r]; [discriminate|].
    apply N.eqb_eq in Ec, Ed. subst c d. rewrite halve_pair.
    destruct (IHr _ _ eq_refl) as [Hle _]. cbn [List.length]. split; intros; lia.
  - rewrite (@halve_other c t E). destruct IHt as [Hle Hlt].
    cbn [List.length contains]. rewrite E. cbn [orb]. split; [lia|].
    intros Hc. specialize (Hlt Hc). lia.
Qed.

(** The loop ends within [length s] rounds, on the squeezed string. *)
Lemma collapse_loop_squeeze rounds :
  forall s, List.length s <= rounds -> collapse_loop rounds s = squeeze s.
Proof.
  induction rounds as [|n IH]; intros s Hlen.
  - destruct s; [reflexivity | cbn in Hlen; lia].
  - cbn [collapse_loop]. destruct (contains (u "__") s) eqn:Hc.
    + fold (halve s). rewrite IH.
      * apply squeeze_halve.
      * destruct (halve_length s) as [_ Hlt]. specialize (Hlt Hc). lia.
    + symmetry. apply squeeze_from_fixed; [assumption | discriminate].
Qed.

(** The code computes the steps of the specification, for every input. *)
Lemma sanitize_steps str_lower uuid4 filename :
  _sanitize_filename str_lower uuid4 filename
  = sanitize_spec str_lower uuid4 filename.
Proof.
  unfold _sanitize_filename, sanitize_spec. cbv zeta.
  rewrite replace_loop_unsafe, collapse_loop_squeeze by reflexivity.
  fold (trim_underscores (squeeze (replace_unsafe filename))).
  destruct (str_lower _); reflexivity.
Qed.

(** After the squeeze no underscore is doubled. *)
Lemma squeeze_from_head s : startswith (u "_") (squeeze_from true s) = false.
Proof.
  change (u "_") with [underscore].
  induction s as [|c t IH]; [reflexivity|]. cbn [squeeze_from].
  rewrite andb_true_r. destruct (N.eqb c underscore) eqn:E; [assumption|].
  cbn [startswith]. now rewrite N.eqb_sym, E.
Qed.

Lemma squeeze_no_double s : forall p, contains (u "__") (squeeze_from p s) = false.
Proof.
  induction s as [|c t IH]; intros p; [reflexivity|]. cbn [squeeze_from].
  destruct (N.eqb c underscore && p) eqn:E; [apply IH|].
  cbn [contains]. rewrite IH, orb_false_r, startswith_pair.
  destruct (N.eqb c underscore) eqn:Ec; [|reflexivity]. cbn [andb].
  pose proof (squeeze_from_head t) as H. change (u "_") with [underscore] in H.
  destruct (squeeze_from true t) as [|d r]; [reflexivity|].
  cbn [startswith] in H. now rewrite andb_true_r, N.eqb_sym in H.
Qed.

Definition john : pystr := u "John  O'Brien!!".

(** A lower-case letter, a digit or an underscore. *)
Definition plain (c : char) : bool :=
  ((97 <=? c) && (c <=? 122) || (48 <=? c) && (c <=? 57) || (c =? 95))%N.

Definition upper (c : char) : bool := ((65 <=? c) && (c <=? 90))%N.

Lemma ascii_lower_on_ascii : lower_on_ascii ascii_lower.
Proof. intros s _. reflexivity. Qed.

Lemma sanitize_john str_lower uuid4 :
  lower_on_ascii str_lower ->
  _sanitize_filename str_lower uuid4 john = u "john_o'brien!!".
Proof.
  intros Hl. rewrite sanitize_steps. unfold sanitize_spec. cbv zeta.
  replace (trim_underscores (squeeze (replace_unsafe john)))
    with (u "John_O'Brien!!") by (vm_compute; reflexivity).
  rewrite Hl; [reflexivity|].
  unfold is_ascii. vm_compute. repeat constructor.
Qed.

(** C3 (as stated) fails: the sanitized form of the sample name keeps the
    apostrophe and the exclamation marks, which are not in the fixed set. *)
Lemma sanitizer_counterexample :
  _sanitize_filename ascii_lower (u "0f8fad5b-d9cb-469f-a165-70867728950e") john
    = u "john_o'brien!!"
  /\ forallb plain (u "john_o'brien!!") = false
  /\ ~ (forall str_lower uuid4,
          lower_on_ascii str_lower ->
          forallb plain (_sanitize_filename str_lower uuid4 john) = true).
Proof.
  split; [vm_compute; reflexivity|]. split; [vm_compute; reflexivity|].
  intros H. specialize (H ascii_lower [] ascii_lower_on_ascii).
  rewrite (sanitize_john [] ascii_lower_on_ascii) in H.
  vm_compute in H. discriminate H.
Qed.

(** C3 (amended): the sanitizer replaces each character of
    [invalid_chars] (less-than and greater-than sign, colon, double quote,
    slash, backslash, bar, question mark, asterisk) and the space with an
    underscore, collapses repeated
    underscores (none is doubled afterwards), trims leading and trailing
    underscores, lower-cases, and falls back to the first 8 characters of a
    random UUID only when the result is empty. Every other character is
    kept: for the name [John  O'Brien!!] the result is [john_o'brien!!],
    non-empty, without upper-case letter and without doubled underscore, but
    with the apostrophe and the two exclamation marks. *)
Theorem sanitizer_steps str_lower uuid4 filename :
  lower_on_ascii str_lower ->
  let cleaned :=
    str_lower (trim_underscores (squeeze (replace_unsafe filename))) in
  contains (u "__") (squeeze (replace_unsafe filename)) = false
  /\ (cleaned <> [] -> _sanitize_filename str_lower uuid4 filename = cleaned)
  /\ (cleaned = [] -> _sanitize_filename str_lower uuid4 filename = take 8 uuid4)
  /\ _sanitize_filename str_lower uuid4 john = u "john_o'brien!!"
  /\ (let out := _sanitize_filename str_lower uuid4 john in
      nonempty out = true
      /\ existsb upper out = false
      /\ contains (u "__") out = false
      /\ contains (u "'") out = true
      /\ contains (u "!!") out = true).
Proof.
  intros Hl. cbv zeta. split; [apply squeeze_no_double|].
  rewrite sanitize_steps. unfold sanitize_spec. cbv zeta.
  split; [|split].
  - destruct (str_lower _); [congruence | reflexivity].
  - intros ->. reflexivity.
  - rewrite (sanitize_john uuid4 Hl). split; [reflexivity|].
    vm_compute. repeat split.
Qed.

Lemma sanitizer_steps_witness :
  _sanitize_filename ascii_lower (u "0f8fad5b-d9cb-469f-a165-70867728950e")
    (u " <Draft>: CV?? ") = u "draft_cv"
  /\ _sanitize_filename ascii_lower (u "0f8fad5b-d9cb-469f-a165-70867728950e")
       (u "?? //") = u "0f8fad5b".
Proof.
  split.
  - refine (proj1 (proj2 (@sanitizer_steps ascii_lower
      (u "0f8fad5b-d9cb-469f-a165-70867728950e") (u " <Draft>: CV?? ")
      ascii_lower_on_ascii)) _).
    vm_compute. discriminate.
  - refine (proj1 (proj2 (proj2 (@sanitizer_steps ascii_lower
      (u "0f8fad5b-d9cb-469f-a165-70867728950e") (u "?? //")
      ascii_lower_on_ascii))) _).
    vm_compute. reflexivity.
Defined.

End SanitizerFacts.

(** ** Removal of markdown fences *)

Module FenceFacts.
Import AIService.

(** The clean-up in the words of the specification: a fence that opens the
    text, with its optional [json] tag and the white space after it, and a
    fence that closes the text are removed; the rest is only stripped. *)
Definition remove_leading_fence (s : pystr) : pystr :=
  if startswith fence_json s
  then dropwhile is_space (skipn (List.length fence_json) s)
  else if startswith fence s
       then dropwhile is_space (skipn (List.length fence) s)
       else s.

Definition remove_trailing_fence (s : pystr) : pystr :=
  if endswith fence s
  then firstn (List.length s - List.length fence) s
  else s.

Definition strip_fences_spec (content : pystr) : pystr :=
  strip (remove_trailing_fence (remove_leading_fence content)).

(** No fence anywhere in the text. *)
Definition fence_free (s : pystr) : Prop := contains fence s = false.

(** Whether the position after [x] starts a line. *)
Fixpoint bol_after (bol : bool) (x : pystr) : bool :=
  match x with
  | [] => bol
  | c :: t => bol_after (N.eqb c nl) t
  end.

Section Scan.

Variable m : bool -> pystr -> option nat.
Variable repl : pystr.

(** Passing over the rest of a match. *)
Lemma re_sub_skip x :
  forall bol y,
    re_sub_from m repl (List.length x) bol (x ++ y)
    = re_sub_from m repl 0 (bol_after bol x) y.
Proof.
  induction x as [|c x IH]; intros bol y; cbn [List.length app bol_after].
  - destruct y; reflexivity.
  - cbn [re_sub_from]. apply IH.
Qed.

(** Where the pattern matches nowhere the text is left as it is. *)
Lemma re_sub_no_match s :
  forall bol,
    (forall bol' a b, s = a ++ b -> m bol' b = None) ->
    re_sub_from m repl 0 bol s = s.
Proof.
  induction s as [|c t IH]; intros bol Hm; [reflexivity|].
  cbn [re_sub_from]. rewrite (Hm bol [] (c :: t) eq_refl). f_equal.
  apply IH. intros bol' a b ->. apply (Hm bol' (c :: a) b). reflexivity.
Qed.

(** The scan passes a part without match and goes on behind it. *)
Lemma re_sub_pass a :
  forall bol rest,
    (forall bol' a1 a2, a = a1 ++ a2 -> a2 <> [] -> m bol' (a2 ++ rest) = None) ->
    re_sub_from m repl 0 bol (a ++ rest)
    = a ++ re_sub_from m repl 0 (bol_after bol a) rest.
Proof.
  induction a as [|c t IH]; intros bol rest Hm; [reflexivity|].
  cbn [app re_sub_from bol_after].
  assert (H0 := Hm bol [] (c :: t) eq_refl ltac:(discriminate)).
  cbn [app] in H0. rewrite H0. f_equal.
  apply IH. intros bol' a1 a2 -> Hne. apply (Hm bol' (c :: a1) a2);
    [reflexivity | assumption].
Qed.

End Scan.

(** A literal without line feed cannot reach across a line feed. *)
Lemma startswith_before_nl lit :
  ~ In nl lit -> lit <> [] ->
  forall a b, startswith lit (a ++ nl :: b) = startswith lit a.
Proof.
  induction lit as [|x lit IH]; intros Hnl Hne a b; [congruence|].
  destruct a as [|c a]; cbn [app startswith].
  - destruct (N.eqb_spec x nl) as [E|E]; [|reflexivity].
    exfalso. apply Hnl. now left.
  - destruct lit as [|y lit]; [reflexivity|].
    rewrite IH; [reflexivity | | discriminate].
    intros Hin. apply Hnl. now right.
Qed.

Lemma contains_across_nl lit :
  ~ In nl lit -> lit <> [] ->
  forall a b, contains lit (a ++ nl :: b) = contains lit a || contains lit b.
Proof.
  intros Hnl Hne a b. induction a as [|c a IH].
  - assert (H0 := startswith_before_nl Hnl Hne [] b).
    cbn [app contains] in *. rewrite H0.
    destruct lit; [congruence | reflexivity].
  - assert (H0 := startswith_before_nl Hnl Hne (c :: a) b).
    cbn [app contains] in *. rewrite IH, H0.
    now rewrite orb_assoc.
Qed.

Lemma contains_suffix lit a b : contains lit (a ++ b) = false -> contains lit b = false.
Proof.
  induction a as [|c a IH]; [auto|]. cbn [app contains]. intros H.
  apply orb_false_elim in H as [_ H]. auto.
Qed.

Lemma contains_head lit s : contains lit s = false -> startswith lit s = false.
Proof. destruct s; cbn [contains]; intros H; now apply orb_false_elim in H. Qed.

Lemma fence_not_nl : ~ In nl fence.
Proof. vm_compute. intuition discriminate. Qed.

Lemma fence_json_not_nl : ~ In nl fence_json.
Proof. vm_compute. intuition discriminate. Qed.

Lemma startswith_fence_json s : startswith fence s = false -> startswith fence_json s = false.
Proof.
  destruct s as [|a [|b [|c r]]]; try reflexivity;
    change fence with [96; 96; 96]%N;
    change fence_json with [96; 96; 96; 106; 115; 111; 110]%N;
    cbn [startswith]; intros H.
  - now rewrite andb_false_r.
  - now rewrite !andb_false_r.
  - rewrite andb_true_r in H.
    destruct (N.eqb 96 a); [|reflexivity].
    destruct (N.eqb 96 b); [|reflexivity].
    destruct (N.eqb 96 c); [discriminate | reflexivity].
Qed.

Lemma contains_fence_json s : contains fence s = false -> contains fence_json s = false.
Proof.
  induction s as [|c s IH]; cbn [contains]; intros H.
  - reflexivity.
  - apply orb_false_elim in H as [H1 H2].
    now rewrite (startswith_fence_json _ H1), IH.
Qed.

(** The three patterns of the clean-up. *)
Lemma line_start_no_match lit bol s :
  startswith lit s = false -> at_line_start_ws lit bol s = None.
Proof. unfold at_line_start_ws. intros ->. now rewrite andb_false_r. Qed.

Lemma line_end_no_match lit bol s :
  startswith lit s = false -> at_line_end lit bol s = None.
Proof. unfold at_line_end. now intros ->. Qed.

Lemma sub_line_start_free lit s :
  contains lit s = false -> re_sub (at_line_start_ws lit) [] s = s.
Proof.
  intros H. apply re_sub_no_match. intros bol' a b ->.
  apply line_start_no_match, contains_head. eapply contains_suffix, H.
Qed.

Lemma sub_line_end_free lit s :
  contains lit s = false -> re_sub (at_line_end lit) [] s = s.
Proof.
  intros H. apply re_sub_no_match. intros bol' a b ->.
  apply line_end_no_match, contains_head. eapply contains_suffix, H.
Qed.

(** A text without fence is only stripped. *)
Lemma strip_fences_free s : fence_free s -> strip_fences s = strip s.
Proof.
  intros H. unfold strip_fences.
  rewrite (sub_line_start_free _ _ (contains_fence_json _ H)).
  rewrite (sub_line_start_free _ _ H).
  now rewrite (sub_line_end_free _ _ H).
Qed.

(** Splitting a text at its leading white space. *)
Lemma span_space s : takewhile is_space s ++ dropwhile is_space s = s.
Proof.
  induction s as [|c t IH]; [reflexivity|]. cbn.
  destruct (is_space c); cbn; [now rewrite IH | reflexivity].
Qed.

Lemma dropwhile_app f a b :
  dropwhile f (a ++ b)
  = match dropwhile f a with
    | [] => dropwhile f b
    | d => d ++ b
    end.
Proof.
  induction a as [|c a IH]; cbn [app dropwhile].
  - destruct (dropwhile f b); reflexivity.
  - destruct (f c); [apply IH | reflexivity].
Qed.

Lemma takewhile_app f a b :
  takewhile f (a ++ b)
  = match dropwhile f a with
    | [] => a ++ takewhile f b
    | _ => takewhile f a
    end.
Proof.
  induction a as [|c a IH]; cbn [app dropwhile takewhile]; [reflexivity|].
  destruct (f c); [|reflexivity].
  rewrite IH. destruct (dropwhile f a); reflexivity.
Qed.

Lemma bol_after_nl bol x : bol_after bol (x ++ [nl]) = true.
Proof. revert bol. induction x; intros bol; cbn; auto. Qed.

Lemma startswith_self lit r : startswith lit (lit ++ r) = true.
Proof.
  induction lit as [|c lit IH]; [reflexivity|].
  cbn [app startswith]. now rewrite N.eqb_refl, IH.
Qed.

Lemma skipn_self (lit r : pystr) : skipn (List.length lit) (lit ++ r) = r.
Proof. induction lit; cbn; auto. Qed.

(** A fence at the start of a line goes with the white space after it, and
    the scan goes on behind that white space. *)
Lemma sub_line_start_match lit r :
  lit <> [] ->
  re_sub_from (at_line_start_ws lit) [] 0 true (lit ++ r)
  = re_sub_from (at_line_start_ws lit) [] 0
      (bol_after true (lit ++ takewhile is_space r))
      (dropwhile is_space r).
Proof.
  intros Hne. destruct lit as [|c lit]; [congruence|].
  assert (Hm : at_line_start_ws (c :: lit) true ((c :: lit) ++ r)
               = Some (S (List.length (lit ++ takewhile is_space r)))).
  { unfold at_line_start_ws.
    rewrite startswith_self, skipn_self, length_app. reflexivity. }
  cbn [app] in Hm |- *. cbn [re_sub_from]. rewrite Hm. cbn [app].
  replace (lit ++ r) with ((lit ++ takewhile is_space r) ++ dropwhile is_space r)
    by now rewrite <- app_assoc, span_space.
  rewrite re_sub_skip. reflexivity.
Qed.

Lemma not_space_fence : dropwhile is_space (nl :: fence) = fence.
Proof. reflexivity. Qed.

(** The closing fence on its own line, under the second pattern. *)
Lemma sub_fence_closing b :
  forall bol,
    fence_free b ->
    re_sub_from (at_line_start_ws fence) [] 0 bol (b ++ nl :: fence)
    = b ++ [nl].
Proof.
  intros bol Hb. rewrite re_sub_pass.
  - f_equal. cbn [re_sub_from].
    rewrite (line_start_no_match fence _ (nl :: fence) eq_refl).
    reflexivity.
  - intros bol' a1 a2 -> _. apply line_start_no_match.
    rewrite (startswith_before_nl fence_not_nl); [|discriminate].
    apply contains_head. eapply contains_suffix, Hb.
Qed.

Lemma sub_line_start_free_from lit bol s :
  contains lit s = false ->
  re_sub_from (at_line_start_ws lit) [] 0 bol s = s.
Proof.
  intros H. apply re_sub_no_match. intros bol' a b ->.
  apply line_start_no_match, contains_head. eapply contains_suffix, H.
Qed.

(** What is left of a fenced body after the first two patterns. *)
Definition unfenced (body : pystr) : pystr :=
  match dropwhile is_space body with
  | [] => []
  | b => b ++ [nl]
  end.

Lemma fence_free_dropwhile body :
  fence_free body -> fence_free (dropwhile is_space body).
Proof.
  unfold fence_free. intros H. rewrite <- (span_space body) in H.
  eapply contains_suffix, H.
Qed.

Lemma contains_fenced_json body :
  fence_free body -> contains fence_json (body ++ nl :: fence) = false.
Proof.
  intros H. rewrite (contains_across_nl fence_json_not_nl); [|discriminate].
  now rewrite (contains_fence_json _ H).
Qed.

Lemma sub_json_fenced body :
  fence_free body ->
  re_sub (at_line_start_ws fence_json) [] (fence_json ++ nl :: body ++ nl :: fence)
  = match dropwhile is_space body with
    | [] => fence
    | b => b ++ nl :: fence
    end.
Proof.
  intros H. unfold re_sub. rewrite sub_line_start_match by discriminate.
  cbn [dropwhile]. change (is_space nl) with true. cbv iota.
  rewrite dropwhile_app, not_space_fence.
  apply sub_line_start_free_from.
  pose proof (fence_free_dropwhile H) as H'.
  destruct (dropwhile is_space body) as [|d b]; [reflexivity|].
  now apply contains_fenced_json.
Qed.

Lemma sub_fence_rest body :
  fence_free body ->
  re_sub (at_line_start_ws fence) []
    match dropwhile is_space body with
    | [] => fence
    | b => b ++ nl :: fence
    end
  = unfenced body.
Proof.
  intros H. unfold unfenced, re_sub.
  pose proof (fence_free_dropwhile H) as H'.
  destruct (dropwhile is_space body) as [|d b]; [reflexivity|].
  now apply sub_fence_closing.
Qed.

Lemma sub_fence_fenced body :
  fence_free body ->
  re_sub (at_line_start_ws fence) [] (fence ++ nl :: body ++ nl :: fence)
  = unfenced body.
Proof.
  intros H. unfold re_sub. rewrite sub_line_start_match by discriminate.
  cbn [dropwhile takewhile]. change (is_space nl) with true. cbv iota.
  rewrite dropwhile_app, takewhile_app, not_space_fence. unfold unfenced.
  pose proof (fence_free_dropwhile H) as H'.
  destruct (dropwhile is_space body) as [|d b].
  - change (takewhile is_space (nl :: fence)) with [nl].
    replace (fence ++ nl :: body ++ [nl]) with ((fence ++ nl :: body) ++ [nl])
      by now rewrite <- app_assoc.
    rewrite bol_after_nl. reflexivity.
  - now apply sub_fence_closing.
Qed.

Lemma unfenced_free body : fence_free body -> contains fence (unfenced body) = false.
Proof.
  intros H. unfold unfenced. pose proof (fence_free_dropwhile H) as H'.
  destruct (dropwhile is_space body) as [|d b]; [reflexivity|].
  rewrite (contains_across_nl fence_not_nl); [|discriminate].
  rewrite H'. reflexivity.
Qed.

Lemma dropwhile_idem f s : dropwhile f (dropwhile f s) = dropwhile f s.
Proof.
  induction s as [|c t IH]; [reflexivity|]. cbn.
  destruct (f c) eqn:E; [assumption|]. cbn. now rewrite E.
Qed.

Lemma strip_unfenced body : strip (unfenced body) = strip body.
Proof.
  unfold unfenced, strip, lstrip_by, rstrip_by.
  destruct (dropwhile is_space body) as [|d b] eqn:E; [reflexivity|].
  rewrite <- E, dropwhile_app, dropwhile_idem, E.
  rewrite rev_app_distr. reflexivity.
Qed.

Lemma strip_fences_fenced_json body :
  fence_free body ->
  strip_fences (fence_json ++ nl :: body ++ nl :: fence) = strip body.
Proof.
  intros H. unfold strip_fences.
  rewrite (sub_json_fenced H), (sub_fence_rest H).
  rewrite (sub_line_end_free _ _ (unfenced_free H)).
  apply strip_unfenced.
Qed.

Lemma strip_fences_fenced body :
  fence_free body ->
  strip_fences (fence ++ nl :: body ++ nl :: fence) = strip body.
Proof.
  intros H. unfold strip_fences.
  rewrite (@sub_line_start_free fence_json).
  - rewrite (sub_fence_fenced H).
    rewrite (sub_line_end_free _ _ (unfenced_free H)).
    apply strip_unfenced.
  - rewrite (contains_across_nl fence_json_not_nl); [|discriminate].
    now rewrite (contains_fenced_json H).
Qed.


(** *** The three passes, line by line *)











Section LineStarts.

Variable lit : pystr.
Hypothesis lit_text : lit <> [].
Hypothesis lit_line : forall bol, bol_after bol lit = false.





End LineStarts.

(** *** The third pass *)













(** *** A fence behind the text of a line *)






Section Behind.

Variables (text : pystr) (c : char) (tail : pystr).

Hypothesis text_free : fence_free (text ++ [c]).
Hypothesis c_plain : c <> 96%N.
Hypothesis c_in_line : c <> nl.
Hypothesis tail_free : fence_free tail.




End Behind.




Definition json_object : pystr := u "{" ++ q "optimized_summary" ++ u ": " ++ q "X" ++ u "}".


(** On a fenced text without inner fence the code and the specification
    agree. *)
Example fence_cleanup_agrees_on_wrapped_text :
  strip_fences_spec (fence_json ++ nl :: json_object ++ nl :: fence) = json_object.
Proof. vm_compute. reflexivity. Qed.

End FenceFacts.

(** ** The prompt builder *)

Module PromptFacts.
Import AIService.

(** The heading of the job-description block. *)
Definition heading : pystr := u "TARGET JOB DESCRIPTION".

(** The block as the template writes it. *)
Definition job_block (job_description : pystr) : pystr :=
  nl :: heading ++ u ":" ++ nl :: job_description ++ [nl].

(** A text in which the heading does not occur. *)
Definition clean (s : pystr) : Prop := contains heading s = false.

(** [p] and [s] differ at a position that both have. *)
Fixpoint clash (p s : pystr) : bool :=
  match p, s with
  | a :: p', b :: s' => negb (N.eqb a b) || clash p' s'
  | _, _ => false
  end.

(** No proper part of the heading can begin in front of [s] and end in
    it ([seal_left]), or begin in [s] and end behind it ([seal_right]),
    whatever stands around [s]. *)
Definition seal_left (s : pystr) : bool :=
  forallb (fun k => clash (skipn k heading) s)
    (seq 1 (List.length heading - 1)).

Definition seal_right (s : pystr) : bool :=
  forallb (fun k => clash (rev (firstn k heading)) (rev s))
    (seq 1 (List.length heading - 1)).

(** A piece of fixed text that can stand between any two clean texts. *)
Definition sealed (s : pystr) : Prop :=
  clean s /\ seal_left s = true /\ seal_right s = true.

Lemma clash_app p s b : clash p s = true -> clash p (s ++ b) = true.
Proof.
  revert s. induction p as [|a p IH]; intros [|c s]; cbn; try discriminate.
  intros H. apply orb_prop in H as [H|H]; [now rewrite H|].
  rewrite (IH _ H). apply orb_true_r.
Qed.

Lemma clash_startswith p s : clash p s = true -> startswith p s = false.
Proof.
  revert s. induction p as [|a p IH]; intros [|c s]; cbn; try discriminate.
  intros H. apply orb_prop in H as [H|H].
  - apply negb_true_iff in H. now rewrite H.
  - rewrite (IH _ H). apply andb_false_r.
Qed.

Lemma startswith_app_l p a b :
  startswith p a = true -> startswith p (a ++ b) = true.
Proof.
  revert a. induction p as [|x p IH]; intros [|c a]; cbn; try discriminate;
    [reflexivity.. |].
  intros H. apply andb_prop in H as [H1 H2]. now rewrite H1, (IH _ H2).
Qed.

Lemma startswith_refl p : startswith p p = true.
Proof. induction p; cbn; [reflexivity|]. now rewrite N.eqb_refl. Qed.

(** A match over a concatenation lies in the left part or reaches across. *)
Lemma startswith_split m :
  forall x b,
    startswith m (x ++ b) = true ->
    startswith m x = true
    \/ (List.length x < List.length m
        /\ firstn (List.length x) m = x
        /\ startswith (skipn (List.length x) m) b = true).
Proof.
  induction m as [|c m IH]; intros x b H; [now left|].
  destruct x as [|d x].
  - right. cbn. split; [lia|]. auto.
  - cbn [app startswith] in H. apply andb_prop in H as [Hc H].
    apply N.eqb_eq in Hc. subst d.
    destruct (IH _ _ H) as [Hl | (Hlen & Hfirst & Hrest)].
    + left. cbn. now rewrite N.eqb_refl.
    + right. cbn. split; [lia|]. split; [now rewrite Hfirst | assumption].
Qed.

Lemma endswith_cons p c a : endswith p a = true -> endswith p (c :: a) = true.
Proof. unfold endswith. cbn [rev]. apply startswith_app_l. Qed.

Lemma contains_cons m c s : contains m s = true -> contains m (c :: s) = true.
Proof. intros H. cbn [contains]. rewrite H. apply orb_true_r. Qed.

Lemma contains_app_r m a b : contains m b = true -> contains m (a ++ b) = true.
Proof. induction a; cbn [app]; auto using contains_cons. Qed.

Lemma contains_app_l m a b : contains m a = true -> contains m (a ++ b) = true.
Proof.
  induction a as [|c a IH]; cbn [app contains]; intros H.
  - destruct m; [|discriminate]. destruct b; reflexivity.
  - apply orb_prop in H as [H|H].
    + pose proof (startswith_app_l _ (c :: a) b H) as H'.
      cbn [app] in H'. now rewrite H'.
    + rewrite (IH H). apply orb_true_r.
Qed.

(** Where an occurrence in a concatenation can lie. *)
Lemma contains_app m a b :
  contains m (a ++ b) = true ->
  contains m a = true \/ contains m b = true
  \/ exists k, 1 <= k < List.length m
               /\ endswith (firstn k m) a = true
               /\ startswith (skipn k m) b = true.
Proof.
  induction a as [|c a IH]; intros H; [auto|].
  cbn [app contains] in H. apply orb_prop in H as [H|H].
  - destruct (startswith_split m (c :: a) b H) as [Hl | (Hlen & Hfirst & Hrest)].
    + left. cbn [contains]. now rewrite Hl.
    + right. right. exists (List.length (c :: a)).
      split; [cbn in *; lia|]. split; [|assumption].
      rewrite Hfirst. unfold endswith. apply startswith_refl.
  - destruct (IH H) as [Ha | [Hb | (k & Hk & He & Hs)]].
    + left. now apply contains_cons.
    + right. now left.
    + right. right. exists k. split; [assumption|].
      split; [now apply endswith_cons | assumption].
Qed.

Lemma seal_left_spec s k b :
  seal_left s = true -> 1 <= k < List.length heading ->
  startswith (skipn k heading) (s ++ b) = false.
Proof.
  unfold seal_left. rewrite forallb_forall. intros H Hk.
  apply clash_startswith, clash_app, H, in_seq. lia.
Qed.

Lemma seal_right_spec s k a :
  seal_right s = true -> 1 <= k < List.length heading ->
  endswith (firstn k heading) (a ++ s) = false.
Proof.
  unfold seal_right, endswith. rewrite forallb_forall. intros H Hk.
  rewrite rev_app_distr. apply clash_startswith, clash_app, H, in_seq. lia.
Qed.

(** Two clean texts stay clean when put together across a seal. *)
Lemma clean_app a b :
  clean a -> clean b -> seal_right a = true \/ seal_left b = true ->
  clean (a ++ b).
Proof.
  unfold clean. intros Ha Hb Hseal.
  destruct (contains heading (a ++ b)) eqn:E; [|reflexivity].
  destruct (contains_app _ _ _ E) as [H | [H | (k & Hk & He & Hs)]];
    [congruence | congruence |].
  destruct Hseal as [Hr | Hl].
  - pose proof (@seal_right_spec a k [] Hr Hk) as H. cbn [app] in H.
    congruence.
  - pose proof (@seal_left_spec b k [] Hl Hk) as H. rewrite app_nil_r in H.
    congruence.
Qed.

Lemma seal_left_app a b : seal_left a = true -> seal_left (a ++ b) = true.
Proof.
  unfold seal_left. rewrite !forallb_forall. intros H k Hk.
  apply clash_app, H, Hk.
Qed.

Lemma seal_right_app a b : seal_right b = true -> seal_right (a ++ b) = true.
Proof.
  unfold seal_right. rewrite !forallb_forall. intros H k Hk.
  rewrite rev_app_distr. apply clash_app, H, Hk.
Qed.

Lemma sealed_app a b : sealed a -> sealed b -> sealed (a ++ b).
Proof.
  intros (Ha & Hal & Har) (Hb & Hbl & Hbr). repeat split.
  - apply clean_app; auto.
  - now apply seal_left_app.
  - now apply seal_right_app.
Qed.

Lemma sealed_around a x b : sealed a -> clean x -> sealed b -> sealed (a ++ x ++ b).
Proof.
  intros (Ha & Hal & Har) Hx (Hb & Hbl & Hbr). repeat split.
  - apply clean_app; auto. apply clean_app; auto.
  - now apply seal_left_app.
  - rewrite app_assoc. now apply seal_right_app.
Qed.

Lemma clean_around x f y : clean x -> sealed f -> clean y -> clean (x ++ f ++ y).
Proof.
  intros Hx (Hf & Hfl & Hfr) Hy.
  apply clean_app; auto; [|right; now apply seal_left_app].
  apply clean_app; auto.
Qed.

Lemma sealed_clean s : sealed s -> clean s.
Proof. now intros (H & _). Qed.

(** Sealing of a fixed text is decided by computation. *)
Ltac fixed_text := split; [|split]; vm_compute; reflexivity.

(** A chain of fixed texts with clean texts between them. *)
Ltac seal_chain :=
  lazymatch goal with
  | |- sealed (_ ++ _ ++ _) =>
      first [ apply sealed_around; [fixed_text | assumption | seal_chain]
            | fixed_text ]
  | |- sealed _ => fixed_text
  end.

(** A text that is empty or sealed. *)
Definition inert (s : pystr) : Prop := s = [] \/ sealed s.

Lemma inert_clean s : inert s -> clean s.
Proof. intros [-> | H]; [reflexivity | now apply sealed_clean]. Qed.

Lemma inert_app s b : inert s -> sealed b -> sealed (s ++ b).
Proof. intros [-> | H] Hb; [assumption | now apply sealed_app]. Qed.

(** The decimal digits of a number cannot hold the heading. *)
Lemma clean_without_T s : Forall (fun c => c <> 84%N) s -> clean s.
Proof.
  unfold clean. induction 1 as [|c s Hc _ IH]; [reflexivity|].
  cbn [contains]. rewrite IH, orb_false_r.
  change heading with (84%N :: skipn 1 heading). cbn [startswith].
  destruct (N.eqb_spec 84 c); [congruence | reflexivity].
Qed.

Lemma digits_without_T d :
  Forall (fun c => c <> 84%N) (u (NilEmpty.string_of_uint d)).
Proof.
  induction d; cbn [NilEmpty.string_of_uint]; try constructor;
    try assumption; vm_compute; discriminate.
Qed.

Lemma clean_str_of_nat i : clean (str_of_nat i).
Proof. apply clean_without_T, digits_without_T. Qed.

(** No text supplied with the request, the job description apart, holds the
    heading. *)
Definition clean_option (o : option pystr) : Prop :=
  match o with
  | Some s => clean s
  | None => True
  end.

Definition clean_experience (exp : ExperienceItem.t) : Prop :=
  clean (ExperienceItem.company exp)
  /\ clean (ExperienceItem.role exp)
  /\ clean (ExperienceItem.start_date exp)
  /\ clean (ExperienceItem.end_date exp)
  /\ clean (ExperienceItem.responsibilities exp).

Definition clean_education (edu : EducationItem.t) : Prop :=
  clean (EducationItem.degree edu)
  /\ clean (EducationItem.institution edu)
  /\ clean (EducationItem.year edu).

Definition clean_request (request : ResumeRequest.t) : Prop :=
  let info := ResumeRequest.personal_info request in
  clean (PersonalInfo.full_name info)
  /\ clean (PersonalInfo.email info)
  /\ clean (PersonalInfo.phone info)
  /\ clean (PersonalInfo.location info)
  /\ clean_option (PersonalInfo.linkedin info)
  /\ clean_option (PersonalInfo.portfolio info)
  /\ clean (ResumeRequest.summary request)
  /\ Forall clean (ResumeRequest.skills request)
  /\ Forall clean_experience (ResumeRequest.experience request)
  /\ Forall clean_education (ResumeRequest.education request).

Lemma sealed_experience_block i exp :
  clean_experience exp -> sealed (experience_block i exp).
Proof.
  intros (H1 & H2 & H3 & H4 & H5). unfold experience_block.
  pose proof (clean_str_of_nat i).
  seal_chain.
Qed.

Lemma sealed_education_line edu :
  clean_education edu -> sealed (education_line edu).
Proof.
  intros (H1 & H2 & H3). unfold education_line.
  seal_chain.
Qed.

Lemma inert_blocks {A} (block : A -> pystr) items :
  forall acc,
    inert acc -> Forall (fun x => sealed (block x)) items ->
    inert (fold_left (fun acc x => acc ++ block x) items acc).
Proof.
  induction items as [|x items IH]; intros acc Hacc Hall; [assumption|].
  inversion Hall; subst. cbn [fold_left]. apply IH; [|assumption].
  right. now apply inert_app.
Qed.

Lemma Forall_enumerate {A} (P : A -> Prop) items :
  forall start,
    Forall P items -> Forall (fun ie => P (snd ie)) (enumerate start items).
Proof.
  unfold enumerate. induction items as [|x items IH]; intros start H;
    cbn; [constructor|].
  inversion H; subst. constructor; [assumption | now apply IH].
Qed.

Lemma clean_experience_context request :
  Forall clean_experience (ResumeRequest.experience request) ->
  clean (experience_context request).
Proof.
  intros H. apply inert_clean. unfold experience_context.
  apply (inert_blocks (fun ie => experience_block (fst ie) (snd ie)));
    [now left|].
  apply Forall_enumerate with (start := 1) in H.
  eapply Forall_impl, H. intros [i exp]. apply sealed_experience_block.
Qed.

Lemma clean_education_context request :
  Forall clean_education (ResumeRequest.education request) ->
  clean (education_context request).
Proof.
  intros H. apply inert_clean. unfold education_context.
  apply inert_blocks; [now left|].
  eapply Forall_impl, H. apply sealed_education_line.
Qed.

Lemma clean_join items : Forall clean items -> clean (join (u ", ") items).
Proof.
  induction 1 as [|x items Hx Hall IH]; [reflexivity|].
  destruct items as [|y items]; [assumption|].
  change (join (u ", ") (x :: y :: items))
    with (x ++ u ", " ++ join (u ", ") (y :: items)).
  apply clean_around; [assumption | fixed_text | assumption].
Qed.

Lemma clean_skills_context request :
  Forall clean (ResumeRequest.skills request) -> clean (skills_context request).
Proof.
  intros H. unfold skills_context.
  destruct (ResumeRequest.skills request); [reflexivity|].
  now apply clean_join.
Qed.

Lemma clean_linkedin_line info :
  clean_option (PersonalInfo.linkedin info) -> clean (linkedin_line info).
Proof.
  unfold linkedin_line. destruct (PersonalInfo.linkedin info) as [[|c l]|];
    cbn [clean_option]; intros H; try reflexivity.
  apply clean_app; [reflexivity | assumption |]. left. reflexivity.
Qed.

Lemma clean_portfolio_line info :
  clean_option (PersonalInfo.portfolio info) -> clean (portfolio_line info).
Proof.
  unfold portfolio_line. destruct (PersonalInfo.portfolio info) as [[|c l]|];
    cbn [clean_option]; intros H; try reflexivity.
  apply clean_app; [reflexivity | assumption |]. left. reflexivity.
Qed.

(** Without job description the prompt holds the heading nowhere, unless
    the request brings it in. *)
Lemma prompt_without_job_block request :
  ResumeRequest.job_description request = [] ->
  clean_request request ->
  clean (_build_optimization_prompt request).
Proof.
  intros Hjd (H1 & H2 & H3 & H4 & H5 & H6 & H7 & H8 & H9 & H10).
  apply clean_linkedin_line in H5. apply clean_portfolio_line in H6.
  apply clean_skills_context in H8. apply clean_experience_context in H9.
  apply clean_education_context in H10.
  apply sealed_clean. unfold _build_optimization_prompt, job_context.
  rewrite Hjd. cbv zeta. cbn [nonempty app].
  apply sealed_app; [fixed_text|].
  seal_chain.
Qed.

Lemma contains_self m rest : contains m (m ++ rest) = true.
Proof.
  destruct m as [|c m]; [destruct rest; reflexivity|].
  cbn [app contains]. change (c :: m ++ rest) with ((c :: m) ++ rest).
  now rewrite (startswith_app_l _ _ rest (startswith_refl (c :: m))).
Qed.

(** With a job description the prompt holds the block, right after its
    opening lines. *)
Lemma prompt_with_job_block request :
  ResumeRequest.job_description request <> [] ->
  job_context request = job_block (ResumeRequest.job_description request)
  /\ contains (job_block (ResumeRequest.job_description request))
       (_build_optimization_prompt request) = true
  /\ contains heading (_build_optimization_prompt request) = true.
Proof.
  intros Hjd.
  assert (Hctx : job_context request
                 = job_block (ResumeRequest.job_description request)).
  { unfold job_context.
    destruct (ResumeRequest.job_description request); [congruence|].
    reflexivity. }
  split; [assumption|].
  unfold _build_optimization_prompt. cbv zeta. rewrite Hctx. split.
  - apply contains_app_r, contains_self.
  - apply contains_app_r, contains_app_l. unfold job_block.
    apply contains_cons, contains_self.
Qed.

(** C8 (amended): for a request whose job description is empty the prompt
    builder emits no job-description block: [job_context] is empty, and the
    heading TARGET JOB DESCRIPTION occurs nowhere in the prompt, provided no
    other text of the request brings it in; for a non-empty job description
    the block, heading and description, is part of the prompt. So for a
    request whose other texts do not hold the heading, the block is present
    exactly when the job description is non-empty. *)
Theorem job_block_iff_job_description request :
  let prompt := _build_optimization_prompt request in
  let job_description := ResumeRequest.job_description request in
  (job_description = [] -> job_context request = [])
  /\ (job_description <> [] ->
      job_context request = job_block job_description
      /\ contains (job_block job_description) prompt = true
      /\ contains heading prompt = true)
  /\ (job_context request <> [] <-> job_description <> [])
  /\ (clean_request request ->
      (job_description = [] -> contains heading prompt = false)
      /\ (contains heading prompt = true <-> job_description <> [])).
Proof.
  cbv zeta.
  assert (Hempty : ResumeRequest.job_description request = [] ->
                   job_context request = []).
  { intros Hjd. unfold job_context. now rewrite Hjd. }
  split; [assumption|]. split; [apply prompt_with_job_block|]. split.
  - split.
    + intros Hctx Hjd. auto.
    + intros Hjd.
      destruct (@prompt_with_job_block request Hjd) as (-> & _).
      discriminate.
  - intros Hclean. split; [intros Hjd; now apply prompt_without_job_block|].
    split.
    + intros Hc Hjd.
      pose proof (@prompt_without_job_block request Hjd Hclean) as H.
      unfold clean in H. congruence.
    + intros Hjd.
      now destruct (@prompt_with_job_block request Hjd) as (_ & _ & H).
Qed.

Definition request_with_job : ResumeRequest.t :=
  ResumeRequest.mk
    (PersonalInfo.mk (u "Ada") (u "ada@example.org") (u "1") (u "London")
       (Some (u "https://linkedin.example/ada")) None)
    (u "Original summary") [u "Analysis"; u "Engines"]
    [ ExperienceItem.mk (u "A Ltd") (u "Engineer") (u "2019") (u "2021")
        (u "Built things") ]
    [ EducationItem.mk (u "BSc") (u "Uni") (u "2018") ]
    (u "Wanted: analyst") (u "modern").

Lemma job_block_iff_job_description_witness :
  contains heading (_build_optimization_prompt NormalizerFacts.two_jobs) = false
  /\ contains (job_block (u "Wanted: analyst"))
       (_build_optimization_prompt request_with_job) = true.
Proof.
  destruct (job_block_iff_job_description NormalizerFacts.two_jobs)
    as (_ & _ & _ & Hclean).
  destruct (job_block_iff_job_description request_with_job)
    as (_ & Hblock & _).
  split.
  - apply Hclean; [|reflexivity].
    unfold clean_request, clean_experience, clean_education, clean. cbv zeta.
    cbn. repeat split; repeat constructor.
  - apply Hblock. cbn. discriminate.
Defined.

(** A request without job description whose summary is a block. *)
Definition block_in_summary : ResumeRequest.t :=
  ResumeRequest.mk
    (PersonalInfo.mk (u "Ada") (u "ada@example.org") (u "1") (u "London")
       None None)
    (job_block (u "Wanted: analyst")) [] [] [] [] (u "modern").

(** C8 (as stated) fails: the summary is pasted into the prompt as it is,
    so a request with an empty job description whose summary holds a block
    has that block in its prompt. *)
Lemma job_block_iff_job_description_counterexample :
  ResumeRequest.job_description block_in_summary = []
  /\ contains (job_block (u "Wanted: analyst"))
       (_build_optimization_prompt block_in_summary) = true
  /\ contains heading (_build_optimization_prompt block_in_summary) = true
  /\ ~ (forall request,
          ResumeRequest.job_description request = [] ->
          forall job_description,
            contains (job_block job_description)
              (_build_optimization_prompt request) = false).
Proof.
  split; [reflexivity|]. split; [vm_compute; reflexivity|].
  split; [vm_compute; reflexivity|].
  intros H. specialize (H block_in_summary eq_refl (u "Wanted: analyst")).
  vm_compute in H. discriminate H.
Qed.

(** The heading alone does not tell the block: a request can bring the
    words in with another field. *)
Example heading_in_summary :
  let request :=
    ResumeRequest.mk
      (PersonalInfo.mk (u "Ada") (u "ada@example.org") (u "1") (u "London")
         None None)
      (u "TARGET JOB DESCRIPTION") [] [] [] [] (u "modern") in
  job_context request = []
  /\ contains heading (_build_optimization_prompt request) = true.
Proof. cbv zeta. split; vm_compute; reflexivity. Qed.

End PromptFacts.

(** * Further properties *)

(** ** The provider calls *)

Module ProviderFacts.
Import AIService ProviderCalls.

Section Envelopes.

Variable type_error_text : operation -> pyval -> pystr.

(** X1: from a well-formed envelope each provider call reads the generated
    text: the content of the message of the first choice (OpenAI), the text
    of the first content block (Claude), the text of the first part of the
    content of the first candidate (Gemini); other keys and further entries
    of the lists are ignored. *)
Theorem envelope_text_is_read d first rest inner text :
  (dict_find d (u "choices") = Some (PList (PDict first :: rest)) ->
   dict_find first (u "message") = Some (PDict inner) ->
   dict_find inner (u "content") = Some (PStr text) ->
   openai_content type_error_text (Body (PDict d)) = Ok text)
  /\ (dict_find d (u "content") = Some (PList (PDict first :: rest)) ->
      dict_find first (u "text") = Some (PStr text) ->
      claude_content type_error_text (Body (PDict d)) = Ok text)
  /\ (forall part more,
        dict_find d (u "candidates") = Some (PList (PDict first :: rest)) ->
        dict_find first (u "content") = Some (PDict inner) ->
        dict_find inner (u "parts") = Some (PList (PDict part :: more)) ->
        dict_find part (u "text") = Some (PStr text) ->
        gemini_content type_error_text (Body (PDict d)) = Ok text).
Proof.
  split; [|split].
  - intros H1 H2 H3. unfold openai_content, path, subscript.
    rewrite H1. cbn [nth_error]. rewrite H2, H3. reflexivity.
  - intros H1 H2. unfold claude_content, path, subscript.
    rewrite H1. cbn [nth_error]. now rewrite H2.
  - intros part more H1 H2 H3 H4.
    unfold gemini_content, has_candidates, py_in, py_len, path, subscript.
    rewrite H1. cbn [nth_error List.length Nat.ltb Nat.leb].
    rewrite H2, H3. cbn [nth_error]. now rewrite H4.
Qed.

(** X2: failures of the exchange become errors as follows. An HTTP failure
    is an [AIServiceError] that names the provider. A body without the
    top-level key, or with an empty list under it, is an "Invalid ... API
    response" [AIServiceError] for OpenAI and Claude, but the "Empty
    response from Gemini API" error for Gemini. A body that is not an object
    but a list is not caught by the [except] clauses: a [TypeError] passes. *)
Theorem envelope_failures d items text :
  openai_content type_error_text (HttpError text)
    = Raise (AIServiceError (u "OpenAI API error: " ++ text))
  /\ claude_content type_error_text (HttpError text)
     = Raise (AIServiceError (u "Claude API error: " ++ text))
  /\ gemini_content type_error_text (HttpError text)
     = Raise (AIServiceError (u "Gemini API error: " ++ text))
  /\ (dict_find d (u "choices") = None ->
      openai_content type_error_text (Body (PDict d))
      = Raise (AIServiceError (u "Invalid OpenAI API response: 'choices'")))
  /\ (dict_find d (u "choices") = Some (PList []) ->
      openai_content type_error_text (Body (PDict d))
      = Raise (AIServiceError
                 (u "Invalid OpenAI API response: list index out of range")))
  /\ (dict_find d (u "content") = None ->
      claude_content type_error_text (Body (PDict d))
      = Raise (AIServiceError (u "Invalid Claude API response: 'content'")))
  /\ (dict_find d (u "content") = Some (PList []) ->
      claude_content type_error_text (Body (PDict d))
      = Raise (AIServiceError
                 (u "Invalid Claude API response: list index out of range")))
  /\ (dict_find d (u "candidates") = None
      \/ dict_find d (u "candidates") = Some (PList []) ->
      gemini_content type_error_text (Body (PDict d))
      = Raise (AIServiceError (u "Empty response from Gemini API")))
  /\ openai_content type_error_text (Body (PList items))
     = Raise (TypeError (type_error_text Subscript (PList items)))
  /\ claude_content type_error_text (Body (PList items))
     = Raise (TypeError (type_error_text Subscript (PList items))).
Proof.
  repeat split; try reflexivity.
  - intros H. unfold openai_content, path, subscript. now rewrite H.
  - intros H. unfold openai_content, path, subscript. now rewrite H.
  - intros H. unfold claude_content, path, subscript. now rewrite H.
  - intros H. unfold claude_content, path, subscript. now rewrite H.
  - intros [H|H]; unfold gemini_content, has_candidates, py_in, py_len, subscript;
      now rewrite H.
Qed.

End Envelopes.

Definition silent_interpreter : operation -> pyval -> pystr := fun _ _ => [].

(** The body [{"id": "x", "choices": [{"index": 0, "message": {"role":
    "assistant", "content": "{}"}}]}]. *)
Definition openai_body : list (pystr * pyval) :=
  [ (u "id", PStr (u "x"));
    (u "choices",
     PList [ PDict [ (u "index", PInt 0);
                     (u "message",
                      PDict [ (u "role", PStr (u "assistant"));
                              (u "content", PStr (u "{}")) ]) ] ]) ].

Lemma envelope_text_is_read_witness :
  openai_content silent_interpreter (Body (PDict openai_body)) = Ok (u "{}").
Proof.
  refine (proj1 (@envelope_text_is_read silent_interpreter openai_body
                   [ (u "index", PInt 0);
                     (u "message",
                      PDict [ (u "role", PStr (u "assistant"));
                              (u "content", PStr (u "{}")) ]) ]
                   []
                   [ (u "role", PStr (u "assistant"));
                     (u "content", PStr (u "{}")) ]
                   (u "{}")) _ _ _); reflexivity.
Defined.

Lemma envelope_failures_witness :
  gemini_content silent_interpreter (Body (PDict [(u "candidates", PList [])]))
  = Raise (AIServiceError (u "Empty response from Gemini API"))
  /\ openai_content silent_interpreter (Body (PDict [(u "choices", PList [])]))
     = Raise (AIServiceError
                (u "Invalid OpenAI API response: list index out of range")).
Proof.
  split.
  - refine (proj1 (proj2 (proj2 (proj2 (proj2 (proj2 (proj2 (proj2
      (@envelope_failures silent_interpreter [(u "candidates", PList [])]
         [] [])))))))) _).
    right. reflexivity.
  - refine (proj1 (proj2 (proj2 (proj2 (proj2
      (@envelope_failures silent_interpreter [(u "choices", PList [])]
         [] []))))) _).
    reflexivity.
Defined.

(** What is sent to a provider: Gemini gets the system instruction in front
    of the prompt, the others the prompt alone. *)
Definition payload (api : Provider) (prompt : pystr) : pystr :=
  match api with
  | Gemini =>
      u "You are an expert resume writer. Return ONLY valid JSON, no markdown formatting, no explanations."
      ++ [nl; nl] ++ prompt
  | _ => prompt
  end.

Section Pipeline.

Variable provider_text : Provider -> pystr -> result pystr.
Variable json_loads : pystr -> loads_outcome.

(** The result of [optimize_resume] once [api] is selected. *)
Definition after_call (api : Provider) (request : ResumeRequest.t)
  : result (OptimizedResumeData.t pyval pyval) :=
  content <- provider_text api (payload api (_build_optimization_prompt request)) ;;
  response_data <- _extract_json_from_response json_loads content ;;
  _parse_ai_response response_data request.

Lemma optimize_resume_selected self request api :
  select_api self = Ok api ->
  optimize_resume provider_text json_loads self request
  = (after_call api request,
     [CallProvider api (payload api (_build_optimization_prompt request))]).
Proof.
  intros Hsel. unfold optimize_resume, after_call. rewrite Hsel. cbv zeta.
  generalize (_build_optimization_prompt request); intros prompt.
  destruct api; unfold _call_openai_api, _call_claude_api, _call_gemini_api,
    post, payload; cbn;
    match goal with
    | |- context [provider_text ?a ?b] => destruct (provider_text a b); cbn
    end; try reflexivity;
    match goal with
    | |- context [_extract_json_from_response ?a ?b] =>
        destruct (_extract_json_from_response a b); cbn
    end; try reflexivity;
    match goal with
    | |- context [_parse_ai_response ?a ?b] =>
        destruct (_parse_ai_response a b); reflexivity
    end.
Qed.

(** X3: [optimize_resume] talks to a provider at most once and never
    retries: with no usable credential it raises without any call; otherwise
    it makes exactly one call, to the selected provider, and an error of
    that call, of the JSON decoding or of the normalizer is the error of
    [optimize_resume]. *)
Theorem optimize_resume_calls_once self request :
  let run := optimize_resume provider_text json_loads self request in
  List.length (snd run) <= 1
  /\ (forall e, select_api self = Raise e -> run = (Raise e, []))
  /\ (forall api,
        select_api self = Ok api ->
        snd run
        = [CallProvider api (payload api (_build_optimization_prompt request))]
        /\ fst run = after_call api request
        /\ (forall e,
              provider_text api
                (payload api (_build_optimization_prompt request)) = Raise e ->
              fst run = Raise e)).
Proof.
  cbv zeta. destruct (select_api self) as [api|e] eqn:Hsel.
  - rewrite (optimize_resume_selected _ request Hsel). cbn [fst snd List.length].
    split; [lia|]. split; [discriminate|].
    intros api' E. inversion E; subst api'. split; [reflexivity|].
    split; [reflexivity|]. intros e He. unfold after_call. now rewrite He.
  - unfold optimize_resume. rewrite Hsel. cbn.
    split; [lia|]. split; [intros e' E; inversion E; reflexivity | discriminate].
Qed.

(** X4: [optimize_resume_data], the service without preference, never runs
    into the call-time error "No valid API key available": with no
    credential at all it raises "No API key configured" without any call,
    and otherwise it calls exactly one provider, the first of Gemini,
    Claude and OpenAI that has a credential. *)
Theorem optimize_resume_data_selects_by_priority cfg request :
  let run := optimize_resume_data cfg provider_text json_loads request in
  let g := nonempty (GEMINI_API_KEY cfg) in
  let a := nonempty (ANTHROPIC_API_KEY cfg) in
  let o := nonempty (OPENAI_API_KEY cfg) in
  let api := if g then Gemini else if a then Claude else OpenAI in
  (g || a || o = false ->
   run = (Raise SelectionFacts.no_key_configured, []))
  /\ (g || a || o = true ->
      run = (after_call api request,
             [CallProvider api
                (payload api (_build_optimization_prompt request))])).
Proof.
  cbv zeta. unfold optimize_resume_data.
  destruct cfg as [o a g];
    cbn [OPENAI_API_KEY ANTHROPIC_API_KEY GEMINI_API_KEY].
  split; intros H.
  - destruct o, a, g; try discriminate H. reflexivity.
  - destruct (__init__ (mkConfig o a g) false false) as [self|e] eqn:Hinit.
    + assert (Hsel : select_api self
                     = Ok (if nonempty g then Gemini
                           else if nonempty a then Claude else OpenAI)).
      { destruct o, a, g; try discriminate H; cbn in Hinit;
          inversion Hinit; reflexivity. }
      cbn [lift io_bind].
      rewrite (optimize_resume_selected _ request Hsel). reflexivity.
    + exfalso. destruct o, a, g; try discriminate H; discriminate Hinit.
Qed.

(** X5: wrapping the text of a response in a fence line, tagged [json] or
    not, and a closing fence line does not change what
    [_extract_json_from_response] does when the text itself holds no fence:
    [json.loads] gets the stripped text in each case. The function raises
    only what [json.loads] raises: its [JSONDecodeError] as an
    [AIServiceError] that carries the decoder's message, any other
    exception unchanged. *)
Theorem extract_json_ignores_the_fences body :
  FenceFacts.fence_free body ->
  _extract_json_from_response json_loads (fence_json ++ nl :: body ++ nl :: fence)
    = _extract_json_from_response json_loads body
  /\ _extract_json_from_response json_loads (fence ++ nl :: body ++ nl :: fence)
     = _extract_json_from_response json_loads body
  /\ _extract_json_from_response json_loads body
     = match json_loads (strip body) with
       | Decoded v => Ok v
       | JSONDecodeError text =>
           Raise (AIServiceError
                    (u "Failed to parse AI response as JSON: " ++ text))
       | LoadsRaises e => Raise e
       end
  /\ (forall content e,
        _extract_json_from_response json_loads content = Raise e ->
        (exists text,
            json_loads (strip_fences content) = JSONDecodeError text
            /\ e = AIServiceError
                     (u "Failed to parse AI response as JSON: " ++ text))
        \/ json_loads (strip_fences content) = LoadsRaises e).
Proof.
  intros H. unfold _extract_json_from_response.
  rewrite (FenceFacts.strip_fences_fenced_json H).
  rewrite (FenceFacts.strip_fences_fenced H).
  rewrite (FenceFacts.strip_fences_free H).
  split; [reflexivity|]. split; [reflexivity|]. split; [reflexivity|].
  intros content e.
  destruct (json_loads (strip_fences content)) as [v|text|e0];
    [discriminate | |]; intros E; inversion E; eauto.
Qed.

End Pipeline.

Lemma optimize_resume_calls_once_witness :
  snd (optimize_resume SelectionFacts.constant_provider
         SelectionFacts.empty_object_loads
         (AIService.mk false true [] [] (u "g-key")) SelectionFacts.blank_request)
  = [CallProvider Gemini
       (payload Gemini (_build_optimization_prompt SelectionFacts.blank_request))].
Proof.
  refine (proj1 (proj2 (proj2 (@optimize_resume_calls_once
    SelectionFacts.constant_provider SelectionFacts.empty_object_loads
    (AIService.mk false true [] [] (u "g-key")) SelectionFacts.blank_request))
    Gemini eq_refl)).
Defined.

Lemma optimize_resume_data_selects_by_priority_witness :
  snd (optimize_resume_data (mkConfig (u "o-key") (u "a-key") [])
         SelectionFacts.constant_provider SelectionFacts.empty_object_loads
         SelectionFacts.blank_request)
  = [CallProvider Claude
       (_build_optimization_prompt SelectionFacts.blank_request)].
Proof.
  rewrite (proj2 (@optimize_resume_data_selects_by_priority
    SelectionFacts.constant_provider SelectionFacts.empty_object_loads
    (mkConfig (u "o-key") (u "a-key") []) SelectionFacts.blank_request)
    eq_refl).
  reflexivity.
Defined.

(** A decoder that takes the empty object only. *)
Definition strict_loads : pystr -> loads_outcome :=
  fun text =>
    if eqb_str text (u "{}") then Decoded (PDict [])
    else JSONDecodeError (u "Expecting value").

Lemma extract_json_ignores_the_fences_witness :
  _extract_json_from_response strict_loads
    (fence_json ++ nl :: u "  {}" ++ nl :: fence)
  = Ok (PDict [])
  /\ _extract_json_from_response strict_loads (u "[]")
     = Raise (AIServiceError
                (u "Failed to parse AI response as JSON: Expecting value")).
Proof.
  destruct (@extract_json_ignores_the_fences strict_loads (u "  {}") eq_refl)
    as (Hfenced & _ & Hplain & _).
  split; [rewrite Hfenced, Hplain; reflexivity | reflexivity].
Defined.

End ProviderFacts.

(** ** The normalizer on a response that has the sections *)

Module ResponseFacts.
Import AIService.

Definition is_dict (v : pyval) : Prop :=
  match v with PDict _ => True | _ => False end.

(** A section the normalizer can use: missing or falsy, or a list whose
    items are all objects. *)
Definition usable_section (v : pyval) : Prop :=
  truthy v = false \/ exists items, v = PList items /\ Forall is_dict items.

Definition attribute_or_type_error (e : exn) : Prop :=
  exists msg, e = AttributeError msg \/ e = TypeError msg.

(** The entry built from one object of the AI response. *)
Definition experience_entry (v : pyval) : ExperienceModel.t pyval pyval :=
  match v with
  | PDict m =>
      ExperienceModel.mk
        (dict_get m (u "company") (PStr []))
        (dict_get m (u "role") (PStr []))
        (dict_get m (u "start_date") (PStr []))
        (dict_get m (u "end_date") (PStr []))
        (dict_get m (u "responsibilities") (PStr []))
        (dict_get m (u "achievements") (PList []))
  | _ => ExperienceModel.mk PNone PNone PNone PNone PNone PNone
  end.

Definition education_entry (v : pyval) : EducationModel.t pyval :=
  match v with
  | PDict m =>
      EducationModel.mk
        (dict_get m (u "degree") (PStr []))
        (dict_get m (u "institution") (PStr []))
        (dict_get m (u "year") (PStr []))
  | _ => EducationModel.mk PNone PNone PNone
  end.

Section Loop.

Variables (A : Type) (of_ai : pyval -> result A) (entry : pyval -> A).

Hypothesis of_ai_dict : forall m, of_ai (PDict m) = Ok (entry (PDict m)).
Hypothesis of_ai_other :
  forall v, ~ is_dict v -> exists msg, of_ai v = Raise (AttributeError msg).

Let body := fun (acc : list A) (v : pyval) => e <- of_ai v ;; Ok (acc ++ [e]).

(** The loop over the items of a section: every item an object, or an
    [AttributeError] at the first that is not. *)
Lemma loop_objects items :
  forall acc,
    Forall is_dict items ->
    for_each body items acc = Ok (acc ++ map entry items).
Proof.
  induction items as [|v items IH]; intros acc Hall; cbn.
  - now rewrite app_nil_r.
  - inversion Hall as [|? ? Hv Hrest]; subst. destruct v; try contradiction.
    unfold body at 1. rewrite of_ai_dict. cbn [bind].
    rewrite IH by assumption. now rewrite <- app_assoc.
Qed.

Lemma loop_step m items acc :
  for_each body (PDict m :: items) acc
  = for_each body items (acc ++ [entry (PDict m)]).
Proof. cbn [for_each]. unfold body at 1. now rewrite of_ai_dict. Qed.

Lemma loop_outcome items :
  forall acc,
    (Forall is_dict items /\ for_each body items acc = Ok (acc ++ map entry items))
    \/ (~ Forall is_dict items
        /\ exists msg, for_each body items acc = Raise (AttributeError msg)).
Proof.
  induction items as [|v items IH]; intros acc.
  - left. split; [constructor|]. cbn. now rewrite app_nil_r.
  - assert (Hv : is_dict v \/ ~ is_dict v) by (destruct v; cbn; auto).
    destruct Hv as [Hv|Hv].
    + destruct v; try contradiction. rewrite loop_step.
      destruct (IH (acc ++ [entry (PDict entries)])) as [[Hall E] | [Hall [msg E]]].
      * left. split; [now constructor|]. rewrite E. cbn. now rewrite <- app_assoc.
      * right. split; [intros H; inversion H; contradiction|].
        exists msg. exact E.
    + right. split; [intros H; inversion H; contradiction|].
      destruct (of_ai_other v Hv) as [msg E]. exists msg.
      cbn [for_each]. unfold body at 1. now rewrite E.
Qed.

End Loop.

Lemma experience_of_ai_dict m :
  experience_of_ai (PDict m) = Ok (experience_entry (PDict m)).
Proof. reflexivity. Qed.

Lemma experience_of_ai_other v :
  ~ is_dict v -> exists msg, experience_of_ai v = Raise (AttributeError msg).
Proof. destruct v; cbn; intros H; try (eexists; reflexivity). now destruct H. Qed.

Lemma education_of_ai_dict m :
  education_of_ai (PDict m) = Ok (education_entry (PDict m)).
Proof. reflexivity. Qed.

Lemma education_of_ai_other v :
  ~ is_dict v -> exists msg, education_of_ai v = Raise (AttributeError msg).
Proof. destruct v; cbn; intros H; try (eexists; reflexivity). now destruct H. Qed.

(** What a section gives: the fallback when it is falsy, one entry per
    object when it is a list of objects, an error otherwise. *)
Lemma section_outcome {B} (of_ai : pyval -> result B) (entry : pyval -> B)
    (fallback : list B) (section : pyval) :
  (forall m, of_ai (PDict m) = Ok (entry (PDict m))) ->
  (forall v, ~ is_dict v -> exists msg, of_ai v = Raise (AttributeError msg)) ->
  let run :=
    if negb (truthy section) then Ok fallback
    else items <- py_iter section ;;
         for_each (fun acc v => e <- of_ai v ;; Ok (acc ++ [e])) items [] in
  (usable_section section /\ exists out, run = Ok out)
  \/ (~ usable_section section /\ exists e, run = Raise e /\ attribute_or_type_error e).
Proof.
  intros Hd Ho. cbv zeta. destruct (truthy section) eqn:Ht; cbn [negb].
  2:{ left. split; [now left | eauto]. }
  destruct section; try discriminate Ht; cbn [py_iter bind].
  - right. split.
    + intros [H | (items & E & _)]; congruence.
    + eexists. split; [reflexivity|]. eexists. right. reflexivity.
  - right. split.
    + intros [H | (items & E & _)]; congruence.
    + eexists. split; [reflexivity|]. eexists. right. reflexivity.
  - right. split.
    + intros [H | (items & E & _)]; congruence.
    + eexists. split; [reflexivity|]. eexists. right. reflexivity.
  - (* a non-empty string: its first character is not an object *)
    right. split; [intros [H | (items & E & _)]; congruence|].
    destruct s as [|c s]; [discriminate|]. cbn [map for_each].
    destruct (Ho (PStr [c])) as [msg E]; [intros []|]. rewrite E. cbn.
    eexists. split; [reflexivity|]. eexists. left. reflexivity.
  - destruct (loop_outcome of_ai entry Hd Ho items [])
      as [[Hall E] | [Hall [msg E]]].
    + left. split; [right; eauto | rewrite E; eauto].
    + right. split.
      * intros [H | (items' & E' & Hall')]; [congruence|].
        inversion E'; subst. contradiction.
      * rewrite E. eexists. split; [reflexivity|]. eexists. left. reflexivity.
  - (* a non-empty object: its first key is not an object *)
    right. split; [intros [H | (items & E & _)]; congruence|].
    destruct entries as [|[k v] entries]; [discriminate|]. cbn [map for_each fst].
    destruct (Ho (PStr k)) as [msg E]; [intros []|]. rewrite E. cbn.
    eexists. split; [reflexivity|]. eexists. left. reflexivity.
Qed.


Lemma experience_outcome d request :
  let section := dict_get d (u "optimized_experience") (PList []) in
  (usable_section section
   /\ exists out, parse_experience (PDict d) request = Ok out)
  \/ (~ usable_section section
      /\ exists e, parse_experience (PDict d) request = Raise e
                   /\ attribute_or_type_error e).
Proof.
  unfold parse_experience. cbn [py_get bind].
  apply (section_outcome experience_of_ai experience_entry);
    [exact experience_of_ai_dict | exact experience_of_ai_other].
Qed.

Lemma education_outcome d request :
  let section := dict_get d (u "optimized_education") (PList []) in
  (usable_section section
   /\ exists out, parse_education (PDict d) request = Ok out)
  \/ (~ usable_section section
      /\ exists e, parse_education (PDict d) request = Raise e
                   /\ attribute_or_type_error e).
Proof.
  unfold parse_education. cbn [py_get bind].
  apply (section_outcome education_of_ai education_entry);
    [exact education_of_ai_dict | exact education_of_ai_other].
Qed.

(** X6: the normalizer returns a result exactly when the response is an
    object whose two sections are each missing, falsy or a list of objects;
    every other response makes it raise [AttributeError] or [TypeError],
    which its [except KeyError] clause does not catch, so it never raises
    the [AIServiceError] of that clause. *)
Theorem normalizer_outcomes response request :
  (forall e, _parse_ai_response response request = Raise e ->
     attribute_or_type_error e)
  /\ ((exists r, _parse_ai_response response request = Ok r)
      <-> exists d,
            response = PDict d
            /\ usable_section (dict_get d (u "optimized_experience") (PList []))
            /\ usable_section (dict_get d (u "optimized_education") (PList []))).
Proof.
  destruct response as [| b | z | f | s | items | d];
    try (split;
         [ intros e H; cbn in H; injection H as <-; eexists; left; reflexivity
         | split; [intros [r H]; discriminate H
                  | intros (d & H & _); discriminate H] ]).
  unfold _parse_ai_response. cbn [py_get bind].
  destruct (experience_outcome d request) as [[Ux [xs Ex]] | [Ux (ex & Ex & Kx)]];
    rewrite Ex; cbn [bind].
  - destruct (education_outcome d request) as [[Uy [ys Ey]] | [Uy (ey & Ey & Ky)]];
      rewrite Ey; cbn [bind].
    + split; [intros e H; discriminate H|].
      split; [intros _; exists d; auto | intros _; eauto].
    + split; [intros e H; injection H as <-; exact Ky|].
      split; [intros [r H]; discriminate H|].
      intros (d' & E & _ & U). injection E as <-. contradiction.
  - split; [intros e H; injection H as <-; exact Kx|].
    split; [intros [r H]; discriminate H|].
    intros (d' & E & U & _). injection E as <-. contradiction.
Qed.

(** X7: a section the response has as a non-empty list of objects replaces
    the request's entries: the result holds one entry per object of the
    response, in order, each field read from the object and [""] (for
    [achievements] the empty list) where the object lacks it; the entries
    of the request are not consulted, and their number is not compared. *)
Theorem response_sections_replace_the_request d request xs ys :
  dict_get d (u "optimized_experience") (PList []) = PList xs ->
  dict_get d (u "optimized_education") (PList []) = PList ys ->
  xs <> [] -> ys <> [] ->
  Forall is_dict xs -> Forall is_dict ys ->
  _parse_ai_response (PDict d) request
  = Ok (OptimizedResumeData.mk (NormalizerFacts.summary_of d request)
          (map experience_entry xs) (map education_entry ys)
          (NormalizerFacts.skills_of d request) (NormalizerFacts.keywords_of d))
  /\ List.length (map experience_entry xs) = List.length xs
  /\ List.length (map education_entry ys) = List.length ys.
Proof.
  intros Ex Ey Nx Ny Hx Hy. split; [|now rewrite !length_map].
  unfold _parse_ai_response, parse_experience, parse_education.
  cbn [py_get bind]. rewrite Ex, Ey.
  destruct xs as [|x xs]; [contradiction|].
  destruct ys as [|y ys]; [contradiction|].
  cbn [truthy negb py_iter bind].
  rewrite (@loop_objects _ experience_of_ai experience_entry
             experience_of_ai_dict (x :: xs) [] Hx).
  rewrite (@loop_objects _ education_of_ai education_entry
             education_of_ai_dict (y :: ys) [] Hy).
  reflexivity.
Qed.

Definition two_jobs_response : list (pystr * pyval) :=
  [ (u "optimized_experience",
     PList [ PDict [(u "company", PStr (u "Initech"))];
             PDict [(u "role", PStr (u "Engineer"))] ]);
    (u "optimized_education",
     PList [ PDict [(u "degree", PStr (u "BSc"))] ]) ].

Lemma response_sections_replace_the_request_witness :
  List.length (ResumeRequest.experience SelectionFacts.blank_request) = 0
  /\ exists r,
       _parse_ai_response (PDict two_jobs_response) SelectionFacts.blank_request
       = Ok r
       /\ List.length (OptimizedResumeData.experience r) = 2
       /\ map (@ExperienceModel.company _ _) (OptimizedResumeData.experience r)
          = [PStr (u "Initech"); PStr []].
Proof.
  split; [reflexivity|]. eexists. split.
  - apply (@response_sections_replace_the_request two_jobs_response
             SelectionFacts.blank_request
             [ PDict [(u "company", PStr (u "Initech"))];
               PDict [(u "role", PStr (u "Engineer"))] ]
             [ PDict [(u "degree", PStr (u "BSc"))] ]);
      try reflexivity; try discriminate; repeat constructor.
  - split; reflexivity.
Defined.

End ResponseFacts.

(** ** The two renderers *)

Module RenderFacts.
Import ResumeBuilder.

(** An entry of the request as the data classes of the AI path hold it. *)
Definition plain_experience (exp : ExperienceItem.t)
  : ExperienceModel.t pystr (list pystr) :=
  ExperienceModel.mk (ExperienceItem.company exp) (ExperienceItem.role exp)
    (ExperienceItem.start_date exp) (ExperienceItem.end_date exp)
    (ExperienceItem.responsibilities exp) [].

Definition plain_education (edu : EducationItem.t) : EducationModel.t pystr :=
  EducationModel.mk (EducationItem.degree edu) (EducationItem.institution edu)
    (EducationItem.year edu).

(** A loop that appends one piece of HTML per item. *)
Lemma fold_pieces {A} (piece : A -> pystr) items :
  forall acc,
    fold_left (fun html x => html ++ piece x) items acc
    = acc ++ List.concat (map piece items).
Proof.
  induction items as [|x items IH]; intros acc; cbn.
  - now rewrite app_nil_r.
  - now rewrite IH, app_assoc.
Qed.

Lemma experience_item_plain config exp :
  experience_item config (plain_experience exp)
  = experience_item_from_request config exp.
Proof. reflexivity. Qed.

Lemma education_item_plain config edu :
  education_item config (plain_education edu)
  = education_item_from_request config edu.
Proof. reflexivity. Qed.

Lemma experience_section_plain experience config :
  _build_experience_section (map plain_experience experience) config
  = _build_experience_section_from_request experience config.
Proof.
  destruct experience as [|x xs]; [reflexivity|].
  unfold _build_experience_section, _build_experience_section_from_request.
  cbn [map]. cbv zeta. f_equal.
  rewrite !fold_pieces, <- map_cons, map_map. reflexivity.
Qed.

Lemma education_section_plain education config :
  _build_education_section (map plain_education education) config
  = _build_education_section_from_request education config.
Proof.
  destruct education as [|x xs]; [reflexivity|].
  unfold _build_education_section, _build_education_section_from_request.
  cbn [map]. cbv zeta. f_equal.
  rewrite !fold_pieces, <- map_cons, map_map. reflexivity.
Qed.

(** X8: the renderer of the AI path and the renderer of the request path
    give the same document: [build_resume] on data that hold the entries of
    the request (achievements empty) is [build_resume_from_request] on the
    request, for every template name; the ATS keywords of the data have no
    part in the document. *)
Theorem render_paths_agree personal_info summary skills experience education
    keywords template :
  build_resume personal_info
    (OptimizedResumeData.mk summary (map plain_experience experience)
       (map plain_education education) skills keywords)
    template
  = build_resume_from_request personal_info summary skills experience
      education template.
Proof.
  unfold build_resume, build_resume_from_request, _generate_html,
    _generate_html_from_request.
  cbv zeta. cbn [OptimizedResumeData.summary OptimizedResumeData.skills
                 OptimizedResumeData.experience OptimizedResumeData.education].
  rewrite experience_section_plain, education_section_plain. reflexivity.
Qed.


(** *** What the document holds *)

Lemma contains_piece {A} (piece : A -> pystr) (m : pystr) items x :
  In x items -> contains m (piece x) = true ->
  contains m (List.concat (map piece items)) = true.
Proof.
  intros Hin Hm. induction items as [|y items IH]; [contradiction|].
  cbn [map List.concat]. destruct Hin as [-> | Hin].
  - now apply PromptFacts.contains_app_l.
  - apply PromptFacts.contains_app_r. now apply IH.
Qed.

(** Find a part in a chain of concatenations. *)
Ltac find_part :=
  repeat lazymatch goal with
    | |- contains ?x (?x ++ _) = true => apply PromptFacts.contains_self
    | |- contains ?x (?a ++ ?rest) = true =>
        lazymatch rest with
        | context [x] => apply PromptFacts.contains_app_r
        | _ => apply PromptFacts.contains_app_l
        end
    end.

(** Find a part known to lie in one link of the chain. *)
Ltac find_known H :=
  lazymatch type of H with
  | contains _ ?part = true =>
      repeat lazymatch goal with
        | |- contains _ (part ++ _) = true =>
            apply PromptFacts.contains_app_l; exact H
        | |- contains _ (_ ++ _) = true => apply PromptFacts.contains_app_r
        end
  end.

(** A part of one of the five sections is a part of the document. *)
Lemma section_in_document m personal_info summary skills experience education
    config :
  contains m (_build_header personal_info config) = true
  \/ contains m (_build_summary summary config) = true
  \/ contains m (_build_skills_section skills config) = true
  \/ contains m (_build_experience_section_from_request experience config) = true
  \/ contains m (_build_education_section_from_request education config) = true ->
  contains m
    (_generate_html_from_request personal_info summary skills experience
       education config) = true.
Proof.
  unfold _generate_html_from_request.
  generalize (_build_header personal_info config) (_build_summary summary config)
    (_build_skills_section skills config)
    (_build_experience_section_from_request experience config)
    (_build_education_section_from_request education config).
  intros s1 s2 s3 s4 s5 H.
  repeat lazymatch goal with
    | |- contains _ (?a ++ _) = true =>
        lazymatch a with
        | s1 => destruct H as [H|H]; [apply PromptFacts.contains_app_l; exact H|]
        | s2 => destruct H as [H|H]; [apply PromptFacts.contains_app_l; exact H|]
        | s3 => destruct H as [H|H]; [apply PromptFacts.contains_app_l; exact H|]
        | s4 => destruct H as [H|H]; [apply PromptFacts.contains_app_l; exact H|]
        | s5 => apply PromptFacts.contains_app_l; exact H
        | _ => idtac
        end;
        apply PromptFacts.contains_app_r
    end.
Qed.

(** A part of an item is a part of its section. *)
Lemma item_in_section {A} (piece : A -> pystr) (frame : pystr -> pystr) m
    items x :
  (forall inner, contains m inner = true -> contains m (frame inner) = true) ->
  In x items -> contains m (piece x) = true ->
  contains m
    (match items with
     | [] => []
     | _ => frame (fold_left (fun html y => html ++ piece y) items [])
     end) = true.
Proof.
  intros Hframe Hin Hm. destruct items as [|y items]; [contradiction|].
  apply Hframe. rewrite fold_pieces. cbn [app].
  now apply (contains_piece piece m (y :: items) x).
Qed.

Lemma in_experience_frame m config inner :
  contains m inner = true ->
  contains m (experience_section_frame config inner) = true.
Proof. intros H. unfold experience_section_frame. find_known H. Qed.

Lemma in_education_frame m config inner :
  contains m inner = true ->
  contains m (education_section_frame config inner) = true.
Proof. intros H. unfold education_section_frame. find_known H. Qed.

(** A bullet that is not blank has its list element. *)
Lemma bullet_in_list bullet_points point :
  In point bullet_points -> nonempty (strip point) = true ->
  contains (strip point) (bullets_html bullet_points) = true.
Proof.
  intros Hin Hne. unfold bullets_html.
  assert (Hkeep : forall l acc,
    contains (strip point) acc = true ->
    contains (strip point)
      (fold_left (fun html p =>
                    if nonempty (strip p) then html ++ list_item p else html)
         l acc) = true).
  { induction l as [|p l IH]; intros acc Hacc; cbn [fold_left]; [exact Hacc|].
    apply IH. destruct (nonempty (strip p)); [|exact Hacc].
    now apply PromptFacts.contains_app_l. }
  generalize (@nil char).
  induction bullet_points as [|p l IH]; intros acc; [contradiction|].
  cbn [fold_left]. destruct Hin as [-> | Hin]; [|now apply IH].
  apply Hkeep. rewrite Hne. apply PromptFacts.contains_app_r.
  unfold list_item. find_part.
Qed.

Lemma summary_in_document personal_info summary skills experience education
    config :
  contains summary
    (_generate_html_from_request personal_info summary skills experience
       education config) = true.
Proof.
  unfold _generate_html_from_request. find_part.
  unfold _build_summary. find_part.
Qed.

Lemma name_in_document personal_info summary skills experience education
    config :
  contains (PersonalInfoModel.full_name personal_info)
    (_generate_html_from_request personal_info summary skills experience
       education config) = true.
Proof. unfold _generate_html_from_request. find_part. Qed.

Lemma skill_in_document personal_info summary skills experience education
    config skill :
  In skill skills ->
  contains skill
    (_generate_html_from_request personal_info summary skills experience
       education config) = true.
Proof.
  intros Hin. unfold _generate_html_from_request.
  generalize (_build_header personal_info config) (_build_summary summary config)
    (_build_experience_section_from_request experience config)
    (_build_education_section_from_request education config).
  intros header summary_html experience_html education_html.
  assert (H : contains skill (_build_skills_section skills config) = true).
  { unfold _build_skills_section. destruct skills as [|s0 rest]; [contradiction|].
    cbv zeta. rewrite fold_pieces. cbn [app].
    generalize dependent (s0 :: rest). intros items Hin.
    assert (Hc : contains skill (List.concat (map skill_badge items)) = true).
    { apply (contains_piece skill_badge skill items skill Hin).
      unfold skill_badge. find_part. }
    revert Hc. generalize (List.concat (map skill_badge items)).
    intros skills_html Hc. find_known Hc. }
  revert H. generalize (_build_skills_section skills config).
  intros skills_html H. find_known H.
Qed.


(** X9: the document holds the text of the request as it was sent, without
    any escaping of markup: the full name, the summary, every skill, the
    role, company and dates of every experience entry, every bullet
    derived from its responsibilities that is not blank (stripped of outer
    white space), and the degree, institution and year of every education
    entry all occur in the HTML character for character. *)
Theorem request_text_is_not_escaped personal_info summary skills experience
    education template :
  let html :=
    build_resume_from_request personal_info summary skills experience
      education template in
  contains (PersonalInfoModel.full_name personal_info) html = true
  /\ contains summary html = true
  /\ (forall skill, In skill skills -> contains skill html = true)
  /\ (forall exp, In exp experience ->
        contains (ExperienceItem.role exp) html = true
        /\ contains (ExperienceItem.company exp) html = true
        /\ contains (ExperienceItem.start_date exp) html = true
        /\ contains (ExperienceItem.end_date exp) html = true
        /\ forall point,
             In point
               (responsibility_bullets (ExperienceItem.responsibilities exp)) ->
             nonempty (strip point) = true ->
             contains (strip point) html = true)
  /\ (forall edu, In edu education ->
        contains (EducationItem.degree edu) html = true
        /\ contains (EducationItem.institution edu) html = true
        /\ contains (EducationItem.year edu) html = true).
Proof.
  cbv zeta. unfold build_resume_from_request. cbv zeta.
  generalize (template_config template). intros config.
  split; [apply name_in_document|]. split; [apply summary_in_document|].
  split; [intros skill Hin; now apply skill_in_document|]. split.
  - intros exp Hin.
    assert (Hitem : forall m,
      contains m (experience_item_from_request config exp) = true ->
      contains m
        (_generate_html_from_request personal_info summary skills experience
           education config) = true).
    { intros m Hm. apply section_in_document. do 3 right. left.
      unfold _build_experience_section_from_request. cbv zeta.
      apply (item_in_section (experience_item_from_request config)
               (experience_section_frame config) m experience exp);
        [intros inner; apply in_experience_frame | exact Hin | exact Hm]. }
    repeat split; try intros point Hp Hne; apply Hitem;
      unfold experience_item_from_request; cbv zeta.
    + find_part.
    + find_part.
    + find_part.
    + find_part.
    + pose proof (bullet_in_list _ _ Hp Hne) as Hb. revert Hb.
      generalize (bullets_html
        (responsibility_bullets (ExperienceItem.responsibilities exp))).
      generalize (strip point). intros m list_html Hb. find_known Hb.
  - intros edu Hin.
    assert (Hitem : forall m,
      contains m (education_item_from_request config edu) = true ->
      contains m
        (_generate_html_from_request personal_info summary skills experience
           education config) = true).
    { intros m Hm. apply section_in_document. do 4 right.
      unfold _build_education_section_from_request. cbv zeta.
      apply (item_in_section (education_item_from_request config)
               (education_section_frame config) m education edu);
        [intros inner; apply in_education_frame | exact Hin | exact Hm]. }
    repeat split; apply Hitem; unfold education_item_from_request; find_part.
Qed.


(** *** The bullet list of an entry *)

Lemma add_achievements_known achievements :
  forall bullet_points,
    (forall a, In a achievements -> In a bullet_points) ->
    add_achievements achievements bullet_points = bullet_points.
Proof.
  unfold add_achievements.
  induction achievements as [|a rest IH]; intros bullet_points Hall;
    [reflexivity|].
  cbn [fold_left].
  rewrite (proj2 (BulletFacts.existsb_eqb_str_In a bullet_points))
    by (apply Hall; now left).
  apply IH. intros b Hb. apply Hall. now right.
Qed.

Lemma add_achievements_members achievements :
  forall bullet_points x,
    In x (add_achievements achievements bullet_points)
    <-> In x achievements \/ In x bullet_points.
Proof.
  unfold add_achievements.
  induction achievements as [|a rest IH]; intros bullet_points x;
    cbn [fold_left]; [cbn; tauto|].
  rewrite IH.
  destruct (existsb (eqb_str a) bullet_points) eqn:E.
  - apply BulletFacts.existsb_eqb_str_In in E. cbn [In].
    split; [tauto|]. intros [[<- | H] | H]; auto.
  - cbn [In]. tauto.
Qed.

Lemma add_achievements_nodup achievements :
  forall bullet_points,
    NoDup bullet_points ->
    NoDup (add_achievements achievements bullet_points).
Proof.
  unfold add_achievements.
  induction achievements as [|a rest IH]; intros bullet_points Hnd;
    cbn [fold_left]; [assumption|].
  apply IH. destruct (existsb (eqb_str a) bullet_points) eqn:E; [assumption|].
  constructor; [|assumption].
  intros Hin. apply BulletFacts.existsb_eqb_str_In in Hin. congruence.
Qed.

Lemma add_achievements_length achievements :
  forall bullet_points,
    List.length bullet_points
    <= List.length (add_achievements achievements bullet_points)
    <= List.length achievements + List.length bullet_points.
Proof.
  unfold add_achievements.
  induction achievements as [|a rest IH]; intros bullet_points;
    cbn [fold_left List.length]; [lia|].
  destruct (existsb (eqb_str a) bullet_points).
  - specialize (IH bullet_points). lia.
  - specialize (IH (a :: bullet_points)). cbn [List.length] in IH. lia.
Qed.

(** X10: merging achievements into a bullet list loses nothing and repeats
    nothing: the merged list holds exactly the achievements and the bullets
    that were there; it is free of duplicates when the bullets were (two
    equal achievements are inserted once); merging the same achievements
    again changes nothing; and the list grows by the number of
    achievements at most. *)
Theorem achievements_merge_is_a_union achievements bullet_points :
  let merged := add_achievements achievements bullet_points in
  (forall x, In x merged <-> In x achievements \/ In x bullet_points)
  /\ (NoDup bullet_points -> NoDup merged)
  /\ add_achievements achievements merged = merged
  /\ List.length bullet_points <= List.length merged
     <= List.length achievements + List.length bullet_points.
Proof.
  cbv zeta. split; [apply add_achievements_members|].
  split; [apply add_achievements_nodup|].
  split; [|apply add_achievements_length].
  apply add_achievements_known. intros a Ha.
  apply add_achievements_members. now left.
Qed.

(** *** Bullets of a text with markers *)

Definition head_kept (f : char -> bool) (s : pystr) : Prop :=
  match s with
  | [] => True
  | c :: _ => f c = false
  end.

Lemma dropwhile_head f s : head_kept f (dropwhile f s).
Proof.
  induction s as [|c t IH]; cbn; [exact I|].
  destruct (f c) eqn:E; [assumption | exact E].
Qed.

Lemma dropwhile_kept f s : head_kept f s -> dropwhile f s = s.
Proof. destruct s as [|c t]; cbn; [reflexivity | now intros ->]. Qed.

Lemma dropwhile_suffix f s : exists p, s = p ++ dropwhile f s.
Proof.
  induction s as [|c t [p IH]]; [now exists []|]. cbn.
  destruct (f c); [exists (c :: p); cbn; now f_equal | now exists []].
Qed.

Lemma head_kept_app f a b : a <> [] -> head_kept f (a ++ b) -> head_kept f a.
Proof. destruct a; [contradiction | auto]. Qed.

(** Stripping from both ends leaves a text with nothing to strip. *)
Lemma rstrip_lstrip_fixed f s :
  let t := rstrip_by f (lstrip_by f s) in
  head_kept f t /\ head_kept f (rev t).
Proof.
  cbv zeta. unfold rstrip_by, lstrip_by.
  pose proof (dropwhile_head f s) as Hx.
  set (x := dropwhile f s) in *.
  pose proof (dropwhile_head f (rev x)) as Hy.
  destruct (dropwhile_suffix f (rev x)) as [p Hp].
  set (y := dropwhile f (rev x)) in *.
  rewrite rev_involutive. split; [|assumption].
  assert (E : x = rev y ++ rev p).
  { rewrite <- (rev_involutive x), Hp, rev_app_distr. reflexivity. }
  destruct (rev y) eqn:Ey; [exact I|].
  rewrite E in Hx. exact Hx.
Qed.

Lemma strip_by_fixed f t :
  head_kept f t -> head_kept f (rev t) ->
  rstrip_by f (lstrip_by f t) = t.
Proof.
  intros H1 H2. unfold rstrip_by, lstrip_by.
  rewrite (dropwhile_kept f t H1), (dropwhile_kept f (rev t) H2).
  apply rev_involutive.
Qed.

Lemma strip_idem s : strip (strip s) = strip s.
Proof.
  destruct (rstrip_lstrip_fixed is_space s) as [H1 H2].
  now apply strip_by_fixed.
Qed.

Lemma strip_sub_heading line : strip (sub_heading line) = sub_heading line.
Proof.
  apply strip_by_fixed; unfold sub_heading.
  - reflexivity.
  - rewrite !rev_app_distr. reflexivity.
Qed.

(** A bullet as the list shows it: not blank, nothing to strip. *)
Definition shown (point : pystr) : Prop :=
  nonempty (strip point) = true /\ strip point = point.

Lemma bullets_of_line_shown line :
  Forall shown (BulletFacts.bullets_of_line (strip line)).
Proof.
  unfold BulletFacts.bullets_of_line. cbv zeta.
  destruct (BulletFacts.starts_with_marker (strip line)).
  - destruct (nonempty (strip (lstrip_chars _ _))) eqn:E; constructor;
      [|constructor].
    split; rewrite strip_idem; [exact E | reflexivity].
  - destruct (nonempty (strip line)) eqn:E; cbn [negb]; [|constructor].
    destruct (endswith (u ":") (strip line)); (constructor; [|constructor]).
    + fold (sub_heading (strip line)). split; rewrite strip_sub_heading;
        reflexivity.
    + split; rewrite strip_idem; [exact E | reflexivity].
Qed.

Lemma bullets_html_shown bullet_points :
  Forall shown bullet_points ->
  bullets_html bullet_points = List.concat (map list_item bullet_points).
Proof.
  intros Hall. unfold bullets_html.
  rewrite <- (app_nil_l (List.concat _)). generalize (@nil char).
  induction Hall as [|p l [Hne _] _ IH]; intros acc;
    cbn [fold_left map List.concat].
  - now rewrite app_nil_r.
  - rewrite Hne, IH. symmetry. apply app_assoc.
Qed.

(** X11: in a responsibilities text with a bullet or hyphen somewhere,
    every bullet the derivation yields is non-blank and already stripped,
    so the list filter of the renderer (which skips blank points) drops
    none of them: the list has one element per derived bullet, in order.
    Lines are lost in the derivation only, never at rendering. *)
Theorem marker_bullets_are_all_rendered responsibilities :
  BulletFacts.has_marker responsibilities = true ->
  let bullet_points := responsibility_bullets responsibilities in
  Forall shown bullet_points
  /\ bullets_html bullet_points = List.concat (map list_item bullet_points)
  /\ List.length bullet_points
     <= List.length (split nl responsibilities).
Proof.
  intros Hm. cbv zeta. rewrite BulletFacts.responsibility_bullets_lines, Hm.
  assert (Hall : Forall shown
            (flat_map (fun line => BulletFacts.bullets_of_line (strip line))
               (split nl responsibilities))).
  { induction (split nl responsibilities) as [|l ls IH]; cbn; [constructor|].
    apply Forall_app. split; [apply bullets_of_line_shown | exact IH]. }
  split; [exact Hall|]. split; [now apply bullets_html_shown|].
  induction (split nl responsibilities) as [|l ls IH]; cbn; [lia|].
  rewrite length_app.
  assert (List.length (BulletFacts.bullets_of_line (strip l)) <= 1).
  { unfold BulletFacts.bullets_of_line. cbv zeta.
    repeat match goal with
           | |- context [if ?b then _ else _] => destruct b
           end; cbn; lia. }
  assert (Forall shown
            (flat_map (fun line => BulletFacts.bullets_of_line (strip line)) ls)).
  { apply Forall_app in Hall. tauto. }
  specialize (IH H0). lia.
Qed.

Lemma marker_bullets_are_all_rendered_witness :
  let bullet_points := responsibility_bullets (u "Backend:
-   Did X
-
  plain line  ") in
  bullet_points = [u "<strong>Backend:</strong>"; u "Did X"; u "plain line"]
  /\ bullets_html bullet_points = List.concat (map list_item bullet_points).
Proof.
  cbv zeta. split; [vm_compute; reflexivity|].
  apply (@marker_bullets_are_all_rendered (u "Backend:
-   Did X
-
  plain line  ")). vm_compute. reflexivity.
Defined.

End RenderFacts.

(** ** File names: from the sanitizer to the download handler *)

Module FileNameFacts.
Import PDFService SanitizerFacts.

(** The file name before lower-casing. *)
Definition cleaned (filename : pystr) : pystr :=
  trim_underscores (squeeze (replace_unsafe filename)).

Definition dots : pystr := u "..".

(** *** Occurrences *)

Lemma startswith_prefix p : forall s,
  startswith p s = true -> exists b, s = p ++ b.
Proof.
  induction p as [|a p IH]; intros s H; [now exists s|].
  destruct s as [|c s]; [discriminate|]. cbn [startswith] in H.
  apply andb_prop in H as [Ha Hp]. apply N.eqb_eq in Ha. subst c.
  destruct (IH s Hp) as [b ->]. now exists b.
Qed.

Lemma contains_parts m s :
  contains m s = true <-> exists a b, s = a ++ m ++ b.
Proof.
  split.
  - induction s as [|c s IH]; cbn [contains]; intros H.
    + rewrite orb_false_r in H. destruct (startswith_prefix _ _ H) as [b Hb].
      now exists [], b.
    + apply orb_prop in H as [H|H].
      * destruct (startswith_prefix _ _ H) as [b Hb]. now exists [], b.
      * destruct (IH H) as (a & b & ->). now exists (c :: a), b.
  - intros (a & b & ->). apply PromptFacts.contains_app_r.
    apply PromptFacts.contains_self.
Qed.

Lemma contains_rev m s : contains (rev m) (rev s) = contains m s.
Proof.
  assert (H : forall m s, contains m s = true -> contains (rev m) (rev s) = true).
  { intros m0 s0 H. apply contains_parts in H as (a & b & ->).
    apply contains_parts. exists (rev b), (rev a).
    now rewrite !rev_app_distr, app_assoc. }
  destruct (contains m s) eqn:E; [now apply H|].
  destruct (contains (rev m) (rev s)) eqn:E'; [|reflexivity].
  apply H in E'. rewrite !rev_involutive in E'. congruence.
Qed.

Lemma contains_dropwhile m f s :
  contains m (dropwhile f s) = true -> contains m s = true.
Proof.
  intros H. destruct (RenderFacts.dropwhile_suffix f s) as [p Hp].
  rewrite Hp. now apply PromptFacts.contains_app_r.
Qed.

Lemma contains_trim m s :
  contains m (trim_underscores s) = true -> contains m s = true.
Proof.
  unfold trim_underscores, strip_chars, rstrip_by, lstrip_by. intros H.
  rewrite <- (rev_involutive m), contains_rev in H.
  apply contains_dropwhile in H. rewrite contains_rev in H.
  now apply contains_dropwhile in H.
Qed.

(** Two equal characters in a row, under the three steps. *)
Lemma pair_head d c t :
  startswith [d; d] (c :: t)
  = N.eqb d c && match t with [] => false | e :: _ => N.eqb d e end.
Proof.
  cbn [startswith]. destruct t as [|e t]; [reflexivity|].
  now rewrite andb_true_r.
Qed.

Lemma contains_pair_map (f : char -> char) d s :
  (forall c, N.eqb d (f c) = N.eqb d c) ->
  contains [d; d] (map f s) = contains [d; d] s.
Proof.
  intros Hf. induction s as [|c t IH]; [reflexivity|].
  cbn [map]. cbn [contains]. rewrite IH. f_equal.
  change (f c :: map f t) with (f c :: map f t).
  rewrite !pair_head, Hf. destruct t as [|e t]; [reflexivity|].
  cbn [map]. now rewrite Hf.
Qed.

Lemma contains_pair_dropwhile f d s :
  f d = false -> contains [d; d] (dropwhile f s) = contains [d; d] s.
Proof.
  intros Hd. induction s as [|c t IH]; [reflexivity|].
  cbn [dropwhile]. destruct (f c) eqn:E; [|reflexivity].
  rewrite IH. cbn [contains]. rewrite pair_head.
  destruct (N.eqb_spec d c) as [-> | _]; [congruence | reflexivity].
Qed.

Lemma contains_pair_squeeze d s :
  d <> underscore ->
  forall p, contains [d; d] (squeeze_from p s) = contains [d; d] s.
Proof.
  intros Hd. induction s as [|c t IH]; intros p; [reflexivity|].
  cbn [squeeze_from].
  destruct (N.eqb c underscore && p) eqn:E.
  - apply andb_prop in E as [Ec _]. apply N.eqb_eq in Ec. subst c.
    rewrite IH. cbn [contains]. rewrite pair_head.
    destruct (N.eqb_spec d underscore); [contradiction | reflexivity].
  - cbn [contains]. rewrite IH. f_equal. rewrite !pair_head.
    destruct (N.eqb_spec d c) as [<- | _]; [|reflexivity]. cbn [andb].
    destruct (N.eqb_spec d underscore); [contradiction|].
    destruct t as [|e t]; [reflexivity|]. cbn [squeeze_from].
    now rewrite andb_false_r.
Qed.

Lemma contains_pair_trim d s :
  d <> underscore ->
  contains [d; d] (trim_underscores s) = contains [d; d] s.
Proof.
  intros Hd. unfold trim_underscores, strip_chars, rstrip_by, lstrip_by.
  assert (Hf : (fun c => mem c (u "_")) d = false).
  { unfold mem. change (u "_") with [underscore]. cbn [existsb].
    destruct (N.eqb_spec d underscore); [contradiction | reflexivity]. }
  change [d; d] with (rev [d; d]) at 1. rewrite contains_rev.
  rewrite (@contains_pair_dropwhile _ d _ Hf).
  change [d; d] with (rev [d; d]) at 1. rewrite contains_rev.
  apply (@contains_pair_dropwhile _ d _ Hf).
Qed.

(** *** What the three steps keep *)

Lemma squeeze_from_Forall (P : char -> Prop) s :
  forall p, Forall P s -> Forall P (squeeze_from p s).
Proof.
  induction s as [|c t IH]; intros p H; [constructor|].
  inversion H; subst. cbn [squeeze_from].
  destruct (N.eqb c underscore && p); [auto | constructor; auto].
Qed.

Lemma dropwhile_Forall (P : char -> Prop) f s :
  Forall P s -> Forall P (dropwhile f s).
Proof.
  induction 1 as [|c t Hc Ht IH]; cbn; [constructor|].
  destruct (f c); [assumption | now constructor].
Qed.

Lemma trim_Forall (P : char -> Prop) s :
  Forall P s -> Forall P (trim_underscores s).
Proof.
  intros H. unfold trim_underscores, strip_chars, rstrip_by, lstrip_by.
  apply Forall_rev, dropwhile_Forall, Forall_rev, dropwhile_Forall, H.
Qed.

Lemma cleaned_Forall (P : char -> Prop) filename :
  Forall P (replace_unsafe filename) -> Forall P (cleaned filename).
Proof. intros H. apply trim_Forall, squeeze_from_Forall, H. Qed.

Lemma replace_unsafe_safe s :
  Forall (fun c => unsafe c = false) (replace_unsafe s).
Proof.
  unfold replace_unsafe. apply Forall_forall. intros x Hx.
  apply in_map_iff in Hx as (c & <- & _).
  destruct (unsafe c) eqn:E; [reflexivity | exact E].
Qed.

Lemma replace_unsafe_ascii s : is_ascii s -> is_ascii (replace_unsafe s).
Proof.
  unfold is_ascii, replace_unsafe. intros H. apply Forall_forall. intros x Hx.
  apply in_map_iff in Hx as (c & <- & Hc).
  rewrite Forall_forall in H. specialize (H c Hc).
  destruct (unsafe c); [unfold underscore; lia | exact H].
Qed.

(** *** Lower-casing of ASCII text *)

Lemma unsafe_cases c :
  unsafe c = true ->
  In c [60; 62; 58; 34; 47; 92; 124; 63; 42; 32]%N.
Proof.
  unfold unsafe, mem.
  change invalid_chars with [60; 62; 58; 34; 47; 92; 124; 63; 42]%N.
  cbn [existsb In]. rewrite !orb_true_iff, !N.eqb_eq.
  intuition (subst; auto 20; discriminate).
Qed.

Lemma lower_cases c :
  ascii_lower_char c = c
  \/ ((65 <= c <= 90)%N /\ ascii_lower_char c = (c + 32)%N).
Proof.
  unfold ascii_lower_char.
  destruct (N.leb_spec 65 c); destruct (N.leb_spec c 90); cbn [andb]; auto.
Qed.

Lemma lower_safe c : unsafe c = false -> unsafe (ascii_lower_char c) = false.
Proof.
  intros H. destruct (lower_cases c) as [-> | [Hc ->]]; [exact H|].
  destruct (unsafe (c + 32)%N) eqn:E; [|reflexivity].
  apply unsafe_cases in E. cbn [In] in E. lia.
Qed.

Lemma lower_not_upper c : upper (ascii_lower_char c) = false.
Proof.
  unfold upper. destruct (lower_cases c) as [E | [Hc E]].
  - rewrite E. unfold ascii_lower_char in E.
    destruct (N.leb_spec 65 c); destruct (N.leb_spec c 90); cbn [andb] in *;
      try reflexivity. lia.
  - rewrite E. destruct (N.leb_spec (c + 32) 90); [lia|]. apply andb_false_r.
Qed.

Lemma lower_other d c :
  ~ (65 <= d <= 90)%N -> ~ (97 <= d <= 122)%N ->
  N.eqb d (ascii_lower_char c) = N.eqb d c.
Proof.
  intros H1 H2. destruct (lower_cases c) as [-> | [Hc ->]]; [reflexivity|].
  destruct (N.eqb_spec d (c + 32)); destruct (N.eqb_spec d c); try reflexivity;
    lia.
Qed.

Lemma lower_fixed s : existsb upper s = false -> ascii_lower s = s.
Proof.
  unfold ascii_lower. induction s as [|c t IH]; [reflexivity|].
  cbn [existsb map]. intros H. apply orb_false_elim in H as [Hc Ht].
  rewrite (IH Ht). f_equal. unfold ascii_lower_char, upper in *. now rewrite Hc.
Qed.

Lemma lower_ascii s : is_ascii s -> is_ascii (ascii_lower s).
Proof.
  unfold is_ascii, ascii_lower. intros H. apply Forall_forall. intros x Hx.
  apply in_map_iff in Hx as (c & <- & Hc).
  rewrite Forall_forall in H. specialize (H c Hc).
  destruct (lower_cases c) as [-> | [Hr ->]]; lia.
Qed.

Lemma lower_Forall (P : char -> Prop) s :
  (forall c, P c -> P (ascii_lower_char c)) ->
  Forall P s -> Forall P (ascii_lower s).
Proof.
  intros HP H. unfold ascii_lower. induction H; cbn; constructor; auto.
Qed.

Lemma lower_no_upper s : existsb upper (ascii_lower s) = false.
Proof.
  unfold ascii_lower. induction s as [|c t IH]; [reflexivity|].
  cbn [map existsb]. now rewrite lower_not_upper, IH.
Qed.

(** *** The ends of the name *)

Definition is_underscore (c : char) : bool := mem c (u "_").

Lemma head_kept_map (f : char -> bool) (g : char -> char) s :
  (forall c, f (g c) = f c) ->
  RenderFacts.head_kept f s -> RenderFacts.head_kept f (map g s).
Proof. intros Hg. destruct s as [|c t]; cbn; [auto | now rewrite Hg]. Qed.

Lemma is_underscore_lower c :
  is_underscore (ascii_lower_char c) = is_underscore c.
Proof.
  unfold is_underscore, mem. change (u "_") with [95%N]. cbn [existsb].
  rewrite !orb_false_r, !(N.eqb_sym _ 95). apply lower_other; lia.
Qed.

Lemma head_kept_startswith s :
  RenderFacts.head_kept is_underscore s -> startswith (u "_") s = false.
Proof.
  destruct s as [|c t]; [reflexivity|]. cbn [RenderFacts.head_kept].
  unfold is_underscore, mem. change (u "_") with [95%N].
  cbn [existsb startswith]. rewrite orb_false_r, andb_true_r, N.eqb_sym.
  auto.
Qed.

(** *** The lower-cased name *)

Definition lowered (filename : pystr) : pystr := ascii_lower (cleaned filename).

Lemma cleaned_ascii filename : is_ascii filename -> is_ascii (cleaned filename).
Proof. intros Ha. apply cleaned_Forall, replace_unsafe_ascii, Ha. Qed.

(** The two ways out of the sanitizer. *)
Lemma sanitize_cases str_lower uuid4 filename :
  lower_on_ascii str_lower ->
  is_ascii filename ->
  (cleaned filename = []
   /\ _sanitize_filename str_lower uuid4 filename = take 8 uuid4)
  \/ (cleaned filename <> []
      /\ _sanitize_filename str_lower uuid4 filename = lowered filename).
Proof.
  intros Hl Ha. rewrite sanitize_steps. unfold sanitize_spec. cbv zeta.
  fold (cleaned filename). rewrite (Hl _ (cleaned_ascii Ha)).
  fold (lowered filename). unfold lowered, ascii_lower.
  destruct (cleaned filename) as [|c t]; [left | right]; split;
    try reflexivity; discriminate.
Qed.

Lemma lowered_safe filename :
  Forall (fun c => unsafe c = false) (lowered filename).
Proof.
  apply lower_Forall; [exact lower_safe|].
  apply cleaned_Forall, replace_unsafe_safe.
Qed.

Lemma lowered_no_double filename : contains (u "__") (lowered filename) = false.
Proof.
  change (u "__") with [underscore; underscore]. unfold lowered, ascii_lower.
  rewrite contains_pair_map by (intros c; apply lower_other; unfold underscore; lia).
  destruct (contains _ (cleaned filename)) eqn:Hc; [|reflexivity].
  apply contains_trim in Hc.
  change [underscore; underscore] with (u "__") in Hc.
  unfold squeeze in Hc. now rewrite squeeze_no_double in Hc.
Qed.

Lemma lowered_ends filename :
  RenderFacts.head_kept is_underscore (lowered filename)
  /\ RenderFacts.head_kept is_underscore (rev (lowered filename)).
Proof.
  pose proof (RenderFacts.rstrip_lstrip_fixed is_underscore
                (squeeze (replace_unsafe filename))) as [Hhead Hlast].
  change (rstrip_by is_underscore
            (lstrip_by is_underscore (squeeze (replace_unsafe filename))))
    with (cleaned filename) in Hhead, Hlast.
  unfold lowered, ascii_lower. rewrite <- map_rev.
  split; (apply head_kept_map; [exact is_underscore_lower | assumption]).
Qed.

(** The steps neither make nor break a pair of dots. *)
Lemma cleaned_dots filename :
  contains dots (cleaned filename) = contains dots filename.
Proof.
  unfold dots. change (u "..") with [46%N; 46%N]. unfold cleaned.
  rewrite contains_pair_trim by (unfold underscore; lia).
  unfold squeeze.
  rewrite contains_pair_squeeze by (unfold underscore; lia).
  unfold replace_unsafe. apply contains_pair_map. intros c.
  destruct (unsafe c) eqn:Eu; [|reflexivity].
  apply unsafe_cases in Eu. cbn [In] in Eu.
  destruct (N.eqb_spec 46 underscore) as [H|_]; [unfold underscore in H; lia|].
  destruct (N.eqb_spec 46 c); [lia | reflexivity].
Qed.

Lemma lowered_dots filename :
  contains dots (lowered filename) = contains dots filename.
Proof.
  rewrite <- (cleaned_dots filename). unfold dots. change (u "..") with [46%N; 46%N].
  unfold lowered, ascii_lower.
  apply contains_pair_map. intros c. apply lower_other; lia.
Qed.

(** The sanitizer gives a lowered name back. *)
Lemma lowered_fixed str_lower uuid4 filename :
  lower_on_ascii str_lower ->
  is_ascii filename ->
  cleaned filename <> [] ->
  _sanitize_filename str_lower uuid4 (lowered filename) = lowered filename.
Proof.
  intros Hl Ha Hne.
  pose proof (lowered_safe filename) as Hsafe.
  pose proof (lowered_no_double filename) as Hdouble.
  pose proof (lowered_ends filename) as [Hh Hl'].
  assert (Hup : existsb upper (lowered filename) = false)
    by apply lower_no_upper.
  assert (Hasc : is_ascii (lowered filename))
    by apply lower_ascii, cleaned_ascii, Ha.
  assert (Hout : lowered filename <> []).
  { unfold lowered, ascii_lower. intros E. apply map_eq_nil in E.
    contradiction. }
  set (out := lowered filename) in *.
  rewrite sanitize_steps. unfold sanitize_spec. cbv zeta.
  assert (E1 : replace_unsafe out = out).
  { unfold replace_unsafe. rewrite <- (map_id out) at 2.
    apply map_ext_in. intros c Hc. rewrite Forall_forall in Hsafe.
    now rewrite (Hsafe c Hc). }
  assert (E2 : squeeze out = out).
  { apply squeeze_from_fixed; [exact Hdouble | discriminate]. }
  assert (E3 : trim_underscores out = out).
  { apply (RenderFacts.strip_by_fixed is_underscore); assumption. }
  rewrite E1, E2, E3, (Hl out Hasc), (lower_fixed _ Hup).
  destruct out; [contradiction | reflexivity].
Qed.

(** X12: the file name the sanitizer derives from an ASCII name. Either
    nothing is left of the name and the result is the first 8 characters of
    the random UUID, or the result is free of the characters of
    [invalid_chars] and of spaces (so of slashes and backslashes), has no
    upper-case letter, no doubled underscore and no underscore at either
    end, holds two dots in a row exactly when the name does, and is a fixed
    point: sanitizing it again gives it back. *)
Theorem sanitized_name_is_safe str_lower uuid4 filename :
  lower_on_ascii str_lower ->
  is_ascii filename ->
  let out := _sanitize_filename str_lower uuid4 filename in
  (cleaned filename = [] /\ out = take 8 uuid4)
  \/ (out = ascii_lower (cleaned filename)
      /\ out <> []
      /\ Forall (fun c => unsafe c = false) out
      /\ existsb upper out = false
      /\ contains (u "__") out = false
      /\ startswith (u "_") out = false
      /\ endswith (u "_") out = false
      /\ contains dots out = contains dots filename
      /\ _sanitize_filename str_lower uuid4 out = out).
Proof.
  intros Hl Ha. cbv zeta.
  destruct (sanitize_cases uuid4 Hl Ha) as [[Hc E] | [Hc E]]; [now left|].
  right. rewrite E. fold (lowered filename).
  destruct (lowered_ends filename) as [Hhead Hlast].
  split; [reflexivity|]. split.
  { unfold lowered, ascii_lower. intros H. apply map_eq_nil in H.
    contradiction. }
  split; [apply lowered_safe|]. split; [apply lower_no_upper|].
  split; [apply lowered_no_double|].
  split; [now apply head_kept_startswith|].
  split; [unfold endswith; change (rev (u "_")) with (u "_");
          now apply head_kept_startswith|].
  split; [apply lowered_dots | now apply lowered_fixed].
Qed.

Lemma sanitized_name_is_safe_witness :
  _sanitize_filename ascii_lower (u "0f8fad5b-d9cb-469f-a165-70867728950e")
    (u "..//Ada   LOVELACE__") = u ".._ada_lovelace"
  /\ contains (u "/") (u ".._ada_lovelace") = false
  /\ contains dots (u ".._ada_lovelace") = true.
Proof.
  destruct (@sanitized_name_is_safe ascii_lower
              (u "0f8fad5b-d9cb-469f-a165-70867728950e")
              (u "..//Ada   LOVELACE__") ascii_lower_on_ascii)
    as [[Hc _] | (Hout & _)].
  - unfold is_ascii. vm_compute. repeat constructor.
  - vm_compute in Hc. discriminate Hc.
  - split; [rewrite Hout; vm_compute; reflexivity|].
    split; vm_compute; reflexivity.
Defined.

End FileNameFacts.

(** ** The two handlers *)

Module HandlerFacts.
Import Router Download.

(** The guard of [download_resume_pdf]. *)
Definition rejected (filename : pystr) : bool :=
  negb (nonempty filename) || contains (u "..") filename
  || startswith (u "/") filename.

(** The name the handler looks up. *)
Definition served_name (filename : pystr) : pystr :=
  if endswith (u ".pdf") filename then filename else filename ++ u ".pdf".

Definition pdf_response (file_path filename : pystr) : FileResponse :=
  mkFileResponse file_path filename (u "application/pdf")
    [ (u "Content-Disposition", u "attachment; filename=" ++ filename);
      (u "Cache-Control", u "no-cache") ].

(** A character of the text of a UUID: a lower-case hexadecimal digit or
    a hyphen. *)
Definition uuid_char (c : char) : bool :=
  ((48 <=? c) && (c <=? 57) || (97 <=? c) && (c <=? 102) || (c =? 45))%N.

Lemma endswith_self p a : endswith p (a ++ p) = true.
Proof. unfold endswith. rewrite rev_app_distr. apply FenceFacts.startswith_self. Qed.

Lemma served_name_pdf filename :
  endswith (u ".pdf") (served_name filename) = true.
Proof.
  unfold served_name. destruct (endswith (u ".pdf") filename) eqn:E;
    [exact E | apply endswith_self].
Qed.

Section Files.

Variable str_lower : pystr -> pystr.
Variable get_file_path : pystr -> pystr.
Variable file_exists : pystr -> bool.

(** The handler past its guard. *)
Lemma download_accepted w filename :
  rejected filename = false ->
  download_resume_pdf get_file_path file_exists w filename
  = match PDFService.mkdir_error w with
    | Some e => (Raise e, [MakeOutputDir])
    | None =>
        if file_exists (served_name filename)
        then (Ok (pdf_response (get_file_path (served_name filename))
                    (served_name filename)), [MakeOutputDir])
        else (Raise (HTTPException HTTP_404_NOT_FOUND
                       (u "File not found: " ++ served_name filename)),
              [MakeOutputDir])
    end.
Proof.
  intros Hr. unfold download_resume_pdf. unfold rejected in Hr. rewrite Hr.
  cbv zeta. unfold served_name, PDFService.__init__.
  destruct (endswith (u ".pdf") filename); cbn [negb];
    destruct (PDFService.mkdir_error w); cbn [io_bind emit raise ret app];
    try reflexivity;
    match goal with
    | |- context [file_exists ?n] => destruct (file_exists n)
    end; reflexivity.
Qed.

(** X13: the download handler. A name that is empty, holds two dots in a
    row or starts with a slash is refused with status 400 before anything
    else happens: the output directory is not created and the file system
    is not consulted. The guard looks at the name as requested, not at the
    name served: [a.] passes and is served as [a..pdf]. Any other name is
    served under a name ending in [.pdf] (the suffix is added when
    missing), after the output directory was created: the response carries
    the path and the name of an existing file as an attachment; a missing
    file gives status 404 with the served name; a failure to create the
    directory passes unchanged. *)
Theorem download_outcomes w filename :
  let run := download_resume_pdf get_file_path file_exists w filename in
  let served := served_name filename in
  (rejected filename = true ->
   run = (Raise (HTTPException 400 (u "Invalid filename")), []))
  /\ (rejected filename = false ->
      endswith (u ".pdf") served = true
      /\ (served = filename \/ served = filename ++ u ".pdf")
      /\ snd run = [MakeOutputDir]
      /\ (forall response,
            fst run = Ok response ->
            PDFService.mkdir_error w = None
            /\ file_exists served = true
            /\ response = pdf_response (get_file_path served) served)
      /\ (forall e,
            fst run = Raise e ->
            PDFService.mkdir_error w = Some e
            \/ (PDFService.mkdir_error w = None
                /\ file_exists served = false
                /\ e = HTTPException 404 (u "File not found: " ++ served))))
  /\ rejected (u "a.") = false
  /\ contains (u "..") (served_name (u "a.")) = true.
Proof.
  cbv zeta. split; [|split].
  - intros Hr. unfold download_resume_pdf. unfold rejected in Hr.
    now rewrite Hr.
  - intros Hr. rewrite (@download_accepted w _ Hr).
    split; [apply served_name_pdf|]. split.
    { unfold served_name. destruct (endswith (u ".pdf") filename); auto. }
    destruct (PDFService.mkdir_error w) as [e0|]; cbn [fst snd].
    + split; [reflexivity|]. split; [discriminate|].
      intros e H. injection H as <-. now left.
    + destruct (file_exists (served_name filename)) eqn:Ef; cbn [fst snd].
      * split; [reflexivity|]. split; [|discriminate].
        intros response H. injection H as <-. auto.
      * split; [reflexivity|]. split; [discriminate|].
        intros e H. injection H as <-. right. auto.
  - split; vm_compute; reflexivity.
Qed.

(** *** From the link of [generate_resume] to the download *)

(** The name of the PDF of a request. *)
Definition pdf_name (w : PDFService.World) (request : ResumeRequest.t) : pystr :=
  PDFService.safe_filename str_lower (PDFService.uuid4 w) None
    (Some (PersonalInfo.full_name (ResumeRequest.personal_info request)))
  ++ u "_resume.pdf".

Lemma generate_resume_link w request response :
  fst (generate_resume str_lower w request) = Ok response ->
  PDFService.mkdir_error w = None
  /\ ResumeResponse.pdf_download_url response
     = PDFService.get_download_url (pdf_name w request).
Proof.
  unfold generate_resume, generate_resume_body, PDFService.__init__, pdf_name.
  cbv zeta.
  generalize (ResumeBuilder.build_resume_from_request
    (PersonalInfoModel.mk
       (PersonalInfo.full_name (ResumeRequest.personal_info request))
       (PersonalInfo.email (ResumeRequest.personal_info request))
       (PersonalInfo.phone (ResumeRequest.personal_info request))
       (PersonalInfo.location (ResumeRequest.personal_info request))
       (PersonalInfo.linkedin (ResumeRequest.personal_info request))
       (PersonalInfo.portfolio (ResumeRequest.personal_info request)))
    (ResumeRequest.summary request) (ResumeRequest.skills request)
    (ResumeRequest.experience request) (ResumeRequest.education request)
    (ResumeRequest.template request)).
  intros html.
  cbn [PersonalInfoModel.full_name].
  unfold PDFService.generate_pdf. cbv zeta.
  generalize (PDFService.safe_filename str_lower (PDFService.uuid4 w) None
    (Some (PersonalInfo.full_name (ResumeRequest.personal_info request)))).
  intros safe.
  set (title := match Some (PersonalInfo.full_name
                              (ResumeRequest.personal_info request)) with
                | Some ((_ :: _) as n) => n
                | _ => u "Resume"
                end).
  generalize title; clear title; intros title.
  generalize (PDFService.output_dir w ++ u "/" ++ safe ++ u "_resume.pdf").
  intros path.
  destruct (PDFService.mkdir_error w) as [e|] eqn:Hmk.
  { cbn. destruct (is_http_exception e); cbn; discriminate. }
  cbn.
  destruct (PDFService.xhtml2pdf_ok w html path); cbn.
  { intros H. injection H as <-. auto. }
  destruct (PDFService.reportlab_error w html path title) as [e|]; cbn.
  - destruct (is_pdf_service_error e); cbn; [discriminate|].
    destruct (is_http_exception e); cbn; discriminate.
  - intros H. injection H as <-. auto.
Qed.

Lemma firstn_Forall (P : char -> Prop) n :
  forall s, Forall P s -> Forall P (firstn n s).
Proof.
  induction n as [|n IH]; intros s H; [constructor|].
  destruct H; cbn; constructor; auto.
Qed.

Lemma no_dots s : Forall (fun c => c <> 46%N) s -> contains (u "..") s = false.
Proof.
  change (u "..") with [46%N; 46%N].
  induction 1 as [|c t Hc _ IH]; [reflexivity|].
  cbn [contains]. rewrite IH, FileNameFacts.pair_head.
  destruct (N.eqb_spec 46 c); [congruence | reflexivity].
Qed.

Lemma no_slash_start s b :
  Forall (fun c => c <> 47%N) s ->
  startswith (u "/") b = false ->
  startswith (u "/") (s ++ b) = false.
Proof.
  change (u "/") with [47%N]. intros Hs Hb. destruct Hs as [|c t Hc _];
    [exact Hb|].
  cbn [app startswith]. destruct (N.eqb_spec 47 c); [congruence | reflexivity].
Qed.

(** Two dots in the name of the PDF are two dots of its first part. *)
Lemma dots_before_suffix safe :
  contains (u "..") (safe ++ u "_resume.pdf") = contains (u "..") safe.
Proof.
  destruct (contains (u "..") safe) eqn:E.
  - now apply PromptFacts.contains_app_l.
  - destruct (contains (u "..") (safe ++ u "_resume.pdf")) eqn:E';
      [|reflexivity].
    apply PromptFacts.contains_app in E' as [H | [H | (k & Hk & _ & H)]].
    + congruence.
    + vm_compute in H. discriminate H.
    + change (List.length (u "..")) with 2 in Hk.
      assert (k = 1) by lia. subst k. vm_compute in H. discriminate H.
Qed.

Lemma uuid_chars_plain s :
  Forall (fun c => uuid_char c = true) s ->
  Forall (fun c => c <> 46%N) s /\ Forall (fun c => c <> 47%N) s.
Proof.
  intros H. split; (eapply Forall_impl; [|exact H]); intros c Hc E; subst c;
    vm_compute in Hc; discriminate Hc.
Qed.

Lemma safe_chars_no_slash s :
  Forall (fun c => SanitizerFacts.unsafe c = false) s ->
  Forall (fun c => c <> 47%N) s.
Proof.
  intros H. eapply Forall_impl; [|exact H]. intros c Hc E. subst c.
  vm_compute in Hc. discriminate Hc.
Qed.

(** The first part of the PDF name of an ASCII candidate name. *)
Lemma safe_filename_facts w name :
  PDFService.lower_on_ascii str_lower ->
  PDFService.is_ascii name ->
  Forall (fun c => uuid_char c = true) (PDFService.uuid4 w) ->
  let safe :=
    PDFService.safe_filename str_lower (PDFService.uuid4 w) None (Some name) in
  Forall (fun c => c <> 47%N) safe
  /\ contains (u "..") safe = contains (u "..") name.
Proof.
  intros Hl Ha Hu. cbv zeta.
  destruct (uuid_chars_plain Hu) as [Hd Hs].
  assert (H8s : Forall (fun c => c <> 47%N) (take 8 (PDFService.uuid4 w)))
    by (unfold take; now apply firstn_Forall).
  assert (H8d : contains (u "..") (take 8 (PDFService.uuid4 w)) = false)
    by (apply no_dots; unfold take; now apply firstn_Forall).
  pose proof (FileNameFacts.cleaned_dots name) as Hcd.
  unfold FileNameFacts.dots in Hcd.
  destruct (FileNameFacts.sanitize_cases (PDFService.uuid4 w) Hl Ha)
    as [[Hc E] | [Hc E]].
  - assert (Es : PDFService.safe_filename str_lower (PDFService.uuid4 w) None
                   (Some name) = take 8 (PDFService.uuid4 w)).
    { unfold PDFService.safe_filename. destruct name; [reflexivity | exact E]. }
    rewrite Es. split; [exact H8s|]. rewrite H8d, <- Hcd, Hc. reflexivity.
  - assert (Es : PDFService.safe_filename str_lower (PDFService.uuid4 w) None
                   (Some name) = FileNameFacts.lowered name).
    { unfold PDFService.safe_filename.
      destruct name; [exfalso; apply Hc; reflexivity | exact E]. }
    rewrite Es.
    split; [apply safe_chars_no_slash, FileNameFacts.lowered_safe|].
    apply FileNameFacts.lowered_dots.
Qed.

(** X14: the link in the response of [generate_resume], followed. For an
    ASCII candidate name (and the text of a UUID as the random token) the
    link ends in the name of the PDF; asking the download handler for that
    name gives the file under the same name when it exists, unless the
    candidate name holds two dots in a row: the sanitizer keeps them, and
    the download handler then refuses the very link that was handed out,
    with status 400. *)
Theorem issued_link_is_served w request response :
  PDFService.lower_on_ascii str_lower ->
  PDFService.is_ascii
    (PersonalInfo.full_name (ResumeRequest.personal_info request)) ->
  Forall (fun c => uuid_char c = true) (PDFService.uuid4 w) ->
  fst (generate_resume str_lower w request) = Ok response ->
  let name := pdf_name w request in
  let full_name :=
    PersonalInfo.full_name (ResumeRequest.personal_info request) in
  ResumeResponse.pdf_download_url response
  = u "/api/resume/download/" ++ name
  /\ (contains (u "..") full_name = false ->
      download_resume_pdf get_file_path file_exists w name
      = if file_exists name
        then (Ok (pdf_response (get_file_path name) name), [MakeOutputDir])
        else (Raise (HTTPException 404 (u "File not found: " ++ name)),
              [MakeOutputDir]))
  /\ (contains (u "..") full_name = true ->
      download_resume_pdf get_file_path file_exists w name
      = (Raise (HTTPException 400 (u "Invalid filename")), [])).
Proof.
  intros Hl Ha Hu Hgen. cbv zeta.
  destruct (@generate_resume_link w request response Hgen) as [Hmk Hurl].
  destruct (@safe_filename_facts w _ Hl Ha Hu) as [Hslash Hdots].
  split; [exact Hurl|].
  assert (Hname : contains (u "..") (pdf_name w request)
                  = contains (u "..")
                      (PersonalInfo.full_name
                         (ResumeRequest.personal_info request))).
  { unfold pdf_name. now rewrite dots_before_suffix. }
  split; intros Hd.
  - assert (Hr : rejected (pdf_name w request) = false).
    { unfold rejected. rewrite Hname, Hd. unfold pdf_name.
      rewrite (@no_slash_start _ _ Hslash) by reflexivity.
      destruct (PDFService.safe_filename _ _ _ _); reflexivity. }
    rewrite (@download_accepted w _ Hr), Hmk.
    assert (Es : served_name (pdf_name w request) = pdf_name w request).
    { unfold served_name, pdf_name.
      change (u "_resume.pdf") with (u "_resume" ++ u ".pdf").
      now rewrite app_assoc, endswith_self. }
    rewrite Es. reflexivity.
  - unfold download_resume_pdf. rewrite Hname, Hd.
    now rewrite orb_true_r.
Qed.

(** *** The path of the PDF *)

Lemma generate_pdf_result w html candidate_name r :
  fst (PDFService.generate_pdf str_lower w html None candidate_name) = Ok r ->
  let name :=
    PDFService.safe_filename str_lower (PDFService.uuid4 w) None candidate_name
    ++ u "_resume.pdf" in
  r = (name, PDFService.output_dir w ++ u "/" ++ name).
Proof.
  unfold PDFService.generate_pdf. cbv zeta.
  generalize (PDFService.safe_filename str_lower (PDFService.uuid4 w) None
                candidate_name ++ u "_resume.pdf").
  intros name. cbn.
  destruct (PDFService.xhtml2pdf_ok w html _); cbn;
    [intros H; now injection H as <-|].
  destruct (PDFService.reportlab_error w html _ _); cbn;
    [discriminate | intros H; now injection H as <-].
Qed.

(** X15: the name of the PDF holds nothing but the sanitized candidate
    name: no token makes it unique. The sanitized form of an ASCII name is
    itself a name with that sanitized form, so a request under the name and
    a request under its sanitized form (two different candidates, two
    different documents) are written to the same file name and path. *)
Theorem sanitized_names_share_a_file w html html' name r r' :
  PDFService.lower_on_ascii str_lower ->
  PDFService.is_ascii name ->
  FileNameFacts.cleaned name <> [] ->
  let name' :=
    PDFService._sanitize_filename str_lower (PDFService.uuid4 w) name in
  fst (PDFService.generate_pdf str_lower w html None (Some name)) = Ok r ->
  fst (PDFService.generate_pdf str_lower w html' None (Some name')) = Ok r' ->
  r = r'
  /\ fst r = name' ++ u "_resume.pdf"
  /\ snd r = PDFService.output_dir w ++ u "/" ++ name' ++ u "_resume.pdf".
Proof.
  intros Hl Ha Hne. cbv zeta. intros Hr Hr'.
  apply generate_pdf_result in Hr, Hr'. cbv zeta in Hr, Hr'.
  destruct (FileNameFacts.sanitize_cases (PDFService.uuid4 w) Hl Ha)
    as [[Hc _] | [_ E]]; [contradiction|].
  rewrite E in *.
  assert (Hlow : FileNameFacts.lowered name <> []).
  { unfold FileNameFacts.lowered, PDFService.ascii_lower. intros H.
    apply map_eq_nil in H. contradiction. }
  assert (E1 : PDFService.safe_filename str_lower (PDFService.uuid4 w) None
                 (Some name) = FileNameFacts.lowered name).
  { unfold PDFService.safe_filename.
    destruct name; [exfalso; apply Hne; reflexivity | exact E]. }
  assert (E2 : PDFService.safe_filename str_lower (PDFService.uuid4 w) None
                 (Some (FileNameFacts.lowered name))
               = FileNameFacts.lowered name).
  { unfold PDFService.safe_filename.
    destruct (FileNameFacts.lowered name) eqn:El; [contradiction|].
    rewrite <- El. now apply FileNameFacts.lowered_fixed. }
  rewrite E1 in Hr. rewrite E2 in Hr'. subst r r'. cbn [fst snd]. auto.
Qed.

(** *** Failures of [generate_resume] *)

(** What the handler makes of an exception of the PDF step. *)
Definition pdf_failure (cause : exn) : exn :=
  match cause with
  | PDFServiceError msg =>
      HTTPException 500 (u "PDF generation failed: " ++ msg)
  | HTTPException _ _ => cause
  | _ => HTTPException 500 (u "Unexpected error: " ++ exn_str cause)
  end.

(** What it makes of an exception of the construction of the services. *)
Definition setup_failure (cause : exn) : exn :=
  match cause with
  | HTTPException _ _ => cause
  | _ => HTTPException 500 (u "Unexpected error: " ++ exn_str cause)
  end.

(** X16: [generate_resume] fails with an [HTTPException] only, and for one
    of two reasons. The output directory cannot be created: nothing is
    rendered, and the error is reported as [Unexpected error: ...] with
    status 500. Or xhtml2pdf did not produce the file and the reportlab
    fallback raised: a [PDFServiceError] is reported as [PDF generation
    failed: ...], anything else as [Unexpected error: ...], with status
    500. An [HTTPException] raised underneath passes unchanged. A failure
    of xhtml2pdf alone is never reported, and the [HTML generation failed]
    branch is never taken. *)
Theorem generate_resume_failures w request e :
  fst (generate_resume str_lower w request) = Raise e ->
  is_http_exception e = true
  /\ exists cause,
       (PDFService.mkdir_error w = Some cause
        /\ e = setup_failure cause
        /\ snd (generate_resume str_lower w request) = [MakeOutputDir])
       \/ (PDFService.mkdir_error w = None
           /\ e = pdf_failure cause
           /\ exists html path title,
                PDFService.xhtml2pdf_ok w html path = false
                /\ PDFService.reportlab_error w html path title = Some cause
                /\ snd (generate_resume str_lower w request)
                   = [MakeOutputDir; RenderPdf path; RenderPdfFallback path]).
Proof.
  unfold generate_resume, generate_resume_body, PDFService.__init__.
  cbv zeta.
  generalize (ResumeBuilder.build_resume_from_request
    (PersonalInfoModel.mk
       (PersonalInfo.full_name (ResumeRequest.personal_info request))
       (PersonalInfo.email (ResumeRequest.personal_info request))
       (PersonalInfo.phone (ResumeRequest.personal_info request))
       (PersonalInfo.location (ResumeRequest.personal_info request))
       (PersonalInfo.linkedin (ResumeRequest.personal_info request))
       (PersonalInfo.portfolio (ResumeRequest.personal_info request)))
    (ResumeRequest.summary request) (ResumeRequest.skills request)
    (ResumeRequest.experience request) (ResumeRequest.education request)
    (ResumeRequest.template request)).
  intros html.
  cbn [PersonalInfoModel.full_name].
  unfold PDFService.generate_pdf. cbv zeta.
  generalize (PDFService.safe_filename str_lower (PDFService.uuid4 w) None
    (Some (PersonalInfo.full_name (ResumeRequest.personal_info request)))).
  intros safe.
  set (title := match Some (PersonalInfo.full_name
                              (ResumeRequest.personal_info request)) with
                | Some ((_ :: _) as n) => n
                | _ => u "Resume"
                end).
  generalize title; clear title; intros title.
  generalize (PDFService.output_dir w ++ u "/" ++ safe ++ u "_resume.pdf").
  intros path.
  destruct (PDFService.mkdir_error w) as [c|] eqn:Hmk.
  { cbn. destruct c; cbn; intros H; injection H as <-;
      (split; [reflexivity|]; eexists; left; repeat split; reflexivity). }
  cbn.
  destruct (PDFService.xhtml2pdf_ok w html path) eqn:Hx; cbn; [discriminate|].
  destruct (PDFService.reportlab_error w html path title) as [c|] eqn:Hr; cbn;
    [|discriminate].
  destruct c; cbn; intros H; injection H as <-;
    (split; [reflexivity|];
     match type of Hr with _ = Some ?c => exists c end;
     right; split; [reflexivity|];
     split; [reflexivity|]; exists html, path, title; repeat split;
     solve [assumption | reflexivity]).
Qed.

End Files.

(** The directory and both renderers work; the file is there. *)
Definition served_path (filename : pystr) : pystr := u "generated/" ++ filename.

Definition with_name (name : pystr) (request : ResumeRequest.t)
  : ResumeRequest.t :=
  let info := ResumeRequest.personal_info request in
  ResumeRequest.mk
    (PersonalInfo.mk name (PersonalInfo.email info) (PersonalInfo.phone info)
       (PersonalInfo.location info) (PersonalInfo.linkedin info)
       (PersonalInfo.portfolio info))
    (ResumeRequest.summary request) (ResumeRequest.skills request)
    (ResumeRequest.experience request) (ResumeRequest.education request)
    (ResumeRequest.job_description request) (ResumeRequest.template request).

Lemma uuid_text :
  Forall (fun c => uuid_char c = true)
    (PDFService.uuid4 RouterFacts.working_world).
Proof. apply Forall_forall. intros c Hc. vm_compute in Hc.
  repeat (destruct Hc as [<- | Hc]; [reflexivity|]). contradiction. Qed.

Lemma ascii_text (s : string) :
  forallb (fun c => (c <? 128)%N) (u s) = true -> PDFService.is_ascii (u s).
Proof.
  unfold PDFService.is_ascii. rewrite forallb_forall, Forall_forall.
  intros H c Hc. apply N.ltb_lt. now apply H.
Qed.

Lemma issued_link_is_served_witness :
  (exists response,
     fst (generate_resume PDFService.ascii_lower RouterFacts.working_world
            NormalizerFacts.two_jobs) = Ok response
     /\ ResumeResponse.pdf_download_url response
        = u "/api/resume/download/ada_resume.pdf"
     /\ download_resume_pdf served_path (fun _ => true)
          RouterFacts.working_world (u "ada_resume.pdf")
        = (Ok (pdf_response (u "generated/ada_resume.pdf") (u "ada_resume.pdf")),
           [MakeOutputDir]))
  /\ (exists response,
        fst (generate_resume PDFService.ascii_lower RouterFacts.working_world
               (with_name (u "J..R Tolkien") NormalizerFacts.two_jobs))
        = Ok response
        /\ ResumeResponse.pdf_download_url response
           = u "/api/resume/download/j..r_tolkien_resume.pdf"
        /\ download_resume_pdf served_path (fun _ => true)
             RouterFacts.working_world (u "j..r_tolkien_resume.pdf")
           = (Raise (HTTPException 400 (u "Invalid filename")), [])).
Proof.
  split.
  - assert (Hgen : exists response,
      fst (generate_resume PDFService.ascii_lower RouterFacts.working_world
             NormalizerFacts.two_jobs) = Ok response)
      by (vm_compute; eexists; reflexivity).
    destruct Hgen as [response Hgen]. exists response.
    destruct (@issued_link_is_served PDFService.ascii_lower served_path
                (fun _ => true) RouterFacts.working_world
                NormalizerFacts.two_jobs response
                SanitizerFacts.ascii_lower_on_ascii
                (ascii_text "Ada" eq_refl) uuid_text Hgen)
      as (Hurl & Hok & _).
    split; [exact Hgen|]. split; [rewrite Hurl; vm_compute; reflexivity|].
    exact (Hok eq_refl).
  - assert (Hgen : exists response,
      fst (generate_resume PDFService.ascii_lower RouterFacts.working_world
             (with_name (u "J..R Tolkien") NormalizerFacts.two_jobs))
      = Ok response)
      by (vm_compute; eexists; reflexivity).
    destruct Hgen as [response Hgen]. exists response.
    destruct (@issued_link_is_served PDFService.ascii_lower served_path
                (fun _ => true) RouterFacts.working_world
                (with_name (u "J..R Tolkien") NormalizerFacts.two_jobs)
                response
                SanitizerFacts.ascii_lower_on_ascii
                (ascii_text "J..R Tolkien" eq_refl) uuid_text Hgen)
      as (Hurl & _ & Hbad).
    split; [exact Hgen|]. split; [rewrite Hurl; vm_compute; reflexivity|].
    exact (Hbad eq_refl).
Defined.

Lemma sanitized_names_share_a_file_witness :
  u "Ada Lovelace" <> u "ada_lovelace"
  /\ fst (PDFService.generate_pdf PDFService.ascii_lower
            RouterFacts.working_world (u "<p>one</p>") None
            (Some (u "Ada Lovelace")))
     = fst (PDFService.generate_pdf PDFService.ascii_lower
              RouterFacts.working_world (u "<p>two</p>") None
              (Some (u "ada_lovelace"))).
Proof.
  split; [discriminate|].
  destruct (fst (PDFService.generate_pdf PDFService.ascii_lower
                   RouterFacts.working_world (u "<p>one</p>") None
                   (Some (u "Ada Lovelace")))) as [r|e] eqn:Hr;
    [|vm_compute in Hr; discriminate Hr].
  destruct (fst (PDFService.generate_pdf PDFService.ascii_lower
                   RouterFacts.working_world (u "<p>two</p>") None
                   (Some (u "ada_lovelace")))) as [r'|e] eqn:Hr';
    [|vm_compute in Hr'; discriminate Hr'].
  f_equal.
  refine (proj1 (@sanitized_names_share_a_file PDFService.ascii_lower
                   RouterFacts.working_world (u "<p>one</p>") (u "<p>two</p>")
                   (u "Ada Lovelace") r r'
                   SanitizerFacts.ascii_lower_on_ascii
                   (ascii_text "Ada Lovelace" eq_refl) _ Hr _)).
  - vm_compute. discriminate.
  - exact Hr'.
Defined.

Definition full_disk : PDFService.World :=
  PDFService.mkWorld (u "0f8fad5b-d9cb-469f-a165-70867728950e") (u "generated")
    (Some (OtherException (u "No space left on device")))
    (fun _ _ => false) (fun _ _ _ => None).

Lemma generate_resume_failures_witness :
  fst (generate_resume PDFService.ascii_lower full_disk NormalizerFacts.two_jobs)
  = Raise (HTTPException 500 (u "Unexpected error: No space left on device"))
  /\ exists cause,
       (PDFService.mkdir_error full_disk = Some cause
        /\ HTTPException 500 (u "Unexpected error: No space left on device")
           = setup_failure cause
        /\ snd (generate_resume PDFService.ascii_lower full_disk
                  NormalizerFacts.two_jobs) = [MakeOutputDir])
       \/ (PDFService.mkdir_error full_disk = None
           /\ HTTPException 500 (u "Unexpected error: No space left on device")
              = pdf_failure cause
           /\ exists html path title,
                PDFService.xhtml2pdf_ok full_disk html path = false
                /\ PDFService.reportlab_error full_disk html path title
                   = Some cause
                /\ snd (generate_resume PDFService.ascii_lower full_disk
                          NormalizerFacts.two_jobs)
                   = [MakeOutputDir; RenderPdf path; RenderPdfFallback path]).
Proof.
  split; [reflexivity|].
  exact (proj2 (@generate_resume_failures PDFService.ascii_lower full_disk
                  NormalizerFacts.two_jobs
                  (HTTPException 500
                     (u "Unexpected error: No space left on device"))
                  eq_refl)).
Defined.

End HandlerFacts.

(** ** What is sent to the provider *)

Module OutboundFacts.
Import AIService.

Lemma In_enumerate {A} (items : list A) :
  forall start i x,
    nth_error items i = Some x -> In (start + i, x) (enumerate start items).
Proof.
  unfold enumerate.
  induction items as [|y items IH]; intros start i x H;
    [destruct i; discriminate|].
  cbn [List.length seq combine]. destruct i as [|i]; cbn in H.
  - injection H as <-. left. f_equal. lia.
  - right. replace (start + S i) with (S start + i) by lia. now apply IH.
Qed.

Lemma contains_join m sep items x :
  In x items -> contains m x = true -> contains m (join sep items) = true.
Proof.
  intros Hin Hm. induction items as [|y items IH]; [contradiction|].
  cbn [join]. destruct items as [|z items].
  - destruct Hin as [-> | []]. exact Hm.
  - destruct Hin as [-> | Hin].
    + now apply PromptFacts.contains_app_l.
    + apply PromptFacts.contains_app_r, PromptFacts.contains_app_r.
      now apply IH.
Qed.

Lemma contains_whole (m : pystr) : contains m m = true.
Proof.
  rewrite <- (app_nil_r m) at 2. apply PromptFacts.contains_self.
Qed.

(** The parts of the prompt that come from the request. *)
Definition request_parts (request : ResumeRequest.t) (text : pystr) : Prop :=
  let info := ResumeRequest.personal_info request in
  contains (PersonalInfo.full_name info) text = true
  /\ contains (PersonalInfo.email info) text = true
  /\ contains (PersonalInfo.phone info) text = true
  /\ contains (PersonalInfo.location info) text = true
  /\ contains (ResumeRequest.summary request) text = true
  /\ (forall skill, In skill (ResumeRequest.skills request) ->
        contains skill text = true)
  /\ (forall i exp,
        nth_error (ResumeRequest.experience request) i = Some exp ->
        contains (experience_block (S i) exp) text = true)
  /\ (forall edu, In edu (ResumeRequest.education request) ->
        contains (education_line edu) text = true).

Lemma context_in_prompt m request :
  contains m (skills_context request) = true
  \/ contains m (experience_context request) = true
  \/ contains m (education_context request) = true ->
  contains m (_build_optimization_prompt request) = true.
Proof.
  unfold _build_optimization_prompt. cbv zeta.
  generalize (skills_context request) (experience_context request)
    (education_context request) (job_context request)
    (linkedin_line (ResumeRequest.personal_info request))
    (portfolio_line (ResumeRequest.personal_info request)).
  intros s1 s2 s3 j l p H.
  repeat lazymatch goal with
    | |- contains _ (?a ++ _) = true =>
        lazymatch a with
        | s1 => destruct H as [H|H]; [apply PromptFacts.contains_app_l; exact H|]
        | s2 => destruct H as [H|H]; [apply PromptFacts.contains_app_l; exact H|]
        | s3 => apply PromptFacts.contains_app_l; exact H
        | _ => idtac
        end;
        apply PromptFacts.contains_app_r
    end.
Qed.

Lemma prompt_parts request :
  request_parts request (_build_optimization_prompt request).
Proof.
  unfold request_parts. cbv zeta.
  assert (Hfixed :
    contains (PersonalInfo.full_name (ResumeRequest.personal_info request))
      (_build_optimization_prompt request) = true
    /\ contains (PersonalInfo.email (ResumeRequest.personal_info request))
         (_build_optimization_prompt request) = true
    /\ contains (PersonalInfo.phone (ResumeRequest.personal_info request))
         (_build_optimization_prompt request) = true
    /\ contains (PersonalInfo.location (ResumeRequest.personal_info request))
         (_build_optimization_prompt request) = true
    /\ contains (ResumeRequest.summary request)
         (_build_optimization_prompt request) = true).
  { unfold _build_optimization_prompt. cbv zeta.
    generalize (skills_context request) (experience_context request)
      (education_context request) (job_context request)
      (linkedin_line (ResumeRequest.personal_info request))
      (portfolio_line (ResumeRequest.personal_info request)).
    intros s1 s2 s3 j l p.
    repeat split; RenderFacts.find_part. }
  destruct Hfixed as (H1 & H2 & H3 & H4 & H5).
  split; [exact H1|]. split; [exact H2|]. split; [exact H3|].
  split; [exact H4|]. split; [exact H5|]. split; [|split].
  - intros skill Hin. apply context_in_prompt. left. unfold skills_context.
    destruct (ResumeRequest.skills request) as [|s0 rest]; [contradiction|].
    apply (contains_join skill (u ", ") (s0 :: rest) skill Hin).
    apply contains_whole.
  - intros i exp Hnth. apply context_in_prompt. right. left.
    unfold experience_context.
    rewrite (RenderFacts.fold_pieces
               (fun ie => experience_block (fst ie) (snd ie))).
    cbn [app].
    apply (RenderFacts.contains_piece
             (fun ie => experience_block (fst ie) (snd ie))
             (experience_block (S i) exp)
             (enumerate 1 (ResumeRequest.experience request)) (S i, exp)).
    + apply (In_enumerate (ResumeRequest.experience request) 1 i Hnth).
    + apply contains_whole.
  - intros edu Hin. apply context_in_prompt. right. right.
    unfold education_context. rewrite (RenderFacts.fold_pieces education_line).
    cbn [app].
    apply (RenderFacts.contains_piece education_line (education_line edu)
             (ResumeRequest.education request) edu Hin).
    apply contains_whole.
Qed.

Section Sent.

Variable provider_text : Provider -> pystr -> result pystr.
Variable json_loads : pystr -> loads_outcome.

(** X17: whatever [optimize_resume] sends to a provider holds the request:
    the name, e-mail address, phone number and location of the candidate
    and the summary character for character, every skill, one block per
    experience entry, numbered from 1 in the order of the request, and one
    line per education entry. Nothing of the request is held back from
    the provider, whichever of the three is called. *)
Theorem provider_receives_the_request self request api sent :
  In (CallProvider api sent)
    (snd (optimize_resume provider_text json_loads self request)) ->
  request_parts request sent.
Proof.
  intros Hin.
  destruct (select_api self) as [chosen|e] eqn:Hsel.
  - rewrite (@ProviderFacts.optimize_resume_selected provider_text json_loads
               self request chosen Hsel) in Hin.
    cbn [snd In] in Hin. destruct Hin as [E | []]. injection E as <- <-.
    pose proof (prompt_parts request) as H. unfold request_parts in *.
    cbv zeta in *.
    assert (Hp : forall m,
      contains m (_build_optimization_prompt request) = true ->
      contains m (ProviderFacts.payload chosen
                    (_build_optimization_prompt request)) = true).
    { intros m Hm. unfold ProviderFacts.payload.
      destruct chosen; try exact Hm.
      apply PromptFacts.contains_app_r, PromptFacts.contains_app_r, Hm. }
    destruct H as (H1 & H2 & H3 & H4 & H5 & H6 & H7 & H8).
    repeat split; auto.
  - exfalso. unfold optimize_resume in Hin. rewrite Hsel in Hin.
    cbn in Hin. exact Hin.
Qed.

End Sent.

Lemma provider_receives_the_request_witness :
  let sent := _build_optimization_prompt NormalizerFacts.two_jobs in
  snd (optimize_resume SelectionFacts.constant_provider
         SelectionFacts.empty_object_loads
         (AIService.mk false false (u "o-key") [] [])
         NormalizerFacts.two_jobs)
  = [CallProvider OpenAI sent]
  /\ contains (u "ada@example.org") sent = true
  /\ contains (experience_block 2
                 (ExperienceItem.mk (u "B Ltd") (u "Lead") (u "2021")
                    (u "Present") (u "Led things"))) sent = true.
Proof.
  cbv zeta.
  assert (Hev : snd (optimize_resume SelectionFacts.constant_provider
                       SelectionFacts.empty_object_loads
                       (AIService.mk false false (u "o-key") [] [])
                       NormalizerFacts.two_jobs)
                = [CallProvider OpenAI
                     (_build_optimization_prompt NormalizerFacts.two_jobs)]).
  { rewrite (@ProviderFacts.optimize_resume_selected
               SelectionFacts.constant_provider
               SelectionFacts.empty_object_loads
               (AIService.mk false false (u "o-key") [] [])
               NormalizerFacts.two_jobs OpenAI eq_refl).
    reflexivity. }
  split; [exact Hev|].
  pose proof (@provider_receives_the_request
                SelectionFacts.constant_provider
                SelectionFacts.empty_object_loads
                (AIService.mk false false (u "o-key") [] [])
                NormalizerFacts.two_jobs OpenAI
                (_build_optimization_prompt NormalizerFacts.two_jobs)) as H.
  rewrite Hev in H. specialize (H (or_introl eq_refl)).
  unfold request_parts in H. cbv zeta in H.
  destruct H as (_ & He & _ & _ & _ & _ & Hx & _).
  split; [exact He|]. exact (Hx 1 _ eq_refl).
Defined.

End OutboundFacts.
